(** * DigiPathAI: the strided patch dataset of [loaders/dataloader.py]

    A shallow embedding of [WSIStridedPatchDataset]: the construction
    ([__init__] followed by [_preprocess]), the length query ([__len__])
    and the indexed access ([__getitem__]), together with the parts of
    numpy and PIL the class relies on.

    Conventions.
    - Python integers and numpy [int64] indices are [Z] (the indices of an
      in-memory array are far below the 64-bit limit, so no wrap-around is
      involved); [uint8] cells are [Z] with the reduction modulo 256
      written where numpy performs one.
    - The boundary tests of lines 122-125 mix an [int64] index with the
      Python integer [image_size // 2]: [fits] reads them on [Z],
      [fits_int64] on [int64], and the two agree within [int64_safe],
      which the results on the outcome of those tests assume.
    - A two-dimensional array is the list of its rows.
    - A Python exception is a constructor of [exn]; code that may raise
      returns a [result].
    - [print] writes to the standard output only; what is kept of line 120
      is the evaluation of its arguments, which may raise. *)

From Stdlib Require Import ZArith List String Bool Lia QArith.
From Stdlib Require Import Floats.SpecFloat.
From Stdlib Require Import Sorting.Sorted.
From stdpp Require Import base list.

Local Open Scope Z_scope.

(** ** Exceptions and results *)

Inductive exn : Type :=
| ValueError
| IndexError
| AttributeError
| DecodeError.

Inductive result (A : Type) : Type :=
| Ok (a : A)
| Raise (e : exn).

Arguments Ok {A} a.
Arguments Raise {A} e.

Definition bind {A B : Type} (r : result A) (k : A -> result B) : result B :=
  match r with
  | Ok a => k a
  | Raise e => Raise e
  end.

Notation "'let*' x := r 'in' k" := (bind r (fun x => k))
  (at level 10, x name, r at level 100, k at level 200).

Definition is_ok {A : Type} (r : result A) : bool :=
  match r with Ok _ => true | Raise _ => false end.

(** ** The numpy operations used by the class *)

Module np.

Abbreviation ndarray2 A := (list (list A)) (only parsing).

(** [a.shape] of a two-dimensional array. *)
Definition shape {A : Type} (a : ndarray2 A) : Z * Z :=
  (Z.of_nat (length a),
   match a with
   | [] => 0
   | r :: _ => Z.of_nat (length r)
   end).

(** [a[i, j]]. *)
Definition cell {A : Type} (a : ndarray2 A) (i j : nat) : option A :=
  match a !! i with
  | Some r => r !! j
  | None => None
  end.

(** [np.uint8(a)]: every cell reduced modulo 256. *)
Definition uint8 (a : ndarray2 Z) : ndarray2 Z :=
  map (map (fun v => v mod 256)) a.

Definition zeros_like (a : ndarray2 Z) : ndarray2 Z :=
  map (map (fun _ => 0)) a.

Definition ones_like (a : ndarray2 Z) : ndarray2 Z :=
  map (map (fun _ => 1)) a.

(** The indices selected by the slice [::step] on an axis of length [n]:
    [range(0, n, step)] for a positive step, [range(n-1, -1, step)] for a
    negative one; a zero step raises [ValueError]. *)
Definition slice_indices (n step : Z) : result (list nat) :=
  if step =? 0 then Raise ValueError
  else
    let start := if 0 <? step then 0 else n - 1 in
    let count := (n + Z.abs step - 1) / Z.abs step in
    Ok (map (fun k => Z.to_nat (start + Z.of_nat k * step))
            (seq 0 (Z.to_nat count))).

(** [r[js] = v] on one row, index by index. *)
Definition assign_row (js : list nat) (v : Z) (r : list Z) : list Z :=
  foldr (fun j acc => <[j:=v]> acc) r js.

(** [a[::step, ::step] = v]. *)
Definition assign_strided (a : ndarray2 Z) (step v : Z)
  : result (ndarray2 Z) :=
  let '(X, Y) := shape a in
  let* is_ := slice_indices X step in
  let* js := slice_indices Y step in
  Ok (foldr (fun i acc => alter (assign_row js v) i acc) a is_).

(** [a * b] on [uint8] arrays of one shape: the product modulo 256. *)
Definition mul (a b : ndarray2 Z) : ndarray2 Z :=
  zip_with (zip_with (fun x y => (x * y) mod 256)) a b.

(** The column indices of the nonzero cells of a row, scanned from
    column [k] on. *)
Fixpoint nonzero_from (k : nat) (r : list Z) : list nat :=
  match r with
  | [] => []
  | v :: r' =>
      if v =? 0 then nonzero_from (S k) r'
      else k :: nonzero_from (S k) r'
  end.

(** The positions of the nonzero cells in row-major order, scanned from
    row [i] on. *)
Fixpoint nonzero_rows (i : nat) (a : ndarray2 Z) : list (nat * nat) :=
  match a with
  | [] => []
  | r :: a' => map (pair i) (nonzero_from 0 r) ++ nonzero_rows (S i) a'
  end.

(** [np.where(a)]: the row indices and the column indices of the nonzero
    cells, as two arrays of equal length. *)
Definition where_ (a : ndarray2 Z) : list Z * list Z :=
  let ps := nonzero_rows 0 a in
  (map (fun p => Z.of_nat (fst p)) ps, map (fun p => Z.of_nat (snd p)) ps).

(** [t.max()] and [t.min()]: both raise [ValueError] on an empty array. *)
Definition max (t : list Z) : result Z :=
  match t with
  | [] => Raise ValueError
  | x :: t' => Ok (fold_left Z.max t' x)
  end.

Definition min (t : list Z) : result Z :=
  match t with
  | [] => Raise ValueError
  | x :: t' => Ok (fold_left Z.min t' x)
  end.

(** [t[idx]] on a one-dimensional array: a negative index counts from the
    end, and an index outside [-len, len) raises [IndexError]. *)
Definition item (t : list Z) (idx : Z) : result Z :=
  let n := Z.of_nat (length t) in
  let i := if idx <? 0 then idx + n else idx in
  if (0 <=? i) && (i <? n) then
    match t !! Z.to_nat i with
    | Some v => Ok v
    | None => Raise IndexError
    end
  else Raise IndexError.

(** [np.zeros((h, w), dtype=np.uint8)]: negative dimensions raise
    [ValueError]. *)
Definition zeros (h w : Z) : result (ndarray2 Z) :=
  if (h <? 0) || (w <? 0) then Raise ValueError
  else Ok (repeat (repeat 0 (Z.to_nat w)) (Z.to_nat h)).

End np.

(** ** The PIL operations used by the class

    An image is held as the array [np.array(img)] gives back: the list of
    its rows, top to bottom, each row left to right.  [Image.fromarray]
    and [np.array] are then the identity on the stored rows. *)

Module PIL.

Inductive Transpose : Type :=
| FLIP_LEFT_RIGHT
| ROTATE_90
| ROTATE_180
| ROTATE_270.

Abbreviation Image A := (list (list A)) (only parsing).

Definition fromarray {A : Type} (a : np.ndarray2 A) : Image A := a.

Definition width {A : Type} (im : Image A) : nat :=
  match im with
  | [] => 0
  | r :: _ => length r
  end.

(** Column [j], read top to bottom. *)
Definition column {A : Type} (im : Image A) (j : nat) : list A :=
  omap (fun r => r !! j) im.

Definition columns {A : Type} (im : Image A) : list (list A) :=
  map (column im) (seq 0 (width im)).

(** [img.transpose(method)]; the rotations are counter-clockwise: after
    [ROTATE_90] the right column, read downwards, is the top row. *)
Definition transpose {A : Type} (method : Transpose) (im : Image A)
  : Image A :=
  match method with
  | FLIP_LEFT_RIGHT => map (@rev A) im
  | ROTATE_90 => rev (columns im)
  | ROTATE_180 => rev (map (@rev A) im)
  | ROTATE_270 => map (@rev A) (columns im)
  end.

End PIL.

(** ** IEEE binary32 arithmetic ([np.float32])

    The operations of the Standard Library's executable specification of
    IEEE 754, at precision 24 and maximal exponent 128, rounding to
    nearest even. *)

Module f32.

Definition prec : Z := 24.
Definition emax : Z := 128.

(** The conversion of an integer ([uint8] cell or Python constant). *)
Definition of_Z (v : Z) : spec_float := binary_normalize prec emax v 0 false.

Definition sub : spec_float -> spec_float -> spec_float := SFsub prec emax.
Definition div : spec_float -> spec_float -> spec_float := SFdiv prec emax.

(** The rational a finite float stands for. *)
Definition to_Q (x : spec_float) : option Q :=
  match x with
  | S754_zero _ => Some 0%Q
  | S754_finite s m e =>
      Some (inject_Z (if s then Z.neg m else Z.pos m) * Qpower 2 e)%Q
  | _ => None
  end.

End f32.

(** ** The collaborators imported from [..helpers.utils]

    Their code is not part of [loaders/dataloader.py]; the class is
    modelled over any implementation of them. *)

(** A pixel of an RGB raster: its channel values. *)
Abbreviation pixel := (list Z) (only parsing).

Record helpers : Type := {
  (** Modelled from the spec: [np.array(ReadWholeSlideImage(path).convert('RGB'))],
      the decoded three-channel raster, or the decoding failure. *)
  ReadWholeSlideImage_RGB : string -> result (np.ndarray2 pixel);
  (** Modelled from the spec: [np.array(ReadWholeSlideImage(path).convert('L'))],
      the decoded single-channel raster, or the decoding failure. *)
  ReadWholeSlideImage_L : string -> result (np.ndarray2 Z);
  (** Modelled from the spec: [TissueMaskGeneration(image)], the tissue
      mask computed from the slide raster. *)
  TissueMaskGeneration : np.ndarray2 pixel -> np.ndarray2 Z;
  (** Modelled from the spec: [BinMorphoProcessMask(mask)], the
      morphological cleanup of a mask. *)
  BinMorphoProcessMask : np.ndarray2 Z -> np.ndarray2 Z;
  (** Modelled from the spec: [getImagePatch(image, center, size)], the
      square patch of side [size] centred at [center], as a PIL image. *)
  getImagePatch : forall A : Type, np.ndarray2 A -> Z * Z -> Z -> PIL.Image A
}.

(** ** The class [WSIStridedPatchDataset] *)

(** The attributes [__init__] copies from its arguments (lines 66-74). *)
Record params : Type := {
  _wsi_path : string;
  _mask_path : option string;
  _label_path : option string;
  _image_size : Z;
  _normalize : bool;
  _flip : string;
  _rotate : string;
  _sampling_stride : Z;
  _roi_masking : bool
}.

(** The object once [_preprocess] has run. *)
Record WSIStridedPatchDataset : Type := {
  self_params :> params;
  _slide : np.ndarray2 pixel;
  _label_slide : option (np.ndarray2 Z);
  _mask : np.ndarray2 Z;
  _strided_mask : np.ndarray2 Z;
  _X_idcs : list Z;
  _Y_idcs : list Z;
  _idcs_num : Z
}.

(** The four comparisons of lines 122-125. *)
Definition fits (image_size X_mask Y_mask x_ y_ : Z) : bool :=
  let case1 := x_ - image_size / 2 >? 0 in
  let case2 := x_ + image_size / 2 <? X_mask in
  let case3 := y_ - image_size / 2 >? 0 in
  let case4 := y_ + image_size / 2 <? Y_mask in
  case1 && case2 && case3 && case4.

(** One iteration of the loop of lines 121-128 on the two growing lists. *)
Definition keep_fitting (image_size X_mask Y_mask : Z)
  (idcs : list Z * list Z) (p : Z * Z) : list Z * list Z :=
  let '(x_, y_) := p in
  if fits image_size X_mask Y_mask x_ y_
  then (fst idcs ++ [x_], snd idcs ++ [y_])
  else idcs.

(** Lines 164-178 on the pair of patches: one flip test, then the three
    rotation tests in sequence. *)
Definition augment {A B : Type} (flip rotate : string)
  (patches : PIL.Image A * PIL.Image B) : PIL.Image A * PIL.Image B :=
  let '(img, label_img) := patches in
  let '(img, label_img) :=
    if String.eqb flip "FLIP_LEFT_RIGHT"
    then (PIL.transpose PIL.FLIP_LEFT_RIGHT img,
          PIL.transpose PIL.FLIP_LEFT_RIGHT label_img)
    else (img, label_img) in
  let '(img, label_img) :=
    if String.eqb rotate "ROTATE_90"
    then (PIL.transpose PIL.ROTATE_90 img,
          PIL.transpose PIL.ROTATE_90 label_img)
    else (img, label_img) in
  let '(img, label_img) :=
    if String.eqb rotate "ROTATE_180"
    then (PIL.transpose PIL.ROTATE_180 img,
          PIL.transpose PIL.ROTATE_180 label_img)
    else (img, label_img) in
  let '(img, label_img) :=
    if String.eqb rotate "ROTATE_270"
    then (PIL.transpose PIL.ROTATE_270 img,
          PIL.transpose PIL.ROTATE_270 label_img)
    else (img, label_img) in
  (img, label_img).

(** [np.array(img, dtype=np.float32)] on an image with channels. *)
Definition array_float32 (img : PIL.Image pixel)
  : list (list (list spec_float)) :=
  map (map (map f32.of_Z)) img.

(** [np.array(label_img, dtype=np.uint8)] on a single-channel image. *)
Definition array_uint8 (label_img : PIL.Image Z) : np.ndarray2 Z :=
  map (map (fun v => v mod 256)) label_img.

(** [(v - 128.0) / 128.0] on one [float32] value. *)
Definition rescale (v : spec_float) : spec_float :=
  f32.div (f32.sub v (f32.of_Z 128)) (f32.of_Z 128).

Section Dataset.

Variable utils : helpers.

Definition _preprocess (self : params) : result WSIStridedPatchDataset :=
  let* slide := ReadWholeSlideImage_RGB utils (_wsi_path self) in
  let factor := _sampling_stride self in
  let '(X_slide, Y_slide) := np.shape slide in
  let* label_slide :=
    match _label_path self with
    | Some label_path =>
        let* l := ReadWholeSlideImage_L utils label_path in Ok (Some l)
    | None => Ok None
    end in
  let* mask :=
    match _mask_path self with
    | Some mask_path => ReadWholeSlideImage_L utils mask_path
    | None => Ok (TissueMaskGeneration utils slide)
    end in
  let mask := BinMorphoProcessMask utils (np.uint8 mask) in
  let '(X_mask, Y_mask) := np.shape mask in
  let strided_mask := np.ones_like mask in
  let ones_mask := np.zeros_like mask in
  let* ones_mask := np.assign_strided ones_mask factor 1 in
  let strided_mask :=
    if _roi_masking self then np.mul ones_mask mask else ones_mask in
  let '(tempX, tempY) := np.where_ strided_mask in
  let* _ := np.max tempX in
  let* _ := np.min tempX in
  let* _ := np.max tempY in
  let* _ := np.min tempY in
  let '(X_idcs, Y_idcs) :=
    fold_left (keep_fitting (_image_size self) X_mask Y_mask)
              (combine tempX tempY) ([], []) in
  Ok {| self_params := self;
        _slide := slide;
        _label_slide := label_slide;
        _mask := mask;
        _strided_mask := strided_mask;
        _X_idcs := X_idcs;
        _Y_idcs := Y_idcs;
        _idcs_num := Z.of_nat (length X_idcs) |}.

Definition __init__ (wsi_path : string) (mask_path label_path : option string)
  (image_size : Z) (normalize : bool) (flip rotate : string)
  (sampling_stride : Z) (roi_masking : bool)
  : result WSIStridedPatchDataset :=
  _preprocess {| _wsi_path := wsi_path;
                 _mask_path := mask_path;
                 _label_path := label_path;
                 _image_size := image_size;
                 _normalize := normalize;
                 _flip := flip;
                 _rotate := rotate;
                 _sampling_stride := sampling_stride;
                 _roi_masking := roi_masking |}.

Definition __len__ (self : WSIStridedPatchDataset) : Z := _idcs_num self.

Definition get_mask (self : WSIStridedPatchDataset) : np.ndarray2 Z :=
  _mask self.

(** [get_label_mask]: the attribute exists only when a label path was
    given. *)
Definition get_label_mask (self : WSIStridedPatchDataset)
  : result (np.ndarray2 Z) :=
  match _label_slide self with
  | Some label_slide => Ok label_slide
  | None => Raise AttributeError
  end.

Definition get_image (self : WSIStridedPatchDataset) : np.ndarray2 pixel :=
  _slide self.

Definition get_strided_mask (self : WSIStridedPatchDataset)
  : np.ndarray2 Z := _strided_mask self.

Definition __getitem__ (self : WSIStridedPatchDataset) (idx : Z)
  : result (list (list (list spec_float)) * Z * Z * np.ndarray2 Z) :=
  let* x_coord := np.item (_X_idcs self) idx in
  let* y_coord := np.item (_Y_idcs self) idx in
  let x := x_coord in
  let y := y_coord in
  let img := getImagePatch utils pixel (_slide self) (x, y) (_image_size self) in
  let* label_img :=
    match _label_path self with
    | Some _ =>
        match _label_slide self with
        | Some label_slide =>
            Ok (getImagePatch utils Z label_slide (x, y) (_image_size self))
        | None => Raise AttributeError
        end
    | None =>
        let* z := np.zeros (_image_size self) (_image_size self) in
        Ok (PIL.fromarray z)
    end in
  let '(img, label_img) :=
    augment (_flip self) (_rotate self) (img, label_img) in
  let img := array_float32 img in
  let label_img := array_uint8 label_img in
  let img :=
    if _normalize self then map (map (map rescale)) img else img in
  Ok (img, x_coord, y_coord, label_img).

End Dataset.

(** ** Notions used to state the properties *)

(** The nonzero test behind [np.where]. *)
Definition nonzero_at (a : np.ndarray2 Z) (p : nat * nat) : bool :=
  match np.cell a (fst p) (snd p) with
  | Some v => negb (v =? 0)
  | None => false
  end.

(** All the positions of an array of shape [(X, Y)], in row-major order. *)
Definition positions (X Y : nat) : list (nat * nat) :=
  list_prod (seq 0 X) (seq 0 Y).

(** The candidate centres: the nonzero positions of the strided mask, as
    the integers [np.where] returns. *)
Definition candidates (strided_mask : np.ndarray2 Z) : list (Z * Z) :=
  map (fun p => (Z.of_nat (fst p), Z.of_nat (snd p)))
      (np.nonzero_rows 0 strided_mask).

(** The entries of the coordinate index, as pairs. *)
Definition coordinates (self : WSIStridedPatchDataset) : list (Z * Z) :=
  combine (_X_idcs self) (_Y_idcs self).

Definition fits_mask (image_size : Z) (mask : np.ndarray2 Z) (p : Z * Z)
  : bool :=
  fits image_size (fst (np.shape mask)) (snd (np.shape mask)) (fst p) (snd p).

(** The mask source of lines 85-89. *)
Definition mask_source (utils : helpers) (mask_path : option string)
  (slide : np.ndarray2 pixel) : result (np.ndarray2 Z) :=
  match mask_path with
  | Some mask_path => ReadWholeSlideImage_L utils mask_path
  | None => Ok (TissueMaskGeneration utils slide)
  end.

(** The label source of lines 82-83 decodes, when there is one. *)
Definition label_decodes (utils : helpers) (label_path : option string)
  : Prop :=
  match label_path with
  | Some label_path =>
      exists l, ReadWholeSlideImage_L utils label_path = Ok l
  | None => True
  end.

(** A numpy array has rows of one length, the second component of its
    shape; the list of rows does not enforce it, so the properties that
    depend on it assume it. *)
Definition rectangular {A : Type} (a : np.ndarray2 A) : Prop :=
  Forall (fun r => Z.of_nat (length r) = snd (np.shape a)) a.

(** The cells of a [uint8] array are in [0, 256). *)
Definition is_uint8 (a : np.ndarray2 Z) : Prop :=
  forall i j v, np.cell a i j = Some v -> 0 <= v < 256.

(** The stride lattice as the specification words it: 1 where the row
    index and the column index are both multiples of the stride, 0
    elsewhere. *)
Definition lattice_value (stride : Z) (i j : nat) : Z :=
  if (Z.of_nat i mod stride =? 0) && (Z.of_nat j mod stride =? 0)
  then 1 else 0.

(** Two arrays of one shape, row by row. *)
Definition same_shape {A B : Type} (a : np.ndarray2 A) (b : np.ndarray2 B)
  : Prop :=
  Forall2 (fun ra rb => length ra = length rb) a b.

(** The positions of the mask, in row-major order. *)
Definition mask_positions (mask : np.ndarray2 Z) : list (nat * nat) :=
  positions (Z.to_nat (fst (np.shape mask))) (Z.to_nat (snd (np.shape mask))).

(** The count the specification gives for the length: the positions where
    the strided mask is nonzero and the boundary test passes. *)
Definition selected (self : WSIStridedPatchDataset) (p : nat * nat) : bool :=
  nonzero_at (_strided_mask self) p &&
  fits_mask (_image_size self) (_mask self)
            (Z.of_nat (fst p), Z.of_nat (snd p)).

Definition count_selected (self : WSIStridedPatchDataset) : Z :=
  Z.of_nat (length (List.filter (selected self) (mask_positions (_mask self)))).

(** The transposition the flip mode asks for, and the one the rotate mode
    asks for. *)
Definition flip_ops (flip : string) : list PIL.Transpose :=
  if String.eqb flip "FLIP_LEFT_RIGHT" then [PIL.FLIP_LEFT_RIGHT] else [].

Definition rotate_ops (rotate : string) : list PIL.Transpose :=
  if String.eqb rotate "ROTATE_90" then [PIL.ROTATE_90]
  else if String.eqb rotate "ROTATE_180" then [PIL.ROTATE_180]
  else if String.eqb rotate "ROTATE_270" then [PIL.ROTATE_270]
  else [].

(** A sequence of transpositions applied first to last. *)
Definition apply_ops {A : Type} (ops : list PIL.Transpose) (im : PIL.Image A)
  : PIL.Image A :=
  fold_left (fun im method => PIL.transpose method im) ops im.

(** The label patch before the transforms (lines 159-162). *)
Definition label_patch (utils : helpers) (self : WSIStridedPatchDataset)
  (x y : Z) : result (PIL.Image Z) :=
  match _label_path self with
  | Some _ =>
      match _label_slide self with
      | Some label_slide =>
          Ok (getImagePatch utils Z label_slide (x, y) (_image_size self))
      | None => Raise AttributeError
      end
  | None =>
      let* z := np.zeros (_image_size self) (_image_size self) in
      Ok (PIL.fromarray z)
  end.

(** The image array returned for a transformed patch (lines 181-185). *)
Definition encode (normalize : bool) (img : PIL.Image pixel)
  : list (list (list spec_float)) :=
  if normalize then map (map (map rescale)) (array_float32 img)
  else array_float32 img.

(** A finite [float32] value stands for the rational [q]. *)
Definition represents (x : spec_float) (q : Q) : Prop :=
  match f32.to_Q x with
  | Some r => (r == q)%Q
  | None => False
  end.

(** The three facts about one raw value [v] that the normalization
    property is made of, as a test: the rescaled value is (v - 128) / 128,
    the converted value is v, and the [uint8] conversion keeps v. *)
Definition raw_value_ok (v : Z) : bool :=
  match f32.to_Q (rescale (f32.of_Z v)), f32.to_Q (f32.of_Z v) with
  | Some r, Some r0 =>
      Qeq_bool r (Qmake (v - 128) 128) && Qeq_bool r0 (inject_Z v)
      && (v mod 256 =? v)
  | _, _ => false
  end.

(** ** A concrete set of collaborators, for running the model *)

Module Demo.

(** Python's [a[lo:hi]] for [0 <= lo]. *)
Definition slice {A : Type} (lo hi : Z) (l : list A) : list A :=
  firstn (Z.to_nat (hi - lo)) (skipn (Z.to_nat lo) l).

Definition crop (A : Type) (image : np.ndarray2 A) (center : Z * Z)
  (size : Z) : PIL.Image A :=
  let '(x, y) := center in
  map (slice (y - size / 2) (y - size / 2 + size))
      (slice (x - size / 2) (x - size / 2 + size) image).

(** The files of the demonstration, by path. *)
Definition files (gray : string -> option (np.ndarray2 Z)) (path : string)
  : result (np.ndarray2 Z) :=
  match gray path with
  | Some a => Ok a
  | None => Raise DecodeError
  end.

Definition utils (slide : np.ndarray2 pixel)
  (gray : string -> option (np.ndarray2 Z)) : helpers :=
  {| ReadWholeSlideImage_RGB := fun _ => Ok slide;
     ReadWholeSlideImage_L := files gray;
     TissueMaskGeneration := fun s => map (map (fun _ => 1)) s;
     BinMorphoProcessMask := fun m => m;
     getImagePatch := crop |}.

(** A slide of [n] rows and [m] columns; pixel (i, j) has the channels
    [10 i + j], 128 and 255. *)
Definition slide (n m : nat) : np.ndarray2 pixel :=
  map (fun i => map (fun j => [Z.of_nat (10 * i + j); 128; 255]) (seq 0 m))
      (seq 0 n).

Definition full (v : Z) (n m : nat) : np.ndarray2 Z := repeat (repeat v m) n.

(** One mask file and one label file. *)
Definition disk (mask label : np.ndarray2 Z) (path : string)
  : option (np.ndarray2 Z) :=
  if String.eqb path "mask" then Some mask
  else if String.eqb path "label" then Some label
  else None.

(** A 6 x 6 slide with a tissue mask that is 1 everywhere. *)
Definition tissue : helpers := utils (slide 6 6) (disk (full 1 6 6) (full 7 6 6)).

(** A 6 x 6 slide with a tissue mask that is 0 everywhere. *)
Definition glass : helpers := utils (slide 6 6) (disk (full 0 6 6) (full 7 6 6)).

(** A 2 x 2 slide with a 6 x 6 mask and a 3 x 3 label raster. *)
Definition mismatched : helpers :=
  utils (slide 2 2) (disk (full 1 6 6) (full 7 3 3)).

(** The lattice of stride 2 on a 6 x 6 array. *)
Definition lattice2 : np.ndarray2 Z :=
  [[1; 0; 1; 0; 1; 0]; [0; 0; 0; 0; 0; 0]; [1; 0; 1; 0; 1; 0];
   [0; 0; 0; 0; 0; 0]; [1; 0; 1; 0; 1; 0]; [0; 0; 0; 0; 0; 0]].

(** The lattice of stride -2 on a 6 x 6 array, anchored at the last row
    and column. *)
Definition lattice2_rev : np.ndarray2 Z :=
  [[0; 0; 0; 0; 0; 0]; [0; 1; 0; 1; 0; 1]; [0; 0; 0; 0; 0; 0];
   [0; 1; 0; 1; 0; 1]; [0; 0; 0; 0; 0; 0]; [0; 1; 0; 1; 0; 1]].

(** The object built from [tissue] with patches of side 2, stride 2, ROI
    masking, a flip and a rotation by 90 degrees, and no label. *)
Definition ds_tissue : WSIStridedPatchDataset :=
  {| self_params :=
       {| _wsi_path := "wsi"; _mask_path := Some "mask"%string;
          _label_path := None; _image_size := 2; _normalize := true;
          _flip := "FLIP_LEFT_RIGHT"; _rotate := "ROTATE_90";
          _sampling_stride := 2; _roi_masking := true |};
     _slide := slide 6 6;
     _label_slide := None;
     _mask := full 1 6 6;
     _strided_mask := lattice2;
     _X_idcs := [2; 2; 4; 4];
     _Y_idcs := [2; 4; 2; 4];
     _idcs_num := 4 |}.

(** The object built from [tissue] with stride 1: every interior position
    is an entry. *)
Definition ds_dense : WSIStridedPatchDataset :=
  {| self_params :=
       {| _wsi_path := "wsi"; _mask_path := Some "mask"%string;
          _label_path := None; _image_size := 2; _normalize := false;
          _flip := "NONE"; _rotate := "NONE";
          _sampling_stride := 1; _roi_masking := true |};
     _slide := slide 6 6;
     _label_slide := None;
     _mask := full 1 6 6;
     _strided_mask := full 1 6 6;
     _X_idcs := [2; 2; 2; 3; 3; 3; 4; 4; 4];
     _Y_idcs := [2; 3; 4; 2; 3; 4; 2; 3; 4];
     _idcs_num := 9 |}.

(** The object built from [glass] without ROI masking. *)
Definition ds_glass : WSIStridedPatchDataset :=
  {| self_params :=
       {| _wsi_path := "wsi"; _mask_path := Some "mask"%string;
          _label_path := None; _image_size := 2; _normalize := true;
          _flip := "NONE"; _rotate := "NONE";
          _sampling_stride := 2; _roi_masking := false |};
     _slide := slide 6 6;
     _label_slide := None;
     _mask := full 0 6 6;
     _strided_mask := lattice2;
     _X_idcs := [2; 2; 4; 4];
     _Y_idcs := [2; 4; 2; 4];
     _idcs_num := 4 |}.

End Demo.

(** ** Further notions *)

(** The row-major order on positions: by row, then by column. *)
Definition row_major_lt (p q : Z * Z) : Prop :=
  fst p < fst q \/ (fst p = fst q /\ snd p < snd q).

(** Index [i] of an axis of length [n] is selected by the slice
    [::step]: a multiple of a positive step, or at a multiple of the step
    from the last index for a negative one. *)
Definition on_axis (n step : Z) (i : nat) : bool :=
  if 0 <? step then Z.of_nat i mod step =? 0
  else (n - 1 - Z.of_nat i) mod (- step) =? 0.

(** The value the lattice mask of a stride holds at a position of the
    mask. *)
Definition lattice_at (mask : np.ndarray2 Z) (step : Z) (i j : nat) : Z :=
  if on_axis (fst (np.shape mask)) step i && on_axis (snd (np.shape mask)) step j
  then 1 else 0.

(** A square image or array of side [n]: [n] rows of [n] cells. *)
Definition is_square {A : Type} (n : nat) (im : list (list A)) : Prop :=
  length im = n /\ Forall (fun r => length r = n) im.

(** The raw values 0..255 keep their order under the rescaling, and the
    rescaled values lie between -1.0 and 1.0, as comparisons of [float32]
    values. *)
Definition rescaled_in_range (v : Z) : bool :=
  SFleb (f32.of_Z (-1)) (rescale (f32.of_Z v))
  && SFltb (rescale (f32.of_Z v)) (f32.of_Z 1).

Definition rescaled_in_order (p : Z * Z) : bool :=
  if fst p <? snd p
  then SFltb (rescale (f32.of_Z (fst p))) (rescale (f32.of_Z (snd p)))
  else true.

(** The position of the source pixel that a transposition of a square
    image of side [n] moves to position [(i, j)]. *)
Definition source_position (method : PIL.Transpose) (n : nat)
  (p : nat * nat) : nat * nat :=
  let '(i, j) := p in
  match method with
  | PIL.FLIP_LEFT_RIGHT => (i, n - S j)
  | PIL.ROTATE_90 => (j, n - S i)
  | PIL.ROTATE_180 => (n - S i, n - S j)
  | PIL.ROTATE_270 => (n - S j, i)
  end%nat.

(** The same for a sequence of transpositions applied first to last. *)
Fixpoint source_of (ops : list PIL.Transpose) (n : nat) (p : nat * nat)
  : nat * nat :=
  match ops with
  | [] => p
  | method :: ops' => source_position method n (source_of ops' n p)
  end.

(** Further objects built from the collaborators of [Demo]. *)
Module Cases.

(** [Demo.tissue] with the label file, patches of side 2 and stride 2. *)
Definition ds_labelled : WSIStridedPatchDataset :=
  {| self_params :=
       {| _wsi_path := "wsi"; _mask_path := Some "mask"%string;
          _label_path := Some "label"%string; _image_size := 2;
          _normalize := false; _flip := "NONE"; _rotate := "ROTATE_270";
          _sampling_stride := 2; _roi_masking := true |};
     _slide := Demo.slide 6 6;
     _label_slide := Some (Demo.full 7 6 6);
     _mask := Demo.full 1 6 6;
     _strided_mask := Demo.lattice2;
     _X_idcs := [2; 2; 4; 4];
     _Y_idcs := [2; 4; 2; 4];
     _idcs_num := 4 |}.

(** [Demo.tissue] with patches of side 6: no centre fits the 6 x 6 mask. *)
Definition ds_no_room : WSIStridedPatchDataset :=
  {| self_params :=
       {| _wsi_path := "wsi"; _mask_path := Some "mask"%string;
          _label_path := None; _image_size := 6;
          _normalize := true; _flip := "NONE"; _rotate := "NONE";
          _sampling_stride := 2; _roi_masking := true |};
     _slide := Demo.slide 6 6;
     _label_slide := None;
     _mask := Demo.full 1 6 6;
     _strided_mask := Demo.lattice2;
     _X_idcs := [];
     _Y_idcs := [];
     _idcs_num := 0 |}.

(** [Demo.tissue] with the stride -2. *)
Definition ds_reversed : WSIStridedPatchDataset :=
  {| self_params :=
       {| _wsi_path := "wsi"; _mask_path := Some "mask"%string;
          _label_path := None; _image_size := 2;
          _normalize := true; _flip := "NONE"; _rotate := "NONE";
          _sampling_stride := -2; _roi_masking := true |};
     _slide := Demo.slide 6 6;
     _label_slide := None;
     _mask := Demo.full 1 6 6;
     _strided_mask := Demo.lattice2_rev;
     _X_idcs := [3];
     _Y_idcs := [3];
     _idcs_num := 1 |}.

(** Two 2 x 2 patches. *)
Definition img2 : PIL.Image Z := [[1; 2]; [3; 4]].
Definition lab2 : PIL.Image Z := [[5; 6]; [7; 8]].

(** A tissue mask with a hole at row 2, column 4, and its collaborators. *)
Definition holed_mask : np.ndarray2 Z :=
  [[1; 1; 1; 1; 1; 1]; [1; 1; 1; 1; 1; 1]; [1; 1; 1; 1; 0; 1];
   [1; 1; 1; 1; 1; 1]; [1; 1; 1; 1; 1; 1]; [1; 1; 1; 1; 1; 1]].

Definition holed : helpers :=
  Demo.utils (Demo.slide 6 6) (Demo.disk holed_mask (Demo.full 7 6 6)).

Definition holed_params (roi_masking : bool) : params :=
  {| _wsi_path := "wsi"; _mask_path := Some "mask"%string;
     _label_path := None; _image_size := 2;
     _normalize := true; _flip := "NONE"; _rotate := "NONE";
     _sampling_stride := 2; _roi_masking := roi_masking |}.

(** The objects built from [holed] with and without ROI masking. *)
Definition ds_holed_roi : WSIStridedPatchDataset :=
  {| self_params := holed_params true;
     _slide := Demo.slide 6 6;
     _label_slide := None;
     _mask := holed_mask;
     _strided_mask :=
       [[1; 0; 1; 0; 1; 0]; [0; 0; 0; 0; 0; 0]; [1; 0; 1; 0; 0; 0];
        [0; 0; 0; 0; 0; 0]; [1; 0; 1; 0; 1; 0]; [0; 0; 0; 0; 0; 0]];
     _X_idcs := [2; 4; 4];
     _Y_idcs := [2; 2; 4];
     _idcs_num := 3 |}.

Definition ds_holed_all : WSIStridedPatchDataset :=
  {| self_params := holed_params false;
     _slide := Demo.slide 6 6;
     _label_slide := None;
     _mask := holed_mask;
     _strided_mask := Demo.lattice2;
     _X_idcs := [2; 2; 4; 4];
     _Y_idcs := [2; 4; 2; 4];
     _idcs_num := 4 |}.

End Cases.

(** Row (or column) [i] may carry a centre: it is a multiple of the
    stride and leaves room for half a patch on both sides of an axis of
    length [n]. *)
Definition admissible (stride image_size n : Z) (i : nat) : bool :=
  (Z.of_nat i mod stride =? 0)
  && (Z.of_nat i - image_size / 2 >? 0)
  && (Z.of_nat i + image_size / 2 <? n).

(** A position as the pair of integers [np.where] reports. *)
Definition to_Z2 (p : nat * nat) : Z * Z :=
  (Z.of_nat (fst p), Z.of_nat (snd p)).

(** The mask is nonzero at a centre. *)
Definition on_tissue (mask : np.ndarray2 Z) (p : Z * Z) : bool :=
  nonzero_at mask (Z.to_nat (fst p), Z.to_nat (snd p)).

(** ** The boundary tests as numpy computes them

    [x_] and [y_] come from [np.where] and are [int64] scalars, so lines
    122-125 convert [image_size // 2] to [int64], which raises
    [OverflowError] when it does not fit, and add and subtract modulo
    2^64.  [fits] reads the same tests on unbounded integers; the two
    agree on the positions of a mask when the patch size and the shape of
    the mask are within [int64_safe]. *)

Module int64.

Definition min_int : Z := - 2 ^ 63.
Definition max_int : Z := 2 ^ 63 - 1.

(** The two's complement reduction of a sum or a difference. *)
Definition wrap (z : Z) : Z := (z + 2 ^ 63) mod 2 ^ 64 - 2 ^ 63.

End int64.

(** Lines 122-125 on [int64]; [None] stands for the [OverflowError] of
    the conversion of [image_size // 2]. *)
Definition fits_int64 (image_size X_mask Y_mask x_ y_ : Z) : option bool :=
  let half := image_size / 2 in
  if (int64.min_int <=? half) && (half <=? int64.max_int) then
    let case1 := int64.wrap (x_ - half) >? 0 in
    let case2 := int64.wrap (x_ + half) <? X_mask in
    let case3 := int64.wrap (y_ - half) >? 0 in
    let case4 := int64.wrap (y_ + half) <? Y_mask in
    Some (case1 && case2 && case3 && case4)
  else None.

(** One iteration of the loop of lines 121-128 with the tests on
    [int64]; once the conversion has raised, the loop has ended. *)
Definition keep_fitting_int64 (image_size X_mask Y_mask : Z)
  (idcs : option (list Z * list Z)) (p : Z * Z)
  : option (list Z * list Z) :=
  let '(x_, y_) := p in
  match idcs with
  | Some idcs =>
      match fits_int64 image_size X_mask Y_mask x_ y_ with
      | Some true => Some (fst idcs ++ [x_], snd idcs ++ [y_])
      | Some false => Some idcs
      | None => None
      end
  | None => None
  end.

(** The patch size and the shape of the mask are small enough for the
    [int64] tests to be exact. *)
Definition int64_safe (image_size : Z) (mask : np.ndarray2 Z) : Prop :=
  - 2 ^ 62 <= image_size <= 2 ^ 62 /\
  fst (np.shape mask) <= 2 ^ 62 /\
  snd (np.shape mask) <= 2 ^ 62.

(** * The boundary tests on int64 *)

Lemma wrap_small (z : Z) :
  int64.min_int <= z <= int64.max_int -> int64.wrap z = z.
Proof.
  unfold int64.wrap, int64.min_int, int64.max_int. intros H.
  rewrite Z.mod_small by lia. lia.
Qed.

(** Within [int64_safe], the tests of lines 122-125 on [int64] are the
    tests on integers, at every position of the mask. *)
Lemma fits_int64_agrees (image_size : Z) (mask : np.ndarray2 Z) (x_ y_ : Z) :
  int64_safe image_size mask ->
  0 <= x_ < fst (np.shape mask) ->
  0 <= y_ < snd (np.shape mask) ->
  fits_int64 image_size (fst (np.shape mask)) (snd (np.shape mask)) x_ y_ =
  Some (fits image_size (fst (np.shape mask)) (snd (np.shape mask)) x_ y_).
Proof.
  intros (Hsize & HX & HY) Hx Hy. unfold fits_int64, fits.
  generalize dependent (fst (np.shape mask)).
  generalize dependent (snd (np.shape mask)). intros Y HY Hy X HX Hx.
  assert (Hh : - 2 ^ 62 <= image_size / 2 <= 2 ^ 62).
  { split; [apply Z.div_le_lower_bound | apply Z.div_le_upper_bound]; lia. }
  unfold int64.min_int, int64.max_int.
  destruct (Z.leb_spec (- 2 ^ 63) (image_size / 2)); [| lia].
  destruct (Z.leb_spec (image_size / 2) (2 ^ 63 - 1)); [| lia].
  simpl.
  rewrite !wrap_small by (unfold int64.min_int, int64.max_int; lia).
  reflexivity.
Qed.

(** Outside it they differ: with [image_size = -(2^64 - 2)] the
    difference for row 2 wraps and the test fails where the test on
    integers passes, and with [image_size = 2^64] the conversion raises. *)
Example fits_int64_wraps :
  fits_int64 (- (2 ^ 64 - 2)) 6 6 2 2 = Some false /\
  fits (- (2 ^ 64 - 2)) 6 6 2 2 = true /\
  fits_int64 (- (2 ^ 64 - 2)) 6 6 0 0 = Some true /\
  fits_int64 (2 ^ 64) 6 6 2 2 = None.
Proof. repeat split; vm_compute; reflexivity. Qed.

(** Within [int64_safe], the loop on [int64] over positions of the mask
    is the loop on integers. *)
Lemma keep_fitting_int64_agrees (image_size : Z) (mask : np.ndarray2 Z)
  (l : list (Z * Z)) (idcs : list Z * list Z) :
  int64_safe image_size mask ->
  List.Forall (fun p => 0 <= fst p < fst (np.shape mask) /\
                        0 <= snd p < snd (np.shape mask)) l ->
  fold_left (keep_fitting_int64 image_size (fst (np.shape mask))
               (snd (np.shape mask))) l (Some idcs) =
  Some (fold_left (keep_fitting image_size (fst (np.shape mask))
                     (snd (np.shape mask))) l idcs).
Proof.
  intros Hsafe Hl. revert idcs.
  induction Hl as [| [x y] l [Hx Hy] Hl IH]; intros idcs; [reflexivity |].
  cbn [fold_left keep_fitting_int64 keep_fitting]. cbn [fst snd] in Hx, Hy.
  rewrite (fits_int64_agrees image_size mask x y Hsafe Hx Hy).
  destruct (fits image_size _ _ x y); apply IH.
Qed.

(** On the stride-2 lattice of a 6 x 6 mask, with
    [image_size = -(2^64 - 2)], the loop on [int64] keeps (0, 0) alone
    where the loop on integers keeps the nine candidates; with
    [image_size = 2^64] it raises. *)
Example keep_fitting_int64_wraps :
  fold_left (keep_fitting_int64 (- (2 ^ 64 - 2)) 6 6)
            (candidates Demo.lattice2) (Some ([], [])) = Some ([0], [0]) /\
  fold_left (keep_fitting (- (2 ^ 64 - 2)) 6 6)
            (candidates Demo.lattice2) ([], []) =
    ([0; 0; 0; 2; 2; 2; 4; 4; 4], [0; 2; 4; 0; 2; 4; 0; 2; 4]) /\
  fold_left (keep_fitting_int64 (2 ^ 64) 6 6)
            (candidates Demo.lattice2) (Some ([], [])) = None.
Proof. repeat split; vm_compute; reflexivity. Qed.

(** * Facts about the numpy model *)


Lemma slice_indices_Ok (n step : Z) :
  step <> 0 -> exists l, np.slice_indices n step = Ok l.
Proof.
  intros Hs. unfold np.slice_indices.
  destruct (Z.eqb_spec step 0) as [E | _]; [contradiction | eauto].
Qed.

Lemma slice_indices_zero (n : Z) : np.slice_indices n 0 = Raise ValueError.
Proof. reflexivity. Qed.

Lemma slice_indices_pos (n step : Z) :
  0 < step ->
  exists l, np.slice_indices n step = Ok l /\
    forall i : nat,
      In i l <-> Z.of_nat i < n /\ Z.of_nat i mod step = 0.
Proof.
  intros Hs. unfold np.slice_indices.
  destruct (Z.eqb_spec step 0) as [E | _]; [lia |].
  destruct (Z.ltb_spec 0 step) as [_ | E]; [| lia].
  rewrite Z.abs_eq by lia.
  eexists; split; [reflexivity |].
  intros i. rewrite in_map_iff. split.
  - intros (k & <- & Hk). apply in_seq in Hk.
    assert (Hk' : Z.of_nat k + 1 <= (n + step - 1) / step) by lia.
    assert (Hm : step * ((n + step - 1) / step) <= n + step - 1)
      by (apply Z.mul_div_le; lia).
    rewrite Z2Nat.id by nia.
    split; [nia | apply Z_mod_mult].
  - intros [Hlt Hmod].
    exists (Z.to_nat (Z.of_nat i / step)).
    assert (Hq : 0 <= Z.of_nat i / step) by (apply Z.div_pos; lia).
    assert (He : Z.of_nat i = step * (Z.of_nat i / step))
      by (apply Z_div_exact_full_2; lia).
    split.
    + rewrite Z2Nat.id by lia. rewrite Z.mul_comm, <- He. lia.
    + apply in_seq.
      assert (Hd : Z.of_nat i / step + 1 <= (n + step - 1) / step).
      { replace (Z.of_nat i / step + 1) with ((Z.of_nat i + 1 * step) / step)
          by (rewrite Z.div_add; lia).
        apply Z.div_le_mono; lia. }
      lia.
Qed.

Lemma length_assign_row (js : list nat) (v : Z) (r : list Z) :
  length (np.assign_row js v r) = length r.
Proof.
  unfold np.assign_row. induction js as [| j js IH]; simpl; [reflexivity |].
  rewrite length_insert. exact IH.
Qed.

Lemma lookup_assign_row_in (js : list nat) (v : Z) (r : list Z) (j : nat) :
  In j js -> np.assign_row js v r !! j = (fun _ => v) <$> r !! j.
Proof.
  induction js as [| j' js IH]; [intros [] |].
  change (np.assign_row (j' :: js) v r) with (<[j':=v]> (np.assign_row js v r)).
  intros Hin. rewrite list_lookup_insert, length_assign_row.
  destruct (decide (j' = j /\ (j' < length r)%nat)) as [[-> Hlt] | Hn].
  - destruct (lookup_lt_is_Some_2 r j Hlt) as [x ->]. reflexivity.
  - destruct (Nat.eq_dec j' j) as [-> | Hne].
    + assert (Hge : (length r <= j)%nat) by lia.
      rewrite (lookup_ge_None_2 r j Hge).
      apply lookup_ge_None_2. rewrite length_assign_row. exact Hge.
    + apply IH. destruct Hin as [E | Hin]; [congruence | exact Hin].
Qed.

Lemma lookup_assign_row_notin (js : list nat) (v : Z) (r : list Z) (j : nat) :
  ~ In j js -> np.assign_row js v r !! j = r !! j.
Proof.
  induction js as [| j' js IH]; [reflexivity |].
  change (np.assign_row (j' :: js) v r) with (<[j':=v]> (np.assign_row js v r)).
  intros Hn. rewrite list_lookup_insert_ne.
  - apply IH. intros Hin. apply Hn. right. exact Hin.
  - intros ->. apply Hn. left. reflexivity.
Qed.

Lemma assign_row_idem (js : list nat) (v : Z) (r : list Z) :
  np.assign_row js v (np.assign_row js v r) = np.assign_row js v r.
Proof.
  apply list_eq. intros j.
  destruct (in_dec Nat.eq_dec j js) as [Hin | Hn].
  - rewrite !lookup_assign_row_in by exact Hin.
    destruct (r !! j); reflexivity.
  - rewrite !lookup_assign_row_notin by exact Hn. reflexivity.
Qed.

Lemma lookup_foldr_alter_notin {A : Type} (f : A -> A) (is_ : list nat)
  (a : list A) (i : nat) :
  ~ In i is_ ->
  foldr (fun i acc => alter f i acc) a is_ !! i = a !! i.
Proof.
  induction is_ as [| k is_ IH]; simpl; [reflexivity |].
  intros Hn. rewrite list_lookup_alter_ne.
  - apply IH. intros H. apply Hn. right. exact H.
  - intros ->. apply Hn. left. reflexivity.
Qed.

Lemma lookup_foldr_alter_in {A : Type} (f : A -> A) (is_ : list nat)
  (a : list A) (i : nat) :
  (forall x, f (f x) = f x) ->
  In i is_ ->
  foldr (fun i acc => alter f i acc) a is_ !! i = f <$> a !! i.
Proof.
  intros Hf. induction is_ as [| i' is_ IH]; simpl; [intros [] |].
  intros Hin. rewrite list_lookup_alter.
  destruct (decide (i' = i)) as [-> | Hne].
  - destruct (in_dec Nat.eq_dec i is_) as [Hin' | Hn].
    + rewrite (IH Hin'). destruct (a !! i); simpl; [rewrite Hf |]; reflexivity.
    + rewrite lookup_foldr_alter_notin by exact Hn. reflexivity.
  - apply IH. destruct Hin as [E | Hin]; [congruence | exact Hin].
Qed.

Lemma lookup_map {A B : Type} (f : A -> B) (l : list A) (i : nat) :
  map f l !! i = f <$> l !! i.
Proof.
  revert i. induction l as [| x l IH]; intros [| i]; simpl; auto.
Qed.

Lemma cell_map {A B : Type} (f : A -> B) (a : np.ndarray2 A) (i j : nat) :
  np.cell (map (map f) a) i j = f <$> np.cell a i j.
Proof.
  unfold np.cell. rewrite lookup_map.
  destruct (a !! i) as [r |]; simpl; [apply lookup_map | reflexivity].
Qed.

Lemma cell_zeros_like (a : np.ndarray2 Z) (i j : nat) :
  np.cell (np.zeros_like a) i j = (fun _ => 0) <$> np.cell a i j.
Proof. apply cell_map. Qed.

Lemma shape_zeros_like (a : np.ndarray2 Z) :
  np.shape (np.zeros_like a) = np.shape a.
Proof.
  unfold np.shape, np.zeros_like. rewrite length_map.
  destruct a as [| r a]; simpl; [reflexivity |]. rewrite length_map. reflexivity.
Qed.

Lemma cell_mul (a b : np.ndarray2 Z) (i j : nat) :
  np.cell (np.mul a b) i j =
  match np.cell a i j, np.cell b i j with
  | Some x, Some y => Some ((x * y) mod 256)
  | _, _ => None
  end.
Proof.
  unfold np.cell, np.mul. rewrite lookup_zip_with.
  destruct (a !! i) as [ra |]; simpl; [| reflexivity].
  destruct (b !! i) as [rb |]; simpl.
  - rewrite lookup_zip_with.
    destruct (ra !! j); simpl; [| reflexivity].
    destruct (rb !! j); reflexivity.
  - destruct (ra !! j); reflexivity.
Qed.

(** The cells of [a] after [a[::step, ::step] = v]. *)
Lemma assign_strided_nonzero (a : np.ndarray2 Z) (step v : Z) :
  step <> 0 ->
  exists is_ js a',
    np.slice_indices (fst (np.shape a)) step = Ok is_ /\
    np.slice_indices (snd (np.shape a)) step = Ok js /\
    np.assign_strided a step v = Ok a' /\
    forall i j,
      (In i is_ /\ In j js ->
       np.cell a' i j = (fun _ => v) <$> np.cell a i j) /\
      (~ (In i is_ /\ In j js) -> np.cell a' i j = np.cell a i j).
Proof.
  intros Hs.
  destruct (slice_indices_Ok (fst (np.shape a)) step Hs) as [is_ His].
  destruct (slice_indices_Ok (snd (np.shape a)) step Hs) as [js Hjs].
  exists is_, js. unfold np.assign_strided.
  destruct (np.shape a) as [X Y]; cbn [fst snd] in *.
  rewrite His, Hjs; simpl.
  eexists; split; [reflexivity | split; [reflexivity | split; [reflexivity |]]].
  intros i j. split.
  - intros [Hi Hj]. unfold np.cell.
    rewrite lookup_foldr_alter_in;
      [| intros r; apply assign_row_idem | exact Hi].
    destruct (a !! i) as [r |]; simpl; [| reflexivity].
    apply lookup_assign_row_in, Hj.
  - intros Hn. unfold np.cell.
    destruct (in_dec Nat.eq_dec i is_) as [Hi | Hi].
    + rewrite lookup_foldr_alter_in;
        [| intros r; apply assign_row_idem | exact Hi].
      destruct (a !! i) as [r |]; simpl; [| reflexivity].
      apply lookup_assign_row_notin. intros Hj. apply Hn. split; assumption.
    + rewrite lookup_foldr_alter_notin by exact Hi. reflexivity.
Qed.

Lemma assign_strided_zero (a : np.ndarray2 Z) (v : Z) :
  np.assign_strided a 0 v = Raise ValueError.
Proof. unfold np.assign_strided. destruct (np.shape a). reflexivity. Qed.

Lemma filter_map_comm {A B : Type} (f : B -> bool) (g : A -> B) (l : list A) :
  List.filter f (map g l) = map g (List.filter (fun x => f (g x)) l).
Proof.
  induction l as [| x l IH]; simpl; [reflexivity |].
  destruct (f (g x)); simpl; rewrite IH; reflexivity.
Qed.

Lemma nonzero_from_filter (k : nat) (r : list Z) :
  np.nonzero_from k r =
  List.filter (fun j => match r !! (j - k)%nat with
                        | Some v => negb (v =? 0)
                        | None => false
                        end) (seq k (length r)).
Proof.
  revert k. induction r as [| v r IH]; intros k; simpl; [reflexivity |].
  rewrite Nat.sub_diag. simpl. rewrite IH.
  assert (E : List.filter
                (fun j => match r !! (j - S k)%nat with
                          | Some v0 => negb (v0 =? 0)
                          | None => false
                          end) (seq (S k) (length r)) =
              List.filter
                (fun j => match (v :: r) !! (j - k)%nat with
                          | Some v0 => negb (v0 =? 0)
                          | None => false
                          end) (seq (S k) (length r))).
  { apply filter_ext_in. intros j Hj. apply in_seq in Hj.
    replace (j - k)%nat with (S (j - S k)) by lia. reflexivity. }
  rewrite E. destruct (v =? 0); reflexivity.
Qed.

Lemma nonzero_rows_filter_from (i0 Y : nat) (a : np.ndarray2 Z) :
  Forall (fun r => length r = Y) a ->
  np.nonzero_rows i0 a =
  List.filter (fun p => nonzero_at a ((fst p - i0)%nat, snd p))
              (list_prod (seq i0 (length a)) (seq 0 Y)).
Proof.
  intros Hrect. revert i0.
  induction Hrect as [| r a Hr Hrect IH]; intros i0; simpl; [reflexivity |].
  rewrite List.filter_app, filter_map_comm. f_equal.
  - f_equal. rewrite nonzero_from_filter, Hr.
    apply filter_ext. intros j. unfold nonzero_at, np.cell. simpl.
    rewrite Nat.sub_diag, Nat.sub_0_r. reflexivity.
  - rewrite IH. apply filter_ext_in. intros [i j] Hin.
    apply in_prod_iff in Hin. destruct Hin as [Hi _]. apply in_seq in Hi.
    unfold nonzero_at, np.cell. simpl.
    replace (i - i0)%nat with (S (i - S i0)) by lia. reflexivity.
Qed.

(** [np.where] scans exactly the nonzero positions, in row-major order. *)
Lemma nonzero_rows_filter (Y : nat) (a : np.ndarray2 Z) :
  Forall (fun r => length r = Y) a ->
  np.nonzero_rows 0 a = List.filter (nonzero_at a) (positions (length a) Y).
Proof.
  intros Hrect. rewrite (nonzero_rows_filter_from 0 Y a Hrect).
  apply filter_ext. intros [i j]. simpl. rewrite Nat.sub_0_r. reflexivity.
Qed.

Lemma In_nonzero_from (k : nat) (r : list Z) (j : nat) :
  In j (np.nonzero_from k r) ->
  (k <= j)%nat /\ exists v, r !! (j - k)%nat = Some v /\ v <> 0.
Proof.
  rewrite nonzero_from_filter. intros H. apply filter_In in H.
  destruct H as [Hj Hv]. apply in_seq in Hj. split; [lia |].
  destruct (r !! (j - k)%nat) as [v |]; [| discriminate].
  exists v. split; [reflexivity |].
  destruct (Z.eqb_spec v 0); [discriminate | assumption].
Qed.

Lemma In_nonzero_rows (i0 : nat) (a : np.ndarray2 Z) (i j : nat) :
  In (i, j) (np.nonzero_rows i0 a) ->
  (i0 <= i)%nat /\ exists v, np.cell a (i - i0) j = Some v /\ v <> 0.
Proof.
  revert i0. induction a as [| r a IH]; intros i0; simpl; [intros [] |].
  intros H. apply in_app_or in H. destruct H as [H | H].
  - apply in_map_iff in H. destruct H as (j' & E & H). inversion E; subst.
    apply In_nonzero_from in H. destruct H as (_ & v & Hv & Hnz).
    split; [lia |]. exists v. rewrite Nat.sub_diag. unfold np.cell. simpl.
    rewrite Nat.sub_0_r in Hv. auto.
  - apply IH in H. destruct H as (Hle & v & Hv & Hnz).
    split; [lia |]. exists v. split; [| exact Hnz].
    replace (i - i0)%nat with (S (i - S i0)) by lia. exact Hv.
Qed.

(** Every position reported by [np.where] holds a nonzero cell. *)
Lemma In_where_nonzero (a : np.ndarray2 Z) (i j : nat) :
  In (i, j) (np.nonzero_rows 0 a) ->
  exists v, np.cell a i j = Some v /\ v <> 0.
Proof.
  intros H. apply In_nonzero_rows in H. rewrite Nat.sub_0_r in H. apply H.
Qed.

Lemma combine_map_map {A B C : Type} (f : A -> B) (g : A -> C) (l : list A) :
  combine (map f l) (map g l) = map (fun p => (f p, g p)) l.
Proof.
  induction l as [| p l IH]; simpl; [reflexivity |]. rewrite IH. reflexivity.
Qed.

(** * Facts about the construction *)

(** The loop of lines 121-128 keeps, in order, the candidates that fit. *)
Lemma keep_fitting_filter (size X Y : Z) (l : list (Z * Z)) (xs ys : list Z) :
  fold_left (keep_fitting size X Y) l (xs, ys) =
  (xs ++ map fst (List.filter (fun p => fits size X Y (fst p) (snd p)) l),
   ys ++ map snd (List.filter (fun p => fits size X Y (fst p) (snd p)) l)).
Proof.
  revert xs ys. induction l as [| [x y] l IH]; intros xs ys; simpl.
  - rewrite !app_nil_r. reflexivity.
  - destruct (fits size X Y x y); simpl.
    + rewrite IH, <- !app_assoc. reflexivity.
    + apply IH.
Qed.

Lemma np_max_Ok (t : list Z) : t <> [] -> exists m, np.max t = Ok m.
Proof. destruct t; [congruence | simpl; eauto]. Qed.

Lemma np_min_Ok (t : list Z) : t <> [] -> exists m, np.min t = Ok m.
Proof. destruct t; [congruence | simpl; eauto]. Qed.

Ltac bind_inv H :=
  repeat match type of H with
  | bind ?r _ = Ok _ =>
      let E := fresh "E" in
      destruct r eqn:E; simpl in H; [| discriminate H]
  | (let '(_, _) := ?e in _) = Ok _ =>
      let E := fresh "E" in
      destruct e eqn:E; simpl in H
  end.

Section ConstructionFacts.

Variable utils : helpers.

(** What a successful [_preprocess] has computed. *)
Lemma _preprocess_inv (self : params) (ds : WSIStridedPatchDataset) :
  _preprocess utils self = Ok ds ->
  exists ones_mask,
    self_params ds = self /\
    np.assign_strided (np.zeros_like (_mask ds)) (_sampling_stride self) 1
      = Ok ones_mask /\
    _strided_mask ds =
      (if _roi_masking self then np.mul ones_mask (_mask ds) else ones_mask) /\
    candidates (_strided_mask ds) <> [] /\
    _X_idcs ds =
      map fst (List.filter (fits_mask (_image_size self) (_mask ds))
                           (candidates (_strided_mask ds))) /\
    _Y_idcs ds =
      map snd (List.filter (fits_mask (_image_size self) (_mask ds))
                           (candidates (_strided_mask ds))) /\
    _idcs_num ds = Z.of_nat (length (_X_idcs ds)).
Proof.
  unfold _preprocess. intros H. bind_inv H.
  inversion H; subst ds; clear H; simpl.
  rewrite combine_map_map, keep_fitting_filter in E7. inversion E7; subst.
  eexists. split; [reflexivity |]. split; [exact E2 |].
  split; [reflexivity |]. split; [| repeat split].
  unfold candidates. intros Hnil. apply map_eq_nil in Hnil.
  rewrite Hnil in E3. discriminate E3.
Qed.

(** [_preprocess], once the inputs are decoded and the lattice is built:
    it raises exactly when the strided mask has no nonzero cell. *)
Lemma _preprocess_eval (self : params) (slide : np.ndarray2 pixel)
  (mask0 ones_mask : np.ndarray2 Z) :
  ReadWholeSlideImage_RGB utils (_wsi_path self) = Ok slide ->
  label_decodes utils (_label_path self) ->
  mask_source utils (_mask_path self) slide = Ok mask0 ->
  let mask := BinMorphoProcessMask utils (np.uint8 mask0) in
  np.assign_strided (np.zeros_like mask) (_sampling_stride self) 1
    = Ok ones_mask ->
  let strided_mask :=
    if _roi_masking self then np.mul ones_mask mask else ones_mask in
  (np.nonzero_rows 0 strided_mask = [] ->
   _preprocess utils self = Raise ValueError) /\
  (np.nonzero_rows 0 strided_mask <> [] ->
   exists ds, _preprocess utils self = Ok ds /\
              self_params ds = self /\
              _slide ds = slide /\
              _mask ds = mask /\
              _strided_mask ds = strided_mask).
Proof.
  intros Hslide Hlabel Hmask mask Hones strided_mask.
  assert (Hl : exists o,
             match _label_path self with
             | Some label_path =>
                 let* l := ReadWholeSlideImage_L utils label_path in
                 Ok (Some l)
             | None => Ok None
             end = Ok o).
  { unfold label_decodes in Hlabel. destruct (_label_path self).
    - destruct Hlabel as [l ->]. simpl. eauto.
    - eauto. }
  destruct Hl as [o Hl]. unfold mask_source in Hmask.
  unfold _preprocess. rewrite Hslide; simpl.
  destruct (np.shape slide) as [X_slide Y_slide].
  rewrite Hl; simpl. rewrite Hmask; simpl.
  fold mask. destruct (np.shape mask) as [X_mask Y_mask].
  rewrite Hones; simpl. fold strided_mask.
  destruct (np.nonzero_rows 0 strided_mask) as [| p ps] eqn:Hps.
  - split; [reflexivity | congruence].
  - split; [discriminate |]. intros _. simpl.
    destruct (fold_left _ _ _) as [X_idcs Y_idcs].
    eexists. split; [reflexivity |]. simpl. auto.
Qed.

(** A zero stride makes line 105 raise, once the inputs are decoded. *)
Lemma _preprocess_zero_stride (self : params) (slide : np.ndarray2 pixel)
  (mask0 : np.ndarray2 Z) :
  ReadWholeSlideImage_RGB utils (_wsi_path self) = Ok slide ->
  label_decodes utils (_label_path self) ->
  mask_source utils (_mask_path self) slide = Ok mask0 ->
  _sampling_stride self = 0 ->
  _preprocess utils self = Raise ValueError.
Proof.
  intros Hslide Hlabel Hmask Hzero.
  unfold _preprocess. rewrite Hslide; simpl.
  destruct (np.shape slide) as [X_slide Y_slide].
  unfold label_decodes in Hlabel. unfold mask_source in Hmask.
  destruct (_label_path self).
  - destruct Hlabel as [l ->]. simpl. rewrite Hmask; simpl.
    rewrite Hzero, assign_strided_zero. reflexivity.
  - simpl. rewrite Hmask; simpl.
    rewrite Hzero, assign_strided_zero. reflexivity.
Qed.

End ConstructionFacts.

Section CoordinateIndex.

Variable utils : helpers.

Lemma In_lookup {A : Type} (l : list A) (k : nat) (x : A) :
  l !! k = Some x -> In x l.
Proof.
  revert k. induction l as [| y l IH]; intros [| k]; simpl; try discriminate.
  - intros [= ->]. left. reflexivity.
  - intros H. right. apply (IH k H).
Qed.

(** The coordinate index is the list of candidates that fit, in order. *)
Lemma coordinates_filter (self : params) (ds : WSIStridedPatchDataset) :
  _preprocess utils self = Ok ds ->
  coordinates ds =
  List.filter (fits_mask (_image_size self) (_mask ds))
              (candidates (_strided_mask ds)).
Proof.
  intros H. apply _preprocess_inv in H.
  destruct H as (ones & _ & _ & _ & _ & HX & HY & _).
  unfold coordinates. rewrite HX, HY, combine_map_map.
  erewrite map_ext; [apply map_id | intros [x y]; reflexivity].
Qed.

(** The two arrays of the index have one length, the stored count. *)
Lemma constructed_lengths (self : params) (ds : WSIStridedPatchDataset) :
  _preprocess utils self = Ok ds ->
  length (_X_idcs ds) = length (_Y_idcs ds) /\
  __len__ ds = Z.of_nat (length (coordinates ds)) /\
  __len__ ds = Z.of_nat (length (_X_idcs ds)).
Proof.
  intros H. pose proof (coordinates_filter _ _ H) as Hc.
  apply _preprocess_inv in H.
  destruct H as (ones & _ & _ & _ & _ & HX & HY & Hn).
  unfold __len__. rewrite Hn, Hc, HX, HY, !length_map. auto.
Qed.

(** Entry [k] of the two arrays is entry [k] of the list of pairs. *)
Lemma lookup_coordinates (ds : WSIStridedPatchDataset) (k : nat) (x y : Z) :
  _X_idcs ds !! k = Some x -> _Y_idcs ds !! k = Some y ->
  In (x, y) (coordinates ds).
Proof.
  unfold coordinates. generalize (_X_idcs ds) (_Y_idcs ds). clear ds.
  intros xs. revert k. induction xs as [| x' xs IH];
    intros [| k] [| y' ys]; simpl; try discriminate.
  - intros [= ->] [= ->]. left. reflexivity.
  - intros Hx Hy. right. apply (IH k ys Hx Hy).
Qed.

Lemma fits_spec (image_size X_mask Y_mask x_ y_ : Z) :
  fits image_size X_mask Y_mask x_ y_ = true <->
  x_ - image_size / 2 > 0 /\ x_ + image_size / 2 < X_mask /\
  y_ - image_size / 2 > 0 /\ y_ + image_size / 2 < Y_mask.
Proof.
  unfold fits. rewrite !andb_true_iff, !Z.gtb_gt, !Z.ltb_lt. tauto.
Qed.

(** C1: every entry (x, y) of the coordinate index of a constructed
    dataset passes the four strict boundary tests against the shape
    (X_mask, Y_mask) of the cleaned mask, the half-size being the floor
    division [image_size // 2]. *)
Theorem C1_boundary_fit
  (wsi_path : string) (mask_path label_path : option string)
  (image_size : Z) (normalize : bool) (flip rotate : string)
  (sampling_stride : Z) (roi_masking : bool)
  (ds : WSIStridedPatchDataset) (k : nat) (x y : Z) :
  __init__ utils wsi_path mask_path label_path image_size normalize flip
           rotate sampling_stride roi_masking = Ok ds ->
  _X_idcs ds !! k = Some x ->
  _Y_idcs ds !! k = Some y ->
  x - image_size / 2 > 0 /\
  x + image_size / 2 < fst (np.shape (get_mask ds)) /\
  y - image_size / 2 > 0 /\
  y + image_size / 2 < snd (np.shape (get_mask ds)).
Proof.
  unfold __init__. intros Hds Hx Hy.
  pose proof (lookup_coordinates ds k x y Hx Hy) as Hin.
  rewrite (coordinates_filter _ _ Hds) in Hin.
  apply filter_In in Hin. destruct Hin as [_ Hfit].
  apply fits_spec in Hfit. exact Hfit.
Qed.

End CoordinateIndex.

(** * The stride lattice *)

Lemma cell_Some_bounds {A : Type} (a : np.ndarray2 A) (i j : nat) (v : A) :
  rectangular a ->
  np.cell a i j = Some v ->
  Z.of_nat i < fst (np.shape a) /\ Z.of_nat j < snd (np.shape a).
Proof.
  unfold rectangular, np.cell. intros Hrect Hc.
  destruct (a !! i) as [r |] eqn:Hr; [| discriminate].
  pose proof (lookup_lt_Some _ _ _ Hr) as Hi.
  pose proof (lookup_lt_Some _ _ _ Hc) as Hj.
  pose proof (Forall_lookup_1 _ _ _ _ Hrect Hr) as Hlen. cbv beta in Hlen.
  split; [simpl; lia | lia].
Qed.

(** A nonzero cell of the lattice mask sits on rows and columns that are
    multiples of a positive stride. *)
Lemma lattice_nonzero (mask ones_mask : np.ndarray2 Z) (step : Z)
  (i j : nat) (v : Z) :
  0 < step ->
  np.assign_strided (np.zeros_like mask) step 1 = Ok ones_mask ->
  np.cell ones_mask i j = Some v -> v <> 0 ->
  Z.of_nat i mod step = 0 /\ Z.of_nat j mod step = 0.
Proof.
  intros Hs Hones Hc Hv.
  destruct (assign_strided_nonzero (np.zeros_like mask) step 1)
    as (is_ & js & a' & His & Hjs & Ha' & Hcells); [lia |].
  rewrite Hones in Ha'. injection Ha' as <-.
  destruct (slice_indices_pos (fst (np.shape (np.zeros_like mask))) step Hs)
    as (is' & His' & Hin_i).
  destruct (slice_indices_pos (snd (np.shape (np.zeros_like mask))) step Hs)
    as (js' & Hjs' & Hin_j).
  rewrite His in His'. injection His' as <-.
  rewrite Hjs in Hjs'. injection Hjs' as <-.
  destruct (Hcells i j) as [Hyes Hno].
  destruct (in_dec Nat.eq_dec i is_) as [Hi | Hi];
    [destruct (in_dec Nat.eq_dec j js) as [Hj | Hj] |].
  - split; [apply Hin_i, Hi | apply Hin_j, Hj].
  - exfalso. rewrite Hno, cell_zeros_like in Hc by tauto.
    destruct (np.cell mask i j); simpl in Hc; congruence.
  - exfalso. rewrite Hno, cell_zeros_like in Hc by tauto.
    destruct (np.cell mask i j); simpl in Hc; congruence.
Qed.

(** On a rectangular mask and for a positive stride, the lattice mask has
    the shape of the mask and holds [lattice_value] everywhere. *)
Lemma lattice_cells (mask ones_mask : np.ndarray2 Z) (step : Z) (i j : nat) :
  0 < step ->
  rectangular mask ->
  np.assign_strided (np.zeros_like mask) step 1 = Ok ones_mask ->
  np.cell ones_mask i j =
  (fun _ => lattice_value step i j) <$> np.cell mask i j.
Proof.
  intros Hs Hrect Hones.
  destruct (assign_strided_nonzero (np.zeros_like mask) step 1)
    as (is_ & js & a' & His & Hjs & Ha' & Hcells); [lia |].
  rewrite Hones in Ha'. injection Ha' as <-.
  destruct (slice_indices_pos (fst (np.shape (np.zeros_like mask))) step Hs)
    as (is' & His' & Hin_i).
  destruct (slice_indices_pos (snd (np.shape (np.zeros_like mask))) step Hs)
    as (js' & Hjs' & Hin_j).
  rewrite His in His'. injection His' as <-.
  rewrite Hjs in Hjs'. injection Hjs' as <-.
  rewrite shape_zeros_like in Hin_i, Hin_j.
  destruct (Hcells i j) as [Hyes Hno].
  destruct (np.cell mask i j) as [m |] eqn:Hm.
  - destruct (cell_Some_bounds mask i j m Hrect Hm) as [Hi Hj].
    unfold lattice_value.
    destruct (Z.eqb_spec (Z.of_nat i mod step) 0) as [Ei | Ei];
      [destruct (Z.eqb_spec (Z.of_nat j mod step) 0) as [Ej | Ej] |]; simpl.
    + rewrite Hyes, cell_zeros_like, Hm; [reflexivity |].
      split; [apply Hin_i | apply Hin_j]; auto.
    + rewrite Hno, cell_zeros_like, Hm; [reflexivity |].
      intros [_ Hjn]. apply Hin_j in Hjn. tauto.
    + rewrite Hno, cell_zeros_like, Hm; [reflexivity |].
      intros [Hin _]. apply Hin_i in Hin. tauto.
  - simpl. destruct (in_dec Nat.eq_dec i is_) as [Hi | Hi];
      [destruct (in_dec Nat.eq_dec j js) as [Hj | Hj] |].
    + rewrite Hyes, cell_zeros_like, Hm by tauto. reflexivity.
    + rewrite Hno, cell_zeros_like, Hm by tauto. reflexivity.
    + rewrite Hno, cell_zeros_like, Hm by tauto. reflexivity.
Qed.

Section Lattice.

Variable utils : helpers.

(** Every candidate centre lies on the lattice of a positive stride. *)
Lemma candidate_on_lattice (self : params) (ds : WSIStridedPatchDataset)
  (x y : Z) :
  _preprocess utils self = Ok ds ->
  0 < _sampling_stride self ->
  In (x, y) (candidates (_strided_mask ds)) ->
  x mod _sampling_stride self = 0 /\ y mod _sampling_stride self = 0.
Proof.
  intros Hds Hs Hin. apply _preprocess_inv in Hds.
  destruct Hds as (ones & _ & Hones & Hstr & _).
  unfold candidates in Hin. apply in_map_iff in Hin.
  destruct Hin as ([i j] & E & Hin). simpl in E. injection E as <- <-.
  apply In_where_nonzero in Hin. destruct Hin as (v & Hc & Hv).
  rewrite Hstr in Hc. destruct (_roi_masking self).
  - rewrite cell_mul in Hc.
    destruct (np.cell ones i j) as [o |] eqn:Ho; [| discriminate].
    destruct (np.cell (_mask ds) i j) as [m |]; [| discriminate].
    injection Hc as <-.
    apply (lattice_nonzero (_mask ds) ones _ i j o Hs Hones Ho).
    intros ->. apply Hv. reflexivity.
  - apply (lattice_nonzero (_mask ds) ones _ i j v Hs Hones Hc Hv).
Qed.

(** C10: with a positive stride, every entry (x, y) of the coordinate
    index of a constructed dataset, whatever [roi_masking], has x and y
    divisible by the stride; for a non-negative patch size the strict lower
    boundary test then gives x >= stride and y >= stride. *)
Theorem C10_entries_on_lattice
  (wsi_path : string) (mask_path label_path : option string)
  (image_size : Z) (normalize : bool) (flip rotate : string)
  (sampling_stride : Z) (roi_masking : bool)
  (ds : WSIStridedPatchDataset) (k : nat) (x y : Z) :
  0 < sampling_stride ->
  0 <= image_size ->
  __init__ utils wsi_path mask_path label_path image_size normalize flip
           rotate sampling_stride roi_masking = Ok ds ->
  _X_idcs ds !! k = Some x ->
  _Y_idcs ds !! k = Some y ->
  (sampling_stride | x) /\ (sampling_stride | y) /\
  sampling_stride <= x /\ sampling_stride <= y.
Proof.
  unfold __init__. intros Hs Hsize Hds Hx Hy.
  pose proof (lookup_coordinates ds k x y Hx Hy) as Hin.
  rewrite (coordinates_filter _ _ _ Hds) in Hin.
  apply filter_In in Hin. destruct Hin as [Hcand Hfit].
  apply fits_spec in Hfit. simpl in Hfit.
  destruct Hfit as (Hx0 & _ & Hy0 & _).
  destruct (candidate_on_lattice _ ds x y Hds Hs Hcand) as [Hxm Hym].
  simpl in Hxm, Hym.
  assert (Hhalf : 0 <= image_size / 2) by (apply Z.div_pos; lia).
  assert (Hdx : (sampling_stride | x)) by (apply Z.mod_divide; lia).
  assert (Hdy : (sampling_stride | y)) by (apply Z.mod_divide; lia).
  repeat split; try assumption.
  - apply Z.divide_pos_le; [lia | exact Hdx].
  - apply Z.divide_pos_le; [lia | exact Hdy].
Qed.

End Lattice.

(** * Shapes *)

Lemma same_shape_zeros_like (a : np.ndarray2 Z) :
  same_shape (np.zeros_like a) a.
Proof.
  unfold same_shape, np.zeros_like.
  induction a as [| r a IH]; simpl; constructor; [apply length_map | exact IH].
Qed.

Lemma same_shape_alter {A B : Type} (f : list A -> list A) (i : nat)
  (a : np.ndarray2 A) (b : np.ndarray2 B) :
  (forall r, length (f r) = length r) ->
  same_shape a b -> same_shape (alter f i a) b.
Proof.
  intros Hf H. revert i. induction H as [| ra rb a b Hr H IH]; intros i.
  - constructor.
  - destruct i as [| i]; simpl; constructor.
    + rewrite Hf. exact Hr.
    + exact H.
    + exact Hr.
    + apply IH.
Qed.

Lemma same_shape_assign_strided (a a' : np.ndarray2 Z) (step v : Z) :
  np.assign_strided a step v = Ok a' -> same_shape a' a.
Proof.
  unfold np.assign_strided. destruct (np.shape a) as [X Y].
  destruct (np.slice_indices X step) as [is_ |]; simpl; [| discriminate].
  destruct (np.slice_indices Y step) as [js |]; simpl; [| discriminate].
  intros [= <-]. induction is_ as [| i is_ IH]; simpl.
  - unfold same_shape. induction a; constructor; auto.
  - apply same_shape_alter; [intros r; apply length_assign_row | exact IH].
Qed.

Lemma same_shape_mul (a b : np.ndarray2 Z) :
  same_shape a b -> same_shape (np.mul a b) b.
Proof.
  unfold same_shape, np.mul. induction 1 as [| ra rb a b Hr H IH]; simpl.
  - constructor.
  - constructor; [| exact IH]. rewrite length_zip_with. lia.
Qed.

Lemma same_shape_trans {A B C : Type} (a : np.ndarray2 A) (b : np.ndarray2 B)
  (c : np.ndarray2 C) :
  same_shape a b -> same_shape b c -> same_shape a c.
Proof.
  unfold same_shape. intros Hab. revert c.
  induction Hab as [| ra rb a b Hr H IH]; intros c Hbc;
    inversion Hbc; subst; constructor; [congruence | auto].
Qed.

Lemma same_shape_rows {A B : Type} (a : np.ndarray2 A) (b : np.ndarray2 B) :
  same_shape a b -> rectangular b ->
  length a = length b /\
  Forall (fun r => length r = Z.to_nat (snd (np.shape b))) a.
Proof.
  unfold rectangular. generalize (snd (np.shape b)) as Y. intros Y H.
  induction H as [| ra rb a b Hr H IH]; intros Hrect.
  - split; [reflexivity | constructor].
  - inversion Hrect; subst. destruct (IH H3) as [Hlen Hall].
    split; [simpl; congruence |]. constructor; [lia | exact Hall].
Qed.

Lemma cell_defined {A : Type} (a : np.ndarray2 A) (i j : nat) :
  rectangular a ->
  Z.of_nat i < fst (np.shape a) -> Z.of_nat j < snd (np.shape a) ->
  exists v, np.cell a i j = Some v.
Proof.
  unfold rectangular, np.cell. intros Hrect Hi Hj.
  assert (Hi' : (i < length a)%nat) by (simpl in Hi; lia).
  destruct (lookup_lt_is_Some_2 a i Hi') as [r Hr]. rewrite Hr.
  pose proof (Forall_lookup_1 _ _ _ _ Hrect Hr) as Hlen. cbv beta in Hlen.
  apply lookup_lt_is_Some_2. lia.
Qed.

Lemma filter_filter_andb {A : Type} (f g : A -> bool) (l : list A) :
  List.filter f (List.filter g l) = List.filter (fun x => g x && f x) l.
Proof.
  induction l as [| x l IH]; simpl; [reflexivity |].
  destruct (g x); simpl; [destruct (f x) |]; rewrite IH; reflexivity.
Qed.

Section StridedMask.

Variable utils : helpers.

(** The strided mask has the shape of the cleaned mask. *)
Lemma strided_same_shape (self : params) (ds : WSIStridedPatchDataset) :
  _preprocess utils self = Ok ds ->
  same_shape (_strided_mask ds) (_mask ds).
Proof.
  intros Hds. apply _preprocess_inv in Hds.
  destruct Hds as (ones & _ & Hones & Hstr & _). rewrite Hstr.
  assert (H1 : same_shape ones (_mask ds)).
  { eapply same_shape_trans;
      [apply (same_shape_assign_strided _ _ _ _ Hones)
      | apply same_shape_zeros_like]. }
  destruct (_roi_masking self); [apply same_shape_mul |]; exact H1.
Qed.

(** The cells of the strided mask, for a positive stride: the [uint8]
    product of the lattice and the mask under ROI masking, the lattice
    otherwise. *)
Lemma strided_cells (self : params) (ds : WSIStridedPatchDataset)
  (i j : nat) :
  _preprocess utils self = Ok ds ->
  0 < _sampling_stride self ->
  rectangular (_mask ds) ->
  np.cell (_strided_mask ds) i j =
  (fun m => if _roi_masking self
            then (lattice_value (_sampling_stride self) i j * m) mod 256
            else lattice_value (_sampling_stride self) i j)
    <$> np.cell (_mask ds) i j.
Proof.
  intros Hds Hs Hrect. apply _preprocess_inv in Hds.
  destruct Hds as (ones & _ & Hones & Hstr & _). rewrite Hstr.
  pose proof (lattice_cells (_mask ds) ones _ i j Hs Hrect Hones) as Hl.
  destruct (_roi_masking self).
  - rewrite cell_mul, Hl. destruct (np.cell (_mask ds) i j); reflexivity.
  - exact Hl.
Qed.

Lemma lattice_value_01 (stride : Z) (i j : nat) :
  lattice_value stride i j = 0 \/ lattice_value stride i j = 1.
Proof. unfold lattice_value. destruct (_ && _); auto. Qed.

(** C3: for a positive stride, the strided mask of a constructed dataset
    is the elementwise product of the lattice mask with the cleaned tissue
    mask when [roi_masking] is true, and the lattice mask alone when it is
    false, whatever the tissue mask holds; the lattice mask has the shape
    of the mask and is 1 exactly where the row index and the column index
    are both multiples of the stride. *)
Theorem C3_strided_mask
  (wsi_path : string) (mask_path label_path : option string)
  (image_size : Z) (normalize : bool) (flip rotate : string)
  (sampling_stride : Z) (roi_masking : bool)
  (ds : WSIStridedPatchDataset) :
  0 < sampling_stride ->
  __init__ utils wsi_path mask_path label_path image_size normalize flip
           rotate sampling_stride roi_masking = Ok ds ->
  rectangular (get_mask ds) ->
  exists ones_mask,
    (forall i j,
       np.cell ones_mask i j =
       (fun _ => lattice_value sampling_stride i j)
         <$> np.cell (get_mask ds) i j) /\
    get_strided_mask ds =
      (if roi_masking then np.mul ones_mask (get_mask ds) else ones_mask) /\
    (roi_masking = true -> is_uint8 (get_mask ds) ->
     forall i j,
       np.cell (get_strided_mask ds) i j =
       (fun m => lattice_value sampling_stride i j * m)
         <$> np.cell (get_mask ds) i j) /\
    (roi_masking = false ->
     forall i j,
       np.cell (get_strided_mask ds) i j =
       (fun _ => lattice_value sampling_stride i j)
         <$> np.cell (get_mask ds) i j).
Proof.
  unfold __init__, get_mask, get_strided_mask. intros Hs Hds Hrect.
  pose proof (fun i j => strided_cells _ ds i j Hds Hs Hrect) as Hcells.
  simpl in Hcells.
  destruct (_preprocess_inv _ _ _ Hds) as (ones & _ & Hones & Hstr & _).
  simpl in Hones, Hstr.
  exists ones. split; [| split; [exact Hstr | split]].
  - intros i j. apply (lattice_cells _ _ _ i j Hs Hrect Hones).
  - intros -> Hu8 i j. rewrite Hcells.
    destruct (np.cell (_mask ds) i j) as [m |] eqn:Hm; [| reflexivity].
    simpl. f_equal. pose proof (Hu8 i j m Hm) as Hr.
    destruct (lattice_value_01 sampling_stride i j) as [-> | ->].
    + reflexivity.
    + rewrite Z.mul_1_l. apply Z.mod_small. exact Hr.
  - intros -> i j. apply Hcells.
Qed.

End StridedMask.

Section LengthQuery.

Variable utils : helpers.

(** On a rectangular mask the candidates are the nonzero positions of the
    strided mask among the positions of the mask, in row-major order. *)
Lemma candidates_positions (self : params) (ds : WSIStridedPatchDataset) :
  _preprocess utils self = Ok ds ->
  rectangular (_mask ds) ->
  np.nonzero_rows 0 (_strided_mask ds) =
  List.filter (nonzero_at (_strided_mask ds)) (mask_positions (_mask ds)).
Proof.
  intros Hds Hrect.
  destruct (same_shape_rows _ _ (strided_same_shape utils _ _ Hds) Hrect)
    as [Hlen Hrows].
  rewrite (nonzero_rows_filter _ _ Hrows). unfold mask_positions.
  simpl. rewrite Hlen, Nat2Z.id. reflexivity.
Qed.

(** C2: for a patch size and a mask within [int64_safe], where the
    [int64] tests of lines 122-125 are exact ([index_int64_agrees]), the
    length query of a constructed dataset returns the number of
    positions of the mask where the strided mask is nonzero and the
    boundary test passes; and with stride 1, ROI masking and a tissue mask
    that is nonzero everywhere, every position that satisfies the four
    strict boundary inequalities is an entry of the coordinate index. *)
Theorem C2_length_counts
  (wsi_path : string) (mask_path label_path : option string)
  (image_size : Z) (normalize : bool) (flip rotate : string)
  (sampling_stride : Z) (roi_masking : bool)
  (ds : WSIStridedPatchDataset) :
  __init__ utils wsi_path mask_path label_path image_size normalize flip
           rotate sampling_stride roi_masking = Ok ds ->
  rectangular (get_mask ds) ->
  int64_safe image_size (get_mask ds) ->
  __len__ ds = count_selected ds /\
  (sampling_stride = 1 -> roi_masking = true ->
   is_uint8 (get_mask ds) ->
   (forall i j v, np.cell (get_mask ds) i j = Some v -> v <> 0) ->
   forall x y,
     0 <= x < fst (np.shape (get_mask ds)) ->
     0 <= y < snd (np.shape (get_mask ds)) ->
     x - image_size / 2 > 0 ->
     x + image_size / 2 < fst (np.shape (get_mask ds)) ->
     y - image_size / 2 > 0 ->
     y + image_size / 2 < snd (np.shape (get_mask ds)) ->
     In (x, y) (coordinates ds)).
Proof.
  unfold __init__, get_mask. intros Hds Hrect _.
  pose proof (coordinates_filter utils _ _ Hds) as Hc. simpl in Hc.
  pose proof (candidates_positions _ _ Hds Hrect) as Hpos.
  split.
  - destruct (constructed_lengths utils _ _ Hds) as (_ & -> & _).
    unfold count_selected. f_equal. rewrite Hc. unfold candidates.
    rewrite Hpos, filter_map_comm, length_map, filter_filter_andb.
    f_equal. apply filter_ext. intros p. unfold selected.
    destruct (_preprocess_inv utils _ _ Hds) as (_ & -> & _). reflexivity.
  - intros -> -> Hu8 Hall x y Hx Hy H1 H2 H3 H4.
    rewrite Hc. apply filter_In. split.
    + unfold candidates. apply in_map_iff.
      exists (Z.to_nat x, Z.to_nat y). simpl.
      split; [f_equal; lia |].
      rewrite Hpos. apply filter_In. split.
      * unfold mask_positions, positions. apply in_prod; apply in_seq; lia.
      * unfold nonzero_at. simpl.
        rewrite (strided_cells utils _ ds _ _ Hds) by (simpl; auto; lia).
        simpl.
        destruct (cell_defined (_mask ds) (Z.to_nat x) (Z.to_nat y) Hrect)
          as [m Hm]; [lia | lia |].
        rewrite Hm. simpl.
        pose proof (Hu8 _ _ _ Hm) as Hr. pose proof (Hall _ _ _ Hm) as Hnz.
        unfold lattice_value. rewrite !Z.mod_1_r. simpl.
        rewrite Z.mod_small by lia.
        destruct (Z.eqb_spec (1 * m) 0); [lia | reflexivity].
    + unfold fits_mask. apply fits_spec. simpl fst. simpl snd. auto.
Qed.

End LengthQuery.

(** * The coordinate index on int64 *)

Section IndexOnInt64.

Variable utils : helpers.

(** The candidates of a constructed dataset are positions of its mask. *)
Lemma candidates_in_mask (self : params) (ds : WSIStridedPatchDataset) :
  _preprocess utils self = Ok ds ->
  rectangular (_mask ds) ->
  List.Forall (fun p => 0 <= fst p < fst (np.shape (_mask ds)) /\
                        0 <= snd p < snd (np.shape (_mask ds)))
              (candidates (_strided_mask ds)).
Proof.
  intros Hds Hrect. apply List.Forall_forall. intros [x y] Hin.
  unfold candidates in Hin.
  rewrite (candidates_positions utils _ _ Hds Hrect) in Hin.
  apply in_map_iff in Hin. destruct Hin as ([i j] & E & Hin).
  inversion E; subst; clear E. apply filter_In in Hin. destruct Hin as [Hin _].
  unfold mask_positions, positions in Hin. apply in_prod_iff in Hin.
  destruct Hin as [Hi Hj]. apply in_seq in Hi. apply in_seq in Hj.
  cbn [fst snd]. lia.
Qed.

(** Within [int64_safe], the loop of lines 121-128 with its tests on
    [int64] ends without raising and computes the two arrays of the
    coordinate index of the constructed dataset. *)
Lemma index_int64_agrees (self : params) (ds : WSIStridedPatchDataset) :
  _preprocess utils self = Ok ds ->
  rectangular (_mask ds) ->
  int64_safe (_image_size self) (_mask ds) ->
  fold_left (keep_fitting_int64 (_image_size self)
               (fst (np.shape (_mask ds))) (snd (np.shape (_mask ds))))
            (candidates (_strided_mask ds)) (Some ([], [])) =
  Some (_X_idcs ds, _Y_idcs ds).
Proof.
  intros Hds Hrect Hsafe.
  rewrite (keep_fitting_int64_agrees _ _ _ _ Hsafe
             (candidates_in_mask _ _ Hds Hrect)).
  rewrite keep_fitting_filter. simpl.
  apply _preprocess_inv in Hds.
  destruct Hds as (ones & _ & _ & _ & _ & HX & HY & _).
  rewrite HX, HY. reflexivity.
Qed.

End IndexOnInt64.

(** * Construction failures *)

Section Construction.

Variable utils : helpers.

Lemma nonzero_rows_nil (a : np.ndarray2 Z) :
  (forall i j v, np.cell a i j = Some v -> v = 0) ->
  np.nonzero_rows 0 a = [].
Proof.
  intros Hz. destruct (np.nonzero_rows 0 a) as [| [i j] l] eqn:E;
    [reflexivity |].
  assert (Hin : In (i, j) (np.nonzero_rows 0 a)) by (rewrite E; left; auto).
  apply In_where_nonzero in Hin. destruct Hin as (v & Hc & Hv).
  apply Hz in Hc. contradiction.
Qed.

(** C6: with [roi_masking] true and a cleaned tissue mask that is zero
    everywhere, the construction does not return an empty index: once the
    inputs are decoded it raises [ValueError], at line 105 for a zero
    stride and at [tempX.max()] on line 120 otherwise. *)
Theorem C6_all_zero_mask_raises
  (wsi_path : string) (mask_path label_path : option string)
  (image_size : Z) (normalize : bool) (flip rotate : string)
  (sampling_stride : Z)
  (slide : np.ndarray2 pixel) (mask0 : np.ndarray2 Z) :
  ReadWholeSlideImage_RGB utils wsi_path = Ok slide ->
  label_decodes utils label_path ->
  mask_source utils mask_path slide = Ok mask0 ->
  (forall i j v,
     np.cell (BinMorphoProcessMask utils (np.uint8 mask0)) i j = Some v ->
     v = 0) ->
  __init__ utils wsi_path mask_path label_path image_size normalize flip
           rotate sampling_stride true = Raise ValueError.
Proof.
  unfold __init__. intros Hslide Hlabel Hmask Hzero.
  match goal with |- _preprocess utils ?s = _ => set (self := s) end.
  destruct (Z.eq_dec sampling_stride 0) as [-> | Hs].
  - apply (_preprocess_zero_stride utils self slide mask0); auto.
  - destruct (assign_strided_nonzero
                (np.zeros_like (BinMorphoProcessMask utils (np.uint8 mask0)))
                sampling_stride 1 Hs)
      as (is_ & js & ones & _ & _ & Hones & _).
    destruct (_preprocess_eval utils self slide mask0 ones Hslide Hlabel
                Hmask Hones) as [Hraise _].
    apply Hraise. simpl. apply nonzero_rows_nil. intros i j v Hc.
    rewrite cell_mul in Hc.
    destruct (np.cell ones i j) as [o |]; [| discriminate].
    destruct (np.cell _ i j) as [m |] eqn:Hm; [| discriminate].
    apply Hzero in Hm. subst m. injection Hc as <-.
    rewrite Z.mul_0_r. reflexivity.
Qed.

(** C4 (amended): the construction validates nothing itself.  Once the
    inputs are decoded, a zero stride is rejected, with the [ValueError]
    of the slice assignment of line 105; any other stride, negative ones
    included, and any dimensions of the slide and label rasters are
    accepted: the construction returns an object as soon as the strided
    mask, built from the mask alone, has a nonzero cell, for a patch size
    and a mask within [int64_safe], where the [int64] tests of lines
    122-125 cannot raise or wrap ([fits_int64_agrees]). *)
Theorem C4_no_validation
  (wsi_path : string) (mask_path label_path : option string)
  (image_size : Z) (normalize : bool) (flip rotate : string)
  (sampling_stride : Z) (roi_masking : bool)
  (slide : np.ndarray2 pixel) (mask0 : np.ndarray2 Z) :
  ReadWholeSlideImage_RGB utils wsi_path = Ok slide ->
  label_decodes utils label_path ->
  mask_source utils mask_path slide = Ok mask0 ->
  let mask := BinMorphoProcessMask utils (np.uint8 mask0) in
  (sampling_stride = 0 ->
   __init__ utils wsi_path mask_path label_path image_size normalize flip
            rotate sampling_stride roi_masking = Raise ValueError) /\
  (sampling_stride <> 0 ->
   exists ones_mask,
     np.assign_strided (np.zeros_like mask) sampling_stride 1 = Ok ones_mask /\
     (candidates (if roi_masking then np.mul ones_mask mask else ones_mask)
        <> [] ->
      int64_safe image_size mask ->
      exists ds,
        __init__ utils wsi_path mask_path label_path image_size normalize
                 flip rotate sampling_stride roi_masking = Ok ds /\
        _slide ds = slide /\ get_mask ds = mask)).
Proof.
  intros Hslide Hlabel Hmask mask. unfold __init__.
  match goal with |- context [_preprocess utils ?s] => set (self := s) end.
  split.
  - intros ->. apply (_preprocess_zero_stride utils self slide mask0); auto.
  - intros Hs.
    destruct (assign_strided_nonzero (np.zeros_like mask) sampling_stride 1 Hs)
      as (is_ & js & ones & _ & _ & Hones & _).
    exists ones. split; [exact Hones |]. intros Hcand _.
    destruct (_preprocess_eval utils self slide mask0 ones Hslide Hlabel
                Hmask Hones) as [_ Hok].
    assert (Hne : np.nonzero_rows 0
                    (if _roi_masking self
                     then np.mul ones (BinMorphoProcessMask utils (np.uint8 mask0))
                     else ones) <> []).
    { simpl. intros Hnil. apply Hcand. unfold candidates.
      fold mask in Hnil. rewrite Hnil. reflexivity. }
    destruct (Hok Hne) as (ds & Hds & _ & Hsl & Hm & _).
    exists ds. auto.
Qed.

End Construction.

(** * The properties on concrete inputs *)

Example tissue_constructed :
  __init__ Demo.tissue "wsi" (Some "mask"%string) None 2 true
           "FLIP_LEFT_RIGHT" "ROTATE_90" 2 true = Ok Demo.ds_tissue.
Proof. vm_compute. reflexivity. Qed.

Example dense_constructed :
  __init__ Demo.tissue "wsi" (Some "mask"%string) None 2 false
           "NONE" "NONE" 1 true = Ok Demo.ds_dense.
Proof. vm_compute. reflexivity. Qed.

Example glass_constructed :
  __init__ Demo.glass "wsi" (Some "mask"%string) None 2 true
           "NONE" "NONE" 2 false = Ok Demo.ds_glass.
Proof. vm_compute. reflexivity. Qed.

(** A stride of -2 on six rows selects the rows 5, 3 and 1. *)
Example negative_stride_lattice :
  np.slice_indices 6 (-2) = Ok [5; 3; 1]%nat /\
  np.assign_strided (np.zeros_like (Demo.full 1 6 6)) (-2) 1
    = Ok Demo.lattice2_rev /\
  (let* ds := __init__ Demo.tissue "wsi" (Some "mask"%string) None 2 true
                       "NONE" "NONE" (-2) true in
   Ok (get_strided_mask ds, _X_idcs ds, _Y_idcs ds, __len__ ds))
  = Ok (Demo.lattice2_rev, [3], [3], 1).
Proof. repeat split; vm_compute; reflexivity. Qed.

(** A zero stride raises at the slice assignment. *)
Example zero_stride_raises :
  __init__ Demo.tissue "wsi" (Some "mask"%string) None 2 true
           "NONE" "NONE" 0 true = Raise ValueError.
Proof. vm_compute. reflexivity. Qed.

(** The transpositions on a 2 x 3 image. *)
Example transpose_2x3 :
  PIL.transpose PIL.FLIP_LEFT_RIGHT [[1; 2; 3]; [4; 5; 6]]
    = [[3; 2; 1]; [6; 5; 4]] /\
  PIL.transpose PIL.ROTATE_90 [[1; 2; 3]; [4; 5; 6]]
    = [[3; 6]; [2; 5]; [1; 4]] /\
  PIL.transpose PIL.ROTATE_180 [[1; 2; 3]; [4; 5; 6]]
    = [[6; 5; 4]; [3; 2; 1]] /\
  PIL.transpose PIL.ROTATE_270 [[1; 2; 3]; [4; 5; 6]]
    = [[4; 1]; [5; 2]; [6; 3]].
Proof. repeat split; reflexivity. Qed.

(** Indexed access on the dataset built from [Demo.tissue]: entry 0 is
    centred at (2, 2); the patch holds the pixels of rows 1-2 and columns
    1-2, whose first channels 11, 12, 21, 22 come out flipped, rotated and
    rescaled to -117/128, -107/128, -116/128 and -106/128. *)
Example getitem_tissue :
  __getitem__ Demo.tissue Demo.ds_tissue 0
  = Ok ([[[S754_finite true 15335424 (-24); S754_zero false;
           S754_finite false 16646144 (-24)];
          [S754_finite true 14024704 (-24); S754_zero false;
           S754_finite false 16646144 (-24)]];
         [[S754_finite true 15204352 (-24); S754_zero false;
           S754_finite false 16646144 (-24)];
          [S754_finite true 13893632 (-24); S754_zero false;
           S754_finite false 16646144 (-24)]]],
        2, 2, [[0; 0]; [0; 0]]).
Proof. vm_compute. reflexivity. Qed.

Lemma C1_boundary_fit_witness :
  __init__ Demo.tissue "wsi" (Some "mask"%string) None 2 true
           "FLIP_LEFT_RIGHT" "ROTATE_90" 2 true = Ok Demo.ds_tissue /\
  _X_idcs Demo.ds_tissue !! 1%nat = Some 2 /\
  _Y_idcs Demo.ds_tissue !! 1%nat = Some 4 /\
  (2 - 2 / 2 > 0 /\
   2 + 2 / 2 < fst (np.shape (get_mask Demo.ds_tissue)) /\
   4 - 2 / 2 > 0 /\
   4 + 2 / 2 < snd (np.shape (get_mask Demo.ds_tissue))).
Proof.
  split; [vm_compute; reflexivity |].
  split; [reflexivity |]. split; [reflexivity |].
  apply (C1_boundary_fit Demo.tissue "wsi" (Some "mask"%string) None 2 true
           "FLIP_LEFT_RIGHT" "ROTATE_90" 2 true Demo.ds_tissue 1 2 4).
  - vm_compute. reflexivity.
  - reflexivity.
  - reflexivity.
Defined.

Lemma C10_entries_on_lattice_witness :
  0 < 2 /\ 0 <= 2 /\
  __init__ Demo.tissue "wsi" (Some "mask"%string) None 2 true
           "FLIP_LEFT_RIGHT" "ROTATE_90" 2 true = Ok Demo.ds_tissue /\
  _X_idcs Demo.ds_tissue !! 1%nat = Some 2 /\
  _Y_idcs Demo.ds_tissue !! 1%nat = Some 4 /\
  ((2 | 2) /\ (2 | 4) /\ 2 <= 2 /\ 2 <= 4).
Proof.
  split; [lia |]. split; [lia |].
  split; [vm_compute; reflexivity |].
  split; [reflexivity |]. split; [reflexivity |].
  apply (C10_entries_on_lattice Demo.tissue "wsi" (Some "mask"%string) None 2
           true "FLIP_LEFT_RIGHT" "ROTATE_90" 2 true Demo.ds_tissue 1 2 4).
  - lia.
  - lia.
  - vm_compute. reflexivity.
  - reflexivity.
  - reflexivity.
Defined.

Lemma C3_strided_mask_witness :
  0 < 2 /\
  __init__ Demo.glass "wsi" (Some "mask"%string) None 2 true
           "NONE" "NONE" 2 false = Ok Demo.ds_glass /\
  rectangular (get_mask Demo.ds_glass) /\
  exists ones_mask,
    (forall i j,
       np.cell ones_mask i j =
       (fun _ => lattice_value 2 i j) <$> np.cell (get_mask Demo.ds_glass) i j) /\
    get_strided_mask Demo.ds_glass =
      (if false then np.mul ones_mask (get_mask Demo.ds_glass) else ones_mask) /\
    (false = true -> is_uint8 (get_mask Demo.ds_glass) ->
     forall i j,
       np.cell (get_strided_mask Demo.ds_glass) i j =
       (fun m => lattice_value 2 i j * m)
         <$> np.cell (get_mask Demo.ds_glass) i j) /\
    (false = false ->
     forall i j,
       np.cell (get_strided_mask Demo.ds_glass) i j =
       (fun _ => lattice_value 2 i j)
         <$> np.cell (get_mask Demo.ds_glass) i j).
Proof.
  assert (Hrect : rectangular (get_mask Demo.ds_glass))
    by (unfold rectangular; simpl; repeat constructor).
  split; [lia |]. split; [vm_compute; reflexivity |]. split; [exact Hrect |].
  apply (C3_strided_mask Demo.glass "wsi" (Some "mask"%string) None 2 true
           "NONE" "NONE" 2 false Demo.ds_glass).
  - lia.
  - vm_compute. reflexivity.
  - exact Hrect.
Defined.

Lemma lookup_repeat {A : Type} (x y : A) (n i : nat) :
  repeat x n !! i = Some y -> y = x.
Proof.
  revert i. induction n as [| n IH]; intros [| i]; simpl; try discriminate.
  - intros [= ->]. reflexivity.
  - apply IH.
Qed.

Lemma cell_full (v w : Z) (n m i j : nat) :
  np.cell (Demo.full v n m) i j = Some w -> w = v.
Proof.
  unfold np.cell, Demo.full.
  destruct (repeat (repeat v m) n !! i) as [r |] eqn:Hr; [| discriminate].
  apply lookup_repeat in Hr. subst r. apply lookup_repeat.
Qed.

Lemma C2_length_counts_witness :
  __init__ Demo.tissue "wsi" (Some "mask"%string) None 2 false
           "NONE" "NONE" 1 true = Ok Demo.ds_dense /\
  rectangular (get_mask Demo.ds_dense) /\
  int64_safe 2 (get_mask Demo.ds_dense) /\
  __len__ Demo.ds_dense = count_selected Demo.ds_dense /\
  count_selected Demo.ds_dense = 9 /\
  In (3, 4) (coordinates Demo.ds_dense).
Proof.
  assert (Hrect : rectangular (get_mask Demo.ds_dense))
    by (unfold rectangular; simpl; repeat constructor).
  assert (Hsafe : int64_safe 2 (get_mask Demo.ds_dense))
    by (unfold int64_safe; repeat split; vm_compute; discriminate).
  split; [vm_compute; reflexivity |]. split; [exact Hrect |].
  split; [exact Hsafe |].
  destruct (C2_length_counts Demo.tissue "wsi" (Some "mask"%string) None 2
              false "NONE" "NONE" 1 true Demo.ds_dense) as [Hlen Hall].
  - vm_compute. reflexivity.
  - exact Hrect.
  - exact Hsafe.
  - split; [exact Hlen |]. split; [vm_compute; reflexivity |].
    apply Hall.
    + reflexivity.
    + reflexivity.
    + intros i j v Hc. apply cell_full in Hc. lia.
    + intros i j v Hc. apply cell_full in Hc. lia.
    + simpl. lia.
    + simpl. lia.
    + reflexivity.
    + reflexivity.
    + reflexivity.
    + reflexivity.
Defined.

Lemma C6_all_zero_mask_raises_witness :
  ReadWholeSlideImage_RGB Demo.glass "wsi" = Ok (Demo.slide 6 6) /\
  label_decodes Demo.glass None /\
  mask_source Demo.glass (Some "mask"%string) (Demo.slide 6 6)
    = Ok (Demo.full 0 6 6) /\
  __init__ Demo.glass "wsi" (Some "mask"%string) None 2 true
           "NONE" "NONE" 2 true = Raise ValueError.
Proof.
  split; [reflexivity |]. split; [exact I |]. split; [reflexivity |].
  apply (C6_all_zero_mask_raises Demo.glass "wsi" (Some "mask"%string) None 2
           true "NONE" "NONE" 2 (Demo.slide 6 6) (Demo.full 0 6 6)).
  - reflexivity.
  - exact I.
  - reflexivity.
  - intros i j v Hc. apply (cell_full 0 v 6 6 i j). exact Hc.
Defined.

(** C4, as stated, fails: a negative stride is accepted, and so are a
    slide, a mask and a label raster of three different shapes. *)
Lemma C4_counterexample :
  -2 <= 0 /\
  is_ok (__init__ Demo.tissue "wsi" (Some "mask"%string) None 2 true
                  "NONE" "NONE" (-2) true) = true /\
  np.shape (Demo.slide 2 2) <> np.shape (Demo.full 1 6 6) /\
  np.shape (Demo.full 7 3 3) <> np.shape (Demo.full 1 6 6) /\
  is_ok (__init__ Demo.mismatched "wsi" (Some "mask"%string)
                  (Some "label"%string) 2 true "NONE" "NONE" 2 true) = true.
Proof.
  split; [lia |]. split; [vm_compute; reflexivity |].
  split; [vm_compute; congruence |]. split; [vm_compute; congruence |].
  vm_compute. reflexivity.
Qed.

Lemma C4_no_validation_witness :
  ReadWholeSlideImage_RGB Demo.mismatched "wsi" = Ok (Demo.slide 2 2) /\
  label_decodes Demo.mismatched (Some "label"%string) /\
  mask_source Demo.mismatched (Some "mask"%string) (Demo.slide 2 2)
    = Ok (Demo.full 1 6 6) /\
  int64_safe 2 (Demo.full 1 6 6) /\
  exists ds,
    __init__ Demo.mismatched "wsi" (Some "mask"%string)
             (Some "label"%string) 2 true "NONE" "NONE" (-2) true = Ok ds /\
    _slide ds = Demo.slide 2 2 /\
    get_mask ds = Demo.full 1 6 6.
Proof.
  assert (Hlabel : label_decodes Demo.mismatched (Some "label"%string))
    by (exists (Demo.full 7 3 3); reflexivity).
  assert (Hsafe : int64_safe 2 (Demo.full 1 6 6))
    by (unfold int64_safe; repeat split; vm_compute; discriminate).
  split; [reflexivity |]. split; [exact Hlabel |]. split; [reflexivity |].
  split; [exact Hsafe |].
  destruct (C4_no_validation Demo.mismatched "wsi" (Some "mask"%string)
              (Some "label"%string) 2 true "NONE" "NONE" (-2) true
              (Demo.slide 2 2) (Demo.full 1 6 6)) as [_ Hneg].
  - reflexivity.
  - exact Hlabel.
  - reflexivity.
  - destruct Hneg as (ones & Hones & Hok); [lia |].
    vm_compute in Hones. injection Hones as <-.
    apply Hok; [vm_compute; discriminate | exact Hsafe].
Defined.

(** * Indexed access *)

Lemma item_valid (t : list Z) (idx : Z) :
  0 <= idx < Z.of_nat (length t) ->
  exists v, t !! Z.to_nat idx = Some v /\ np.item t idx = Ok v.
Proof.
  intros H. unfold np.item.
  destruct (Z.ltb_spec idx 0) as [? | _]; [lia |].
  destruct (Z.leb_spec 0 idx) as [_ | ?]; [| lia].
  destruct (Z.ltb_spec idx (Z.of_nat (length t))) as [_ | ?]; [| lia]. simpl.
  destruct (lookup_lt_is_Some_2 t (Z.to_nat idx)) as [v Hv]; [lia |].
  exists v. rewrite Hv. auto.
Qed.

Lemma item_negative (t : list Z) (idx : Z) :
  - Z.of_nat (length t) <= idx < 0 ->
  np.item t idx = np.item t (idx + Z.of_nat (length t)).
Proof.
  intros H. unfold np.item.
  destruct (Z.ltb_spec idx 0) as [_ | ?]; [| lia].
  destruct (Z.ltb_spec (idx + Z.of_nat (length t)) 0) as [? | _]; [lia |].
  reflexivity.
Qed.

Lemma item_out_of_range (t : list Z) (idx : Z) :
  Z.of_nat (length t) <= idx \/ idx < - Z.of_nat (length t) ->
  np.item t idx = Raise IndexError.
Proof.
  intros H. unfold np.item.
  destruct (Z.ltb_spec idx 0) as [Hneg | Hpos].
  - destruct (Z.leb_spec 0 (idx + Z.of_nat (length t))) as [? | _]; [lia |].
    reflexivity.
  - destruct (Z.leb_spec 0 idx) as [_ | ?]; [| lia].
    destruct (Z.ltb_spec idx (Z.of_nat (length t))) as [? | _]; [lia |].
    reflexivity.
Qed.

(** The four tests of lines 164-178 amount to the flip transposition, if
    any, followed by the rotation, if any, on both patches. *)
Lemma augment_ops {A B : Type} (flip rotate : string)
  (img : PIL.Image A) (label_img : PIL.Image B) :
  augment flip rotate (img, label_img) =
  (apply_ops (flip_ops flip ++ rotate_ops rotate) img,
   apply_ops (flip_ops flip ++ rotate_ops rotate) label_img).
Proof.
  unfold augment, flip_ops, rotate_ops, apply_ops.
  destruct (String.eqb flip "FLIP_LEFT_RIGHT");
    destruct (String.eqb_spec rotate "ROTATE_90") as [-> | _];
    try reflexivity;
    destruct (String.eqb_spec rotate "ROTATE_180") as [-> | _];
    try reflexivity;
    destruct (String.eqb rotate "ROTATE_270"); reflexivity.
Qed.

Section IndexedAccess.

Variable utils : helpers.

(** Indexed access at a valid index: the two coordinates are read, both
    patches go through the same transpositions, and the image patch is
    converted. *)
Lemma __getitem___valid (self : params) (ds : WSIStridedPatchDataset)
  (idx : Z) :
  _preprocess utils self = Ok ds ->
  0 <= idx < __len__ ds ->
  exists x y,
    _X_idcs ds !! Z.to_nat idx = Some x /\
    _Y_idcs ds !! Z.to_nat idx = Some y /\
    __getitem__ utils ds idx =
    (let* label_img := label_patch utils ds x y in
     let ops := flip_ops (_flip ds) ++ rotate_ops (_rotate ds) in
     Ok (encode (_normalize ds)
           (apply_ops ops
              (getImagePatch utils pixel (_slide ds) (x, y) (_image_size ds))),
         x, y, array_uint8 (apply_ops ops label_img))).
Proof.
  intros Hds Hidx.
  destruct (constructed_lengths utils _ _ Hds) as (Hxy & _ & Hlen).
  destruct (item_valid (_X_idcs ds) idx) as (x & Hx & Hix); [lia |].
  destruct (item_valid (_Y_idcs ds) idx) as (y & Hy & Hiy); [lia |].
  exists x, y. split; [exact Hx |]. split; [exact Hy |].
  unfold __getitem__. rewrite Hix, Hiy. cbn [bind].
  fold (label_patch utils ds x y).
  destruct (label_patch utils ds x y) as [lab |]; cbn [bind]; [| reflexivity].
  rewrite augment_ops. unfold encode.
  destruct (_normalize ds); reflexivity.
Qed.

End IndexedAccess.

(** * Transposing constant squares *)

Lemma repeat_lookup_lt {A : Type} (x : A) (n i : nat) :
  (i < n)%nat -> repeat x n !! i = Some x.
Proof.
  revert i. induction n as [| n IH]; intros [| i] H; simpl;
    [lia | lia | reflexivity | apply IH; lia].
Qed.

Lemma column_repeat {A : Type} (x : A) (w n j : nat) :
  (j < w)%nat -> PIL.column (repeat (repeat x w) n) j = repeat x n.
Proof.
  intros Hj. unfold PIL.column. induction n as [| n IH]; [reflexivity |].
  simpl. rewrite (repeat_lookup_lt x w j Hj). simpl. f_equal. exact IH.
Qed.

Lemma columns_square {A : Type} (x : A) (n : nat) :
  PIL.columns (repeat (repeat x n) n) = repeat (repeat x n) n.
Proof.
  unfold PIL.columns.
  assert (Hw : PIL.width (repeat (repeat x n) n) = n).
  { destruct n; [reflexivity |]. simpl. rewrite repeat_length. reflexivity. }
  rewrite Hw.
  rewrite (map_ext_in _ (fun _ => repeat x n)).
  - rewrite map_const, length_seq. reflexivity.
  - intros j Hj. apply in_seq in Hj. apply column_repeat. lia.
Qed.

Lemma transpose_square {A : Type} (method : PIL.Transpose) (x : A) (n : nat) :
  PIL.transpose method (repeat (repeat x n) n) = repeat (repeat x n) n.
Proof.
  destruct method; simpl.
  - rewrite map_repeat, rev_repeat. reflexivity.
  - rewrite columns_square, rev_repeat. reflexivity.
  - rewrite map_repeat, !rev_repeat. reflexivity.
  - rewrite columns_square, map_repeat, rev_repeat. reflexivity.
Qed.

Lemma apply_ops_square {A : Type} (ops : list PIL.Transpose) (x : A) (n : nat) :
  apply_ops ops (repeat (repeat x n) n) = repeat (repeat x n) n.
Proof.
  unfold apply_ops. induction ops as [| m ops IH]; simpl; [reflexivity |].
  rewrite transpose_square. exact IH.
Qed.

Section IndexErrors.

Variable utils : helpers.

(** C5 (amended): on a constructed dataset, indexed access raises
    [IndexError] for every index [idx >= length] and every index
    [idx < -length]; an index in [-length, 0) is not rejected: it is served
    as the index [idx + length], counting from the end. *)
Theorem C5_index_errors
  (wsi_path : string) (mask_path label_path : option string)
  (image_size : Z) (normalize : bool) (flip rotate : string)
  (sampling_stride : Z) (roi_masking : bool)
  (ds : WSIStridedPatchDataset) (idx : Z) :
  __init__ utils wsi_path mask_path label_path image_size normalize flip
           rotate sampling_stride roi_masking = Ok ds ->
  (__len__ ds <= idx \/ idx < - __len__ ds ->
   __getitem__ utils ds idx = Raise IndexError) /\
  (- __len__ ds <= idx < 0 ->
   __getitem__ utils ds idx = __getitem__ utils ds (idx + __len__ ds)).
Proof.
  unfold __init__. intros Hds.
  destruct (constructed_lengths utils _ _ Hds) as (Hxy & _ & Hlen).
  split.
  - intros Hout. unfold __getitem__.
    rewrite item_out_of_range by lia. reflexivity.
  - intros Hneg. unfold __getitem__.
    rewrite (item_negative (_X_idcs ds) idx) by lia.
    rewrite (item_negative (_Y_idcs ds) idx) by lia.
    rewrite <- Hxy, <- Hlen. reflexivity.
Qed.

(** C7: when no label path is supplied and the patch side is positive,
    indexed access at every valid index of a constructed dataset returns,
    for every flip and rotate setting, a label patch that is the all-zero
    square of side [image_size]. *)
Theorem C7_absent_label_zero
  (wsi_path : string) (mask_path : option string)
  (image_size : Z) (normalize : bool) (flip rotate : string)
  (sampling_stride : Z) (roi_masking : bool)
  (ds : WSIStridedPatchDataset) (idx : Z) :
  0 < image_size ->
  __init__ utils wsi_path mask_path None image_size normalize flip
           rotate sampling_stride roi_masking = Ok ds ->
  0 <= idx < __len__ ds ->
  exists img x y,
    __getitem__ utils ds idx =
    Ok (img, x, y,
        repeat (repeat 0 (Z.to_nat image_size)) (Z.to_nat image_size)).
Proof.
  unfold __init__. intros Hsize Hds Hidx.
  destruct (__getitem___valid utils _ ds idx Hds Hidx)
    as (x & y & _ & _ & Hget).
  destruct (_preprocess_inv utils _ _ Hds) as (_ & Hself & _).
  unfold label_patch in Hget. rewrite Hself in Hget. simpl in Hget.
  unfold np.zeros in Hget.
  destruct (Z.ltb_spec image_size 0) as [? | _]; [lia |]. simpl in Hget.
  unfold PIL.fromarray in Hget. rewrite apply_ops_square in Hget.
  unfold array_uint8 in Hget. rewrite !map_repeat in Hget. simpl in Hget.
  eexists _, x, y. exact Hget.
Qed.

End IndexErrors.

(** * Transposing commutes with pixelwise maps *)

Lemma column_map {A B : Type} (f : A -> B) (im : PIL.Image A) (j : nat) :
  PIL.column (map (map f) im) j = map f (PIL.column im j).
Proof.
  unfold PIL.column. induction im as [| r im IH]; simpl; [reflexivity |].
  rewrite lookup_map. destruct (r !! j); simpl; [f_equal |]; exact IH.
Qed.

Lemma columns_map {A B : Type} (f : A -> B) (im : PIL.Image A) :
  PIL.columns (map (map f) im) = map (map f) (PIL.columns im).
Proof.
  unfold PIL.columns.
  assert (Hw : PIL.width (map (map f) im) = PIL.width im).
  { destruct im; simpl; [reflexivity | apply length_map]. }
  rewrite Hw, map_map. apply map_ext. intros j. apply column_map.
Qed.

Lemma flip_map {A B : Type} (f : A -> B) (im : PIL.Image A) :
  map (@rev B) (map (map f) im) = map (map f) (map (@rev A) im).
Proof.
  rewrite !map_map. apply map_ext. intros r. symmetry. apply map_rev.
Qed.

Lemma transpose_map {A B : Type} (f : A -> B) (method : PIL.Transpose)
  (im : PIL.Image A) :
  PIL.transpose method (map (map f) im) =
  map (map f) (PIL.transpose method im).
Proof.
  destruct method; simpl.
  - apply flip_map.
  - rewrite columns_map, map_rev. reflexivity.
  - rewrite flip_map, map_rev. reflexivity.
  - rewrite columns_map. apply flip_map.
Qed.

Lemma apply_ops_map {A B : Type} (f : A -> B) (ops : list PIL.Transpose)
  (im : PIL.Image A) :
  apply_ops ops (map (map f) im) = map (map f) (apply_ops ops im).
Proof.
  unfold apply_ops. revert im.
  induction ops as [| m ops IH]; intros im; simpl; [reflexivity |].
  rewrite transpose_map. apply IH.
Qed.

(** * The arithmetic of the normalization *)

Lemma raw_values_ok : forallb raw_value_ok (map Z.of_nat (seq 0 256)) = true.
Proof. vm_compute. reflexivity. Qed.

Lemma raw_value_ok_range (v : Z) : 0 <= v <= 255 -> raw_value_ok v = true.
Proof.
  intros Hv. pose proof raw_values_ok as H.
  rewrite forallb_forall in H. apply H.
  apply in_map_iff. exists (Z.to_nat v). split; [lia |].
  apply in_seq. lia.
Qed.

Lemma raw_value_facts (v : Z) :
  0 <= v <= 255 ->
  represents (rescale (f32.of_Z v)) (Qmake (v - 128) 128) /\
  represents (f32.of_Z v) (inject_Z v) /\
  v mod 256 = v.
Proof.
  intros Hv. pose proof (raw_value_ok_range v Hv) as H.
  unfold raw_value_ok in H. unfold represents.
  destruct (f32.to_Q (rescale (f32.of_Z v))) as [r |]; [| discriminate].
  destruct (f32.to_Q (f32.of_Z v)) as [r0 |]; [| discriminate].
  rewrite !andb_true_iff in H. destruct H as [[H1 H2] H3].
  apply Qeq_bool_iff in H1. apply Qeq_bool_iff in H2. apply Z.eqb_eq in H3.
  auto.
Qed.

Section Transforms.

Variable utils : helpers.

(** C8: at every valid index of a constructed dataset, the image patch and
    the label patch go through one and the same sequence of
    transpositions: the flip, when the flip mode is FLIP_LEFT_RIGHT,
    followed by the rotation the rotate mode names, exactly one for
    ROTATE_90, ROTATE_180 and ROTATE_270; the sequence acts on positions
    only, so the pixels of the two patches stay paired. *)
Theorem C8_same_transforms
  (wsi_path : string) (mask_path label_path : option string)
  (image_size : Z) (normalize : bool) (flip rotate : string)
  (sampling_stride : Z) (roi_masking : bool)
  (ds : WSIStridedPatchDataset) (idx : Z) :
  __init__ utils wsi_path mask_path label_path image_size normalize flip
           rotate sampling_stride roi_masking = Ok ds ->
  0 <= idx < __len__ ds ->
  exists x y ops,
    ops = flip_ops flip ++ rotate_ops rotate /\
    (flip = "FLIP_LEFT_RIGHT"%string ->
     flip_ops flip = [PIL.FLIP_LEFT_RIGHT]) /\
    (flip <> "FLIP_LEFT_RIGHT"%string -> flip_ops flip = []) /\
    (rotate = "ROTATE_90"%string -> rotate_ops rotate = [PIL.ROTATE_90]) /\
    (rotate = "ROTATE_180"%string -> rotate_ops rotate = [PIL.ROTATE_180]) /\
    (rotate = "ROTATE_270"%string -> rotate_ops rotate = [PIL.ROTATE_270]) /\
    (rotate <> "ROTATE_90"%string -> rotate <> "ROTATE_180"%string ->
     rotate <> "ROTATE_270"%string -> rotate_ops rotate = []) /\
    __getitem__ utils ds idx =
    (let* label_img := label_patch utils ds x y in
     Ok (encode normalize
           (apply_ops ops
              (getImagePatch utils pixel (_slide ds) (x, y) image_size)),
         x, y, array_uint8 (apply_ops ops label_img))) /\
    (forall both : PIL.Image (pixel * Z),
       apply_ops ops (map (map fst) both) = map (map fst) (apply_ops ops both) /\
       apply_ops ops (map (map snd) both) = map (map snd) (apply_ops ops both)).
Proof.
  unfold __init__. intros Hds Hidx.
  destruct (__getitem___valid utils _ ds idx Hds Hidx)
    as (x & y & _ & _ & Hget).
  destruct (_preprocess_inv utils _ _ Hds) as (_ & Hself & _).
  rewrite Hself in Hget. simpl in Hget.
  exists x, y, (flip_ops flip ++ rotate_ops rotate).
  split; [reflexivity |].
  split; [intros ->; reflexivity |].
  split.
  { intros Hn. unfold flip_ops.
    destruct (String.eqb_spec flip "FLIP_LEFT_RIGHT"); [contradiction | auto]. }
  split; [intros ->; reflexivity |].
  split; [intros ->; reflexivity |].
  split; [intros ->; reflexivity |].
  split.
  { intros H1 H2 H3. unfold rotate_ops.
    destruct (String.eqb_spec rotate "ROTATE_90"); [contradiction |].
    destruct (String.eqb_spec rotate "ROTATE_180"); [contradiction |].
    destruct (String.eqb_spec rotate "ROTATE_270"); [contradiction | auto]. }
  split; [exact Hget |].
  intros both. split; apply apply_ops_map.
Qed.

(** C9: at every valid index of a constructed dataset, every channel value
    v of the transformed image patch is returned as the [float32]
    [(v - 128.0) / 128.0] when normalization is enabled and as the
    [float32] v when it is disabled, and the label patch is returned
    without rescaling; for a raw value v in 0..255 the rescaled value is
    exactly (v - 128) / 128, so that 128 gives 0.0, 0 gives -1.0 and 255
    gives 127/128. *)
Theorem C9_normalization
  (wsi_path : string) (mask_path label_path : option string)
  (image_size : Z) (normalize : bool) (flip rotate : string)
  (sampling_stride : Z) (roi_masking : bool)
  (ds : WSIStridedPatchDataset) (idx : Z) :
  __init__ utils wsi_path mask_path label_path image_size normalize flip
           rotate sampling_stride roi_masking = Ok ds ->
  0 <= idx < __len__ ds ->
  (exists x y,
     __getitem__ utils ds idx =
     (let* label_img := label_patch utils ds x y in
      let ops := flip_ops flip ++ rotate_ops rotate in
      Ok (map (map (map (fun v => if normalize
                                  then rescale (f32.of_Z v)
                                  else f32.of_Z v)))
              (apply_ops ops
                 (getImagePatch utils pixel (_slide ds) (x, y) image_size)),
          x, y,
          map (map (fun v => v mod 256)) (apply_ops ops label_img)))) /\
  (forall v, 0 <= v <= 255 ->
     represents (rescale (f32.of_Z v)) (Qmake (v - 128) 128) /\
     represents (f32.of_Z v) (inject_Z v) /\
     v mod 256 = v) /\
  rescale (f32.of_Z 128) = S754_zero false /\
  represents (rescale (f32.of_Z 0)) (-1) /\
  represents (rescale (f32.of_Z 255)) (Qmake 127 128).
Proof.
  unfold __init__. intros Hds Hidx.
  destruct (__getitem___valid utils _ ds idx Hds Hidx)
    as (x & y & _ & _ & Hget).
  destruct (_preprocess_inv utils _ _ Hds) as (_ & Hself & _).
  rewrite Hself in Hget. simpl in Hget.
  split; [| split; [exact raw_value_facts | split; [reflexivity | split]]].
  - exists x, y. rewrite Hget.
    destruct (label_patch utils ds x y) as [lab |]; simpl; [| reflexivity].
    unfold encode, array_float32, array_uint8.
    destruct normalize; [| reflexivity].
    do 4 f_equal. rewrite map_map. apply map_ext. intros row.
    rewrite map_map. apply map_ext. intros px.
    rewrite map_map. reflexivity.
  - vm_compute. reflexivity.
  - vm_compute. reflexivity.
Qed.

End Transforms.

(** C5, as stated, fails: on the dataset built from [Demo.tissue], whose
    length is 4, the negative index -1 returns the patch of index 3. *)
Lemma C5_counterexample :
  __init__ Demo.tissue "wsi" (Some "mask"%string) None 2 true
           "FLIP_LEFT_RIGHT" "ROTATE_90" 2 true = Ok Demo.ds_tissue /\
  __len__ Demo.ds_tissue = 4 /\
  -1 < 0 /\
  is_ok (__getitem__ Demo.tissue Demo.ds_tissue (-1)) = true /\
  __getitem__ Demo.tissue Demo.ds_tissue (-1) =
  __getitem__ Demo.tissue Demo.ds_tissue 3.
Proof.
  split; [vm_compute; reflexivity |]. split; [reflexivity |].
  split; [lia |]. split; vm_compute; reflexivity.
Qed.

Lemma C5_index_errors_witness :
  __init__ Demo.tissue "wsi" (Some "mask"%string) None 2 true
           "FLIP_LEFT_RIGHT" "ROTATE_90" 2 true = Ok Demo.ds_tissue /\
  __getitem__ Demo.tissue Demo.ds_tissue 4 = Raise IndexError /\
  __getitem__ Demo.tissue Demo.ds_tissue (-5) = Raise IndexError /\
  __getitem__ Demo.tissue Demo.ds_tissue (-1) =
  __getitem__ Demo.tissue Demo.ds_tissue (-1 + __len__ Demo.ds_tissue).
Proof.
  assert (Hds : __init__ Demo.tissue "wsi" (Some "mask"%string) None 2 true
                  "FLIP_LEFT_RIGHT" "ROTATE_90" 2 true = Ok Demo.ds_tissue)
    by (vm_compute; reflexivity).
  split; [exact Hds |].
  split; [| split].
  - apply (proj1 (C5_index_errors Demo.tissue "wsi" (Some "mask"%string) None
                    2 true "FLIP_LEFT_RIGHT" "ROTATE_90" 2 true
                    Demo.ds_tissue 4 Hds)).
    left. vm_compute. discriminate.
  - apply (proj1 (C5_index_errors Demo.tissue "wsi" (Some "mask"%string) None
                    2 true "FLIP_LEFT_RIGHT" "ROTATE_90" 2 true
                    Demo.ds_tissue (-5) Hds)).
    right. vm_compute. reflexivity.
  - apply (proj2 (C5_index_errors Demo.tissue "wsi" (Some "mask"%string) None
                    2 true "FLIP_LEFT_RIGHT" "ROTATE_90" 2 true
                    Demo.ds_tissue (-1) Hds)).
    split; vm_compute; [discriminate | reflexivity].
Defined.

Lemma C7_absent_label_zero_witness :
  0 < 2 /\
  __init__ Demo.tissue "wsi" (Some "mask"%string) None 2 true
           "FLIP_LEFT_RIGHT" "ROTATE_90" 2 true = Ok Demo.ds_tissue /\
  0 <= 1 < __len__ Demo.ds_tissue /\
  exists img x y,
    __getitem__ Demo.tissue Demo.ds_tissue 1 =
    Ok (img, x, y, repeat (repeat 0 (Z.to_nat 2)) (Z.to_nat 2)).
Proof.
  split; [lia |]. split; [vm_compute; reflexivity |].
  split; [split; vm_compute; [discriminate | reflexivity] |].
  apply (C7_absent_label_zero Demo.tissue "wsi" (Some "mask"%string) 2 true
           "FLIP_LEFT_RIGHT" "ROTATE_90" 2 true Demo.ds_tissue 1).
  - lia.
  - vm_compute. reflexivity.
  - split; vm_compute; [discriminate | reflexivity].
Defined.

Lemma C8_same_transforms_witness :
  __init__ Demo.tissue "wsi" (Some "mask"%string) None 2 true
           "FLIP_LEFT_RIGHT" "ROTATE_90" 2 true = Ok Demo.ds_tissue /\
  0 <= 1 < __len__ Demo.ds_tissue /\
  exists x y,
    __getitem__ Demo.tissue Demo.ds_tissue 1 =
    (let* label_img := label_patch Demo.tissue Demo.ds_tissue x y in
     Ok (encode true
           (apply_ops [PIL.FLIP_LEFT_RIGHT; PIL.ROTATE_90]
              (getImagePatch Demo.tissue pixel (_slide Demo.ds_tissue)
                             (x, y) 2)),
         x, y,
         array_uint8 (apply_ops [PIL.FLIP_LEFT_RIGHT; PIL.ROTATE_90]
                                label_img))).
Proof.
  split; [vm_compute; reflexivity |].
  split; [split; vm_compute; [discriminate | reflexivity] |].
  destruct (C8_same_transforms Demo.tissue "wsi" (Some "mask"%string) None 2
              true "FLIP_LEFT_RIGHT" "ROTATE_90" 2 true Demo.ds_tissue 1)
    as (x & y & ops & Hops & _ & _ & _ & _ & _ & _ & Hget & _).
  - vm_compute. reflexivity.
  - split; vm_compute; [discriminate | reflexivity].
  - exists x, y. rewrite Hget, Hops. reflexivity.
Defined.

Lemma C9_normalization_witness :
  __init__ Demo.tissue "wsi" (Some "mask"%string) None 2 true
           "FLIP_LEFT_RIGHT" "ROTATE_90" 2 true = Ok Demo.ds_tissue /\
  0 <= 1 < __len__ Demo.ds_tissue /\
  represents (rescale (f32.of_Z 200)) (Qmake 72 128) /\
  represents (f32.of_Z 200) (inject_Z 200).
Proof.
  split; [vm_compute; reflexivity |].
  split; [split; vm_compute; [discriminate | reflexivity] |].
  destruct (C9_normalization Demo.tissue "wsi" (Some "mask"%string) None 2
              true "FLIP_LEFT_RIGHT" "ROTATE_90" 2 true Demo.ds_tissue 1)
    as (_ & Hraw & _).
  - vm_compute. reflexivity.
  - split; vm_compute; [discriminate | reflexivity].
  - destruct (Hraw 200) as (H1 & H2 & _); [lia |]. split; assumption.
Defined.

(** * The order of the coordinate index *)

Lemma StronglySorted_app {A : Type} (R : A -> A -> Prop) (l1 l2 : list A) :
  StronglySorted R l1 -> StronglySorted R l2 ->
  (forall x y, In x l1 -> In y l2 -> R x y) ->
  StronglySorted R (l1 ++ l2).
Proof.
  intros H1 H2 H12. induction H1 as [| x l1 Hs IH Hx]; simpl; [exact H2 |].
  constructor.
  - apply IH. intros a b Ha Hb. apply H12; [right; exact Ha | exact Hb].
  - apply Forall_app. split; [exact Hx |].
    apply List.Forall_forall. intros y Hy. apply H12; [left; reflexivity | exact Hy].
Qed.

Lemma StronglySorted_map {A B : Type} (R : A -> A -> Prop) (S : B -> B -> Prop)
  (f : A -> B) (l : list A) :
  (forall x y, R x y -> S (f x) (f y)) ->
  StronglySorted R l -> StronglySorted S (map f l).
Proof.
  intros Hf H. induction H as [| x l Hs IH Hx]; simpl; constructor.
  - exact IH.
  - apply List.Forall_forall. intros y Hy. apply in_map_iff in Hy.
    destruct Hy as (z & <- & Hz). apply Hf.
    rewrite List.Forall_forall in Hx. apply Hx, Hz.
Qed.

Lemma StronglySorted_filter {A : Type} (R : A -> A -> Prop) (f : A -> bool)
  (l : list A) :
  StronglySorted R l -> StronglySorted R (List.filter f l).
Proof.
  intros H. induction H as [| x l Hs IH Hx]; simpl; [constructor |].
  destruct (f x); [| exact IH]. constructor; [exact IH |].
  apply List.Forall_forall. intros y Hy. apply filter_In in Hy.
  rewrite List.Forall_forall in Hx. apply Hx, Hy.
Qed.

Lemma StronglySorted_NoDup {A : Type} (R : A -> A -> Prop) (l : list A) :
  (forall x, ~ R x x) -> StronglySorted R l -> List.NoDup l.
Proof.
  intros Hirr H. induction H as [| x l Hs IH Hx]; constructor; [| exact IH].
  intros Hin. rewrite List.Forall_forall in Hx. apply (Hirr x), Hx, Hin.
Qed.

Lemma nonzero_from_ge (k : nat) (r : list Z) (j : nat) :
  In j (np.nonzero_from k r) -> (k <= j)%nat.
Proof. intros H. apply In_nonzero_from in H. tauto. Qed.

Lemma nonzero_from_sorted (k : nat) (r : list Z) :
  StronglySorted lt (np.nonzero_from k r).
Proof.
  revert k. induction r as [| v r IH]; intros k; simpl; [constructor |].
  destruct (v =? 0); [apply IH |]. constructor; [apply IH |].
  apply List.Forall_forall. intros j Hj. apply nonzero_from_ge in Hj. lia.
Qed.

(** [np.where] reports the positions in strictly increasing row-major
    order. *)
Lemma nonzero_rows_sorted (i0 : nat) (a : np.ndarray2 Z) :
  StronglySorted
    (fun p q : nat * nat =>
       (fst p < fst q)%nat \/ (fst p = fst q /\ (snd p < snd q)%nat))
    (np.nonzero_rows i0 a).
Proof.
  revert i0. induction a as [| r a IH]; intros i0; simpl; [constructor |].
  apply StronglySorted_app.
  - apply (StronglySorted_map lt); [| apply nonzero_from_sorted].
    intros x y Hxy. right. simpl. auto.
  - apply IH.
  - intros [i j] [i' j'] Hin Hin'. apply in_map_iff in Hin.
    destruct Hin as (j0 & E & _). injection E as <- <-.
    apply In_nonzero_rows in Hin'. destruct Hin' as [Hle _].
    left. simpl. lia.
Qed.

Lemma candidates_sorted (a : np.ndarray2 Z) :
  StronglySorted row_major_lt (candidates a).
Proof.
  unfold candidates.
  eapply StronglySorted_map; [| apply nonzero_rows_sorted].
  intros [i j] [i' j']. unfold row_major_lt. simpl. lia.
Qed.

Lemma row_major_lt_irrefl (p : Z * Z) : ~ row_major_lt p p.
Proof. unfold row_major_lt. lia. Qed.

Section IndexOrder.

Variable utils : helpers.

(** X1: in a constructed dataset the two index arrays have one length,
    which is the value [__len__] returns, and that value is never
    negative. *)
Theorem X1_index_arrays_aligned
  (wsi_path : string) (mask_path label_path : option string)
  (image_size : Z) (normalize : bool) (flip rotate : string)
  (sampling_stride : Z) (roi_masking : bool)
  (ds : WSIStridedPatchDataset) :
  __init__ utils wsi_path mask_path label_path image_size normalize flip
           rotate sampling_stride roi_masking = Ok ds ->
  length (_X_idcs ds) = length (_Y_idcs ds) /\
  __len__ ds = Z.of_nat (length (_X_idcs ds)) /\
  0 <= __len__ ds /\
  (forall k : nat,
     Z.of_nat k < __len__ ds ->
     exists x y, _X_idcs ds !! k = Some x /\ _Y_idcs ds !! k = Some y).
Proof.
  unfold __init__. intros Hds.
  destruct (constructed_lengths utils _ _ Hds) as (Hxy & _ & Hlen).
  split; [exact Hxy |]. split; [exact Hlen |]. split; [lia |].
  intros k Hk.
  destruct (lookup_lt_is_Some_2 (_X_idcs ds) k) as [x Hx]; [lia |].
  destruct (lookup_lt_is_Some_2 (_Y_idcs ds) k) as [y Hy]; [lia |].
  exists x, y. auto.
Qed.

(** X2: the entries of the coordinate index of a constructed dataset are
    in strictly increasing row-major order (by x, then by y); in
    particular no centre occurs twice. *)
Theorem X2_index_row_major
  (wsi_path : string) (mask_path label_path : option string)
  (image_size : Z) (normalize : bool) (flip rotate : string)
  (sampling_stride : Z) (roi_masking : bool)
  (ds : WSIStridedPatchDataset) :
  __init__ utils wsi_path mask_path label_path image_size normalize flip
           rotate sampling_stride roi_masking = Ok ds ->
  StronglySorted row_major_lt (coordinates ds) /\
  List.NoDup (coordinates ds).
Proof.
  unfold __init__. intros Hds.
  assert (Hs : StronglySorted row_major_lt (coordinates ds)).
  { rewrite (coordinates_filter utils _ _ Hds).
    apply StronglySorted_filter, candidates_sorted. }
  split; [exact Hs |].
  apply (StronglySorted_NoDup row_major_lt); [apply row_major_lt_irrefl | exact Hs].
Qed.

End IndexOrder.

(** * The lattice of any nonzero stride *)

Lemma slice_indices_neg (n step : Z) :
  step < 0 ->
  exists l, np.slice_indices n step = Ok l /\
    forall i : nat,
      In i l <-> Z.of_nat i < n /\ (n - 1 - Z.of_nat i) mod (- step) = 0.
Proof.
  intros Hs. unfold np.slice_indices.
  destruct (Z.eqb_spec step 0) as [E | _]; [lia |].
  destruct (Z.ltb_spec 0 step) as [E | _]; [lia |].
  rewrite Z.abs_neq by lia. set (s := - step) in *.
  eexists; split; [reflexivity |].
  intros i. rewrite in_map_iff. split.
  - intros (k & <- & Hk). apply in_seq in Hk.
    assert (Hk' : Z.of_nat k + 1 <= (n + s - 1) / s) by lia.
    assert (Hm : s * ((n + s - 1) / s) <= n + s - 1)
      by (apply Z.mul_div_le; lia).
    rewrite Z2Nat.id by nia.
    split; [nia |].
    replace (n - 1 - (n - 1 + Z.of_nat k * step)) with (Z.of_nat k * s) by lia.
    apply Z_mod_mult.
  - intros [Hlt Hmod].
    exists (Z.to_nat ((n - 1 - Z.of_nat i) / s)).
    assert (Hq : 0 <= (n - 1 - Z.of_nat i) / s) by (apply Z.div_pos; lia).
    assert (He : n - 1 - Z.of_nat i = s * ((n - 1 - Z.of_nat i) / s))
      by (apply Z_div_exact_full_2; lia).
    split.
    + rewrite Z2Nat.id by lia.
      replace (n - 1 + (n - 1 - Z.of_nat i) / s * step)
        with (n - 1 - s * ((n - 1 - Z.of_nat i) / s)) by lia.
      rewrite <- He. lia.
    + apply in_seq.
      assert (Hd : (n - 1 - Z.of_nat i) / s + 1 <= (n + s - 1) / s).
      { replace ((n - 1 - Z.of_nat i) / s + 1)
          with ((n - 1 - Z.of_nat i + 1 * s) / s)
          by (rewrite Z.div_add; lia).
        apply Z.div_le_mono; lia. }
      lia.
Qed.

(** The indices a slice [::step] selects, for any nonzero step. *)
Lemma slice_indices_spec (n step : Z) :
  step <> 0 ->
  exists l, np.slice_indices n step = Ok l /\
    forall i : nat, In i l <-> Z.of_nat i < n /\ on_axis n step i = true.
Proof.
  intros Hs. unfold on_axis.
  destruct (Z.ltb_spec 0 step) as [Hpos | Hneg].
  - destruct (slice_indices_pos n step Hpos) as (l & Hl & Hin).
    exists l. split; [exact Hl |]. intros i. rewrite Hin, Z.eqb_eq. tauto.
  - destruct (slice_indices_neg n step) as (l & Hl & Hin); [lia |].
    exists l. split; [exact Hl |]. intros i. rewrite Hin, Z.eqb_eq. tauto.
Qed.

(** On a rectangular mask and for a nonzero stride, the lattice mask has
    the shape of the mask and holds [lattice_at] everywhere. *)
Lemma lattice_cells_any (mask ones_mask : np.ndarray2 Z) (step : Z)
  (i j : nat) :
  step <> 0 ->
  rectangular mask ->
  np.assign_strided (np.zeros_like mask) step 1 = Ok ones_mask ->
  np.cell ones_mask i j =
  (fun _ => lattice_at mask step i j) <$> np.cell mask i j.
Proof.
  intros Hs Hrect Hones.
  destruct (assign_strided_nonzero (np.zeros_like mask) step 1 Hs)
    as (is_ & js & a' & His & Hjs & Ha' & Hcells).
  rewrite Hones in Ha'. injection Ha' as <-.
  destruct (slice_indices_spec (fst (np.shape (np.zeros_like mask))) step Hs)
    as (is' & His' & Hin_i).
  destruct (slice_indices_spec (snd (np.shape (np.zeros_like mask))) step Hs)
    as (js' & Hjs' & Hin_j).
  rewrite His in His'. injection His' as <-.
  rewrite Hjs in Hjs'. injection Hjs' as <-.
  rewrite shape_zeros_like in Hin_i, Hin_j.
  destruct (Hcells i j) as [Hyes Hno].
  destruct (np.cell mask i j) as [m |] eqn:Hm.
  - destruct (cell_Some_bounds mask i j m Hrect Hm) as [Hi Hj].
    unfold lattice_at.
    destruct (on_axis (fst (np.shape mask)) step i) eqn:Ei;
      [destruct (on_axis (snd (np.shape mask)) step j) eqn:Ej |]; simpl.
    + rewrite Hyes, cell_zeros_like, Hm; [reflexivity |].
      split; [apply Hin_i | apply Hin_j]; auto.
    + rewrite Hno, cell_zeros_like, Hm; [reflexivity |].
      intros [_ Hjn]. apply Hin_j in Hjn. destruct Hjn. congruence.
    + rewrite Hno, cell_zeros_like, Hm; [reflexivity |].
      intros [Hin _]. apply Hin_i in Hin. destruct Hin. congruence.
  - simpl. destruct (in_dec Nat.eq_dec i is_) as [Hi | Hi];
      [destruct (in_dec Nat.eq_dec j js) as [Hj | Hj] |].
    + rewrite Hyes, cell_zeros_like, Hm by tauto. reflexivity.
    + rewrite Hno, cell_zeros_like, Hm by tauto. reflexivity.
    + rewrite Hno, cell_zeros_like, Hm by tauto. reflexivity.
Qed.

Lemma lattice_at_01 (mask : np.ndarray2 Z) (step : Z) (i j : nat) :
  lattice_at mask step i j = 0 \/ lattice_at mask step i j = 1.
Proof. unfold lattice_at. destruct (_ && _); auto. Qed.

Lemma lattice_at_positive (mask : np.ndarray2 Z) (step : Z) (i j : nat) :
  0 < step -> lattice_at mask step i j = lattice_value step i j.
Proof.
  intros Hs. unfold lattice_at, lattice_value, on_axis.
  destruct (Z.ltb_spec 0 step); [reflexivity | lia].
Qed.

(** A nonzero cell is reported by [np.where]. *)
Lemma In_nonzero_from_intro (k : nat) (r : list Z) (j : nat) (v : Z) :
  r !! j = Some v -> v <> 0 -> In (k + j)%nat (np.nonzero_from k r).
Proof.
  revert k j. induction r as [| w r IH]; intros k [| j]; simpl;
    try discriminate.
  - intros [= ->] Hv. destruct (Z.eqb_spec v 0); [contradiction |].
    left. lia.
  - intros Hj Hv. replace (k + S j)%nat with (S k + j)%nat by lia.
    destruct (w =? 0); [| right]; apply (IH (S k) j Hj Hv).
Qed.

Lemma In_nonzero_rows_intro (i0 : nat) (a : np.ndarray2 Z) (i j : nat) (v : Z) :
  np.cell a i j = Some v -> v <> 0 ->
  In ((i0 + i)%nat, j) (np.nonzero_rows i0 a).
Proof.
  unfold np.cell. revert i0 i. induction a as [| r a IH]; intros i0 [| i];
    simpl; try discriminate.
  - intros Hj Hv. apply in_or_app. left. apply in_map_iff.
    exists j. split; [f_equal; lia |].
    apply (In_nonzero_from_intro 0 r j v Hj Hv).
  - intros Hj Hv. apply in_or_app. right.
    replace (i0 + S i)%nat with (S i0 + i)%nat by lia.
    apply (IH (S i0) i Hj Hv).
Qed.

(** The candidates are exactly the nonzero cells of the strided mask. *)
Lemma In_candidates (a : np.ndarray2 Z) (x y : Z) :
  In (x, y) (candidates a) <->
  exists i j v,
    x = Z.of_nat i /\ y = Z.of_nat j /\ np.cell a i j = Some v /\ v <> 0.
Proof.
  unfold candidates. rewrite in_map_iff. split.
  - intros ([i j] & E & Hin). simpl in E. injection E as <- <-.
    apply In_where_nonzero in Hin. destruct Hin as (v & Hc & Hv).
    exists i, j, v. auto.
  - intros (i & j & v & -> & -> & Hc & Hv).
    exists (i, j). split; [reflexivity |].
    apply (In_nonzero_rows_intro 0 a i j v Hc Hv).
Qed.

(** The cells of the strided mask built from a lattice mask. *)
Lemma strided_cells_raw (mask ones_mask : np.ndarray2 Z) (step : Z)
  (roi : bool) (i j : nat) :
  step <> 0 ->
  rectangular mask ->
  np.assign_strided (np.zeros_like mask) step 1 = Ok ones_mask ->
  np.cell (if roi then np.mul ones_mask mask else ones_mask) i j =
  (fun m => if roi then (lattice_at mask step i j * m) mod 256
            else lattice_at mask step i j)
    <$> np.cell mask i j.
Proof.
  intros Hs Hrect Hones.
  pose proof (lattice_cells_any mask ones_mask step i j Hs Hrect Hones) as Hl.
  destruct roi; [| exact Hl].
  rewrite cell_mul, Hl. destruct (np.cell mask i j); reflexivity.
Qed.

Section Entries.

Variable utils : helpers.

Lemma constructed_stride_nonzero (self : params) (ds : WSIStridedPatchDataset) :
  _preprocess utils self = Ok ds -> _sampling_stride self <> 0.
Proof.
  intros Hds Hz. apply _preprocess_inv in Hds.
  destruct Hds as (ones & _ & Hones & _).
  rewrite Hz, assign_strided_zero in Hones. discriminate.
Qed.

Lemma strided_cells_any (self : params) (ds : WSIStridedPatchDataset)
  (i j : nat) :
  _preprocess utils self = Ok ds ->
  rectangular (_mask ds) ->
  np.cell (_strided_mask ds) i j =
  (fun m => if _roi_masking self
            then (lattice_at (_mask ds) (_sampling_stride self) i j * m)
                 mod 256
            else lattice_at (_mask ds) (_sampling_stride self) i j)
    <$> np.cell (_mask ds) i j.
Proof.
  intros Hds Hrect.
  pose proof (constructed_stride_nonzero _ _ Hds) as Hs.
  apply _preprocess_inv in Hds.
  destruct Hds as (ones & _ & Hones & Hstr & _). rewrite Hstr.
  apply strided_cells_raw; assumption.
Qed.

(** X3: for a positive stride, a rectangular [uint8] mask, and a patch
    size and a mask within [int64_safe] (where the [int64] tests of lines
    122-125 are exact, [index_int64_agrees]), the
    coordinate index of a constructed dataset holds exactly the positions
    (x, y) of the mask whose x and y are multiples of the stride, that
    pass the four boundary tests and, under ROI masking, whose mask cell
    is nonzero. *)
Theorem X3_entries_characterised
  (wsi_path : string) (mask_path label_path : option string)
  (image_size : Z) (normalize : bool) (flip rotate : string)
  (sampling_stride : Z) (roi_masking : bool)
  (ds : WSIStridedPatchDataset) (x y : Z) :
  0 < sampling_stride ->
  __init__ utils wsi_path mask_path label_path image_size normalize flip
           rotate sampling_stride roi_masking = Ok ds ->
  rectangular (get_mask ds) ->
  is_uint8 (get_mask ds) ->
  int64_safe image_size (get_mask ds) ->
  (In (x, y) (coordinates ds) <->
   0 <= x < fst (np.shape (get_mask ds)) /\
   0 <= y < snd (np.shape (get_mask ds)) /\
   x mod sampling_stride = 0 /\ y mod sampling_stride = 0 /\
   (roi_masking = true ->
    exists m, np.cell (get_mask ds) (Z.to_nat x) (Z.to_nat y) = Some m /\
              m <> 0) /\
   x - image_size / 2 > 0 /\
   x + image_size / 2 < fst (np.shape (get_mask ds)) /\
   y - image_size / 2 > 0 /\
   y + image_size / 2 < snd (np.shape (get_mask ds))).
Proof.
  unfold __init__, get_mask. intros Hs Hds Hrect Hu8 _.
  rewrite (coordinates_filter utils _ _ Hds), filter_In, In_candidates.
  unfold fits_mask. rewrite fits_spec. simpl.
  pose proof (fun i j => strided_cells utils _ ds i j Hds Hs Hrect) as Hcells.
  simpl in Hcells. split.
  - intros [(i & j & v & -> & -> & Hc & Hv) Hfit].
    rewrite Hcells in Hc.
    destruct (np.cell (_mask ds) i j) as [m |] eqn:Hm; [| discriminate].
    simpl in Hc. injection Hc as Hc.
    destruct (cell_Some_bounds _ i j m Hrect Hm) as [Hi Hj].
    simpl in Hi, Hj.
    assert (Hl : lattice_value sampling_stride i j = 1).
    { destruct (lattice_value_01 sampling_stride i j) as [E | E]; [| exact E].
      exfalso. apply Hv. rewrite <- Hc, E.
      destruct roi_masking; reflexivity. }
    unfold lattice_value in Hl.
    destruct (Z.eqb_spec (Z.of_nat i mod sampling_stride) 0) as [Ei | Ei];
      [| discriminate].
    destruct (Z.eqb_spec (Z.of_nat j mod sampling_stride) 0) as [Ej | Ej];
      [| discriminate].
    rewrite !Nat2Z.id.
    repeat split; try lia; try tauto.
    intros ->. exists m. split; [exact Hm |].
    intros ->. apply Hv. rewrite <- Hc, Z.mul_0_r. reflexivity.
  - intros (Hx & Hy & Hxm & Hym & Hroi & Hfit).
    split; [| exact Hfit].
    exists (Z.to_nat x), (Z.to_nat y).
    destruct (cell_defined (_mask ds) (Z.to_nat x) (Z.to_nat y) Hrect)
      as [m Hm]; [simpl; lia | simpl; lia |].
    assert (Hl : lattice_value sampling_stride (Z.to_nat x) (Z.to_nat y) = 1).
    { unfold lattice_value. rewrite !Z2Nat.id by lia.
      rewrite Hxm, Hym. reflexivity. }
    rewrite Hcells, Hm, Hl. simpl.
    eexists. split; [lia |]. split; [lia |]. split; [reflexivity |].
    destruct roi_masking; [| discriminate].
    destruct (Hroi eq_refl) as (m' & Hm' & Hnz).
    rewrite Hm in Hm'. injection Hm' as <-.
    pose proof (Hu8 _ _ _ Hm) as Hr.
    rewrite Z.mul_1_l, Z.mod_small by lia. exact Hnz.
Qed.

(** X4: under ROI masking, whatever the stride, every entry of the
    coordinate index of a constructed dataset is a position of the cleaned
    mask whose cell is nonzero. *)
Theorem X4_roi_entries_on_tissue
  (wsi_path : string) (mask_path label_path : option string)
  (image_size : Z) (normalize : bool) (flip rotate : string)
  (sampling_stride : Z)
  (ds : WSIStridedPatchDataset) (k : nat) (x y : Z) :
  __init__ utils wsi_path mask_path label_path image_size normalize flip
           rotate sampling_stride true = Ok ds ->
  _X_idcs ds !! k = Some x ->
  _Y_idcs ds !! k = Some y ->
  0 <= x /\ 0 <= y /\
  exists m, np.cell (get_mask ds) (Z.to_nat x) (Z.to_nat y) = Some m /\
            m <> 0.
Proof.
  unfold __init__, get_mask. intros Hds Hx Hy.
  pose proof (lookup_coordinates ds k x y Hx Hy) as Hin.
  rewrite (coordinates_filter utils _ _ Hds) in Hin.
  apply filter_In in Hin. destruct Hin as [Hcand _].
  apply In_candidates in Hcand.
  destruct Hcand as (i & j & v & -> & -> & Hc & Hv).
  destruct (_preprocess_inv utils _ _ Hds) as (ones & _ & _ & Hstr & _).
  simpl in Hstr. rewrite Hstr, cell_mul in Hc.
  destruct (np.cell ones i j) as [o |]; [| discriminate].
  destruct (np.cell (_mask ds) i j) as [m |] eqn:Hm; [| discriminate].
  injection Hc as Hc. rewrite !Nat2Z.id, Hm.
  split; [lia |]. split; [lia |]. exists m. split; [reflexivity |].
  intros ->. apply Hv. rewrite <- Hc, Z.mul_0_r. reflexivity.
Qed.

(** X6: a negative stride -s is accepted and anchors the lattice at the
    last row and the last column: on a rectangular mask of shape (X, Y)
    the lattice value at (i, j) is 1 exactly when X - 1 - i and Y - 1 - j
    are multiples of s, and the strided mask is that lattice, multiplied
    by the mask under ROI masking. *)
Theorem X6_negative_stride_lattice
  (wsi_path : string) (mask_path label_path : option string)
  (image_size : Z) (normalize : bool) (flip rotate : string)
  (sampling_stride : Z) (roi_masking : bool)
  (ds : WSIStridedPatchDataset) (i j : nat) :
  sampling_stride < 0 ->
  __init__ utils wsi_path mask_path label_path image_size normalize flip
           rotate sampling_stride roi_masking = Ok ds ->
  rectangular (get_mask ds) ->
  let X := fst (np.shape (get_mask ds)) in
  let Y := snd (np.shape (get_mask ds)) in
  let lattice :=
    if ((X - 1 - Z.of_nat i) mod (- sampling_stride) =? 0)
       && ((Y - 1 - Z.of_nat j) mod (- sampling_stride) =? 0)
    then 1 else 0 in
  np.cell (get_strided_mask ds) i j =
  (fun m => if roi_masking then (lattice * m) mod 256 else lattice)
    <$> np.cell (get_mask ds) i j.
Proof.
  intros Hs Hds Hrect X Y lattice. unfold __init__ in Hds.
  unfold get_strided_mask, get_mask in *.
  rewrite (strided_cells_any _ ds i j Hds Hrect). simpl.
  assert (E : lattice_at (_mask ds) sampling_stride i j = lattice).
  { unfold lattice_at, on_axis, lattice, X, Y.
    destruct (Z.ltb_spec 0 sampling_stride); [lia | reflexivity]. }
  rewrite E. reflexivity.
Qed.

End Entries.

(** * When the construction succeeds *)

Lemma on_axis_anchor (n step : Z) :
  step <> 0 -> 0 < n ->
  on_axis n step (Z.to_nat (if 0 <? step then 0 else n - 1)) = true.
Proof.
  intros Hs Hn. unfold on_axis.
  destruct (Z.ltb_spec 0 step).
  - change (Z.of_nat (Z.to_nat 0)) with 0.
    rewrite Z.mod_0_l by lia. reflexivity.
  - rewrite Z2Nat.id by lia.
    replace (n - 1 - (n - 1)) with 0 by lia.
    rewrite Z.mod_0_l by lia. reflexivity.
Qed.

Section Succeeds.

Variable utils : helpers.

(** X5: once the inputs are decoded, for a nonzero stride and a
    rectangular [uint8] mask, the construction returns an object when
    some position of the lattice carries, under ROI masking, a nonzero
    mask cell (any position of the lattice without ROI masking) and the
    patch size and the mask are within [int64_safe], where the [int64]
    tests of lines 122-125 cannot raise ([fits_int64_agrees]); when there
    is no such position it raises [ValueError], whatever the patch
    size. *)
Theorem X5_constructs_iff_candidate
  (wsi_path : string) (mask_path label_path : option string)
  (image_size : Z) (normalize : bool) (flip rotate : string)
  (sampling_stride : Z) (roi_masking : bool)
  (slide : np.ndarray2 pixel) (mask0 : np.ndarray2 Z) :
  ReadWholeSlideImage_RGB utils wsi_path = Ok slide ->
  label_decodes utils label_path ->
  mask_source utils mask_path slide = Ok mask0 ->
  sampling_stride <> 0 ->
  let mask := BinMorphoProcessMask utils (np.uint8 mask0) in
  rectangular mask ->
  is_uint8 mask ->
  ((exists i j m,
      np.cell mask i j = Some m /\
      lattice_at mask sampling_stride i j = 1 /\
      (roi_masking = true -> m <> 0)) ->
   int64_safe image_size mask ->
   exists ds,
     __init__ utils wsi_path mask_path label_path image_size normalize flip
              rotate sampling_stride roi_masking = Ok ds /\
     get_mask ds = mask) /\
  ((forall i j m,
      np.cell mask i j = Some m ->
      lattice_at mask sampling_stride i j = 1 ->
      roi_masking = true /\ m = 0) ->
   __init__ utils wsi_path mask_path label_path image_size normalize flip
            rotate sampling_stride roi_masking = Raise ValueError).
Proof.
  intros Hslide Hlabel Hmask Hs mask Hrect Hu8. unfold __init__.
  match goal with |- context [_preprocess utils ?s] => set (self := s) end.
  destruct (assign_strided_nonzero (np.zeros_like mask) sampling_stride 1 Hs)
    as (is_ & js & ones & _ & _ & Hones & _).
  destruct (_preprocess_eval utils self slide mask0 ones Hslide Hlabel
              Hmask Hones) as [Hraise Hok].
  simpl in Hraise, Hok. fold mask in Hraise, Hok.
  pose proof (fun i j => strided_cells_raw mask ones sampling_stride
                           roi_masking i j Hs Hrect Hones) as Hcells.
  split.
  - intros (i & j & m & Hm & Hl & Hroi) _.
    destruct Hok as (ds & Hds & _ & _ & Hmk & _); [| exists ds; auto].
    intros Hnil.
    assert (Hin : In ((0 + i)%nat, j)
                     (np.nonzero_rows 0
                        (if roi_masking then np.mul ones mask else ones))).
    { apply (In_nonzero_rows_intro 0 _ i j
               (if roi_masking then (1 * m) mod 256 else 1)).
      - rewrite Hcells, Hm, Hl. reflexivity.
      - destruct roi_masking; [| discriminate].
        pose proof (Hu8 _ _ _ Hm) as Hr. specialize (Hroi eq_refl).
        rewrite Z.mul_1_l, Z.mod_small by lia. exact Hroi. }
    rewrite Hnil in Hin. destruct Hin.
  - intros Hnone. apply Hraise. apply nonzero_rows_nil.
    intros i j v Hc. rewrite Hcells in Hc.
    destruct (np.cell mask i j) as [m |] eqn:Hm; [| discriminate].
    simpl in Hc. injection Hc as <-.
    destruct (lattice_at_01 mask sampling_stride i j) as [E | E].
    + rewrite E. destruct roi_masking; reflexivity.
    + destruct (Hnone i j m Hm E) as [-> ->]. rewrite E. reflexivity.
Qed.

(** X7: without ROI masking, the construction succeeds for every nonzero
    stride as soon as the inputs are decoded and the rectangular mask has
    at least one row and one column, whatever the mask holds, for a patch
    size and a mask within [int64_safe], where the [int64] tests of lines
    122-125 cannot raise ([fits_int64_agrees]). *)
Theorem X7_constructs_without_roi
  (wsi_path : string) (mask_path label_path : option string)
  (image_size : Z) (normalize : bool) (flip rotate : string)
  (sampling_stride : Z)
  (slide : np.ndarray2 pixel) (mask0 : np.ndarray2 Z) :
  ReadWholeSlideImage_RGB utils wsi_path = Ok slide ->
  label_decodes utils label_path ->
  mask_source utils mask_path slide = Ok mask0 ->
  sampling_stride <> 0 ->
  let mask := BinMorphoProcessMask utils (np.uint8 mask0) in
  rectangular mask ->
  0 < fst (np.shape mask) ->
  0 < snd (np.shape mask) ->
  int64_safe image_size mask ->
  exists ds,
    __init__ utils wsi_path mask_path label_path image_size normalize flip
             rotate sampling_stride false = Ok ds /\
    get_mask ds = mask.
Proof.
  intros Hslide Hlabel Hmask Hs mask Hrect HX HY _. unfold __init__.
  match goal with |- context [_preprocess utils ?s] => set (self := s) end.
  destruct (assign_strided_nonzero (np.zeros_like mask) sampling_stride 1 Hs)
    as (is_ & js & ones & _ & _ & Hones & _).
  destruct (_preprocess_eval utils self slide mask0 ones Hslide Hlabel
              Hmask Hones) as [_ Hok].
  simpl in Hok. fold mask in Hok.
  destruct Hok as (ds & Hds & _ & _ & Hmk & _); [| exists ds; auto].
  set (i := Z.to_nat (if 0 <? sampling_stride then 0
                      else fst (np.shape mask) - 1)).
  set (j := Z.to_nat (if 0 <? sampling_stride then 0
                      else snd (np.shape mask) - 1)).
  destruct (cell_defined mask i j Hrect) as [m Hm].
  { unfold i. destruct (0 <? sampling_stride); lia. }
  { unfold j. destruct (0 <? sampling_stride); lia. }
  intros Hnil.
  assert (Hin : In ((0 + i)%nat, j) (np.nonzero_rows 0 ones)).
  { apply (In_nonzero_rows_intro 0 _ i j 1); [| discriminate].
    rewrite (lattice_cells_any mask ones sampling_stride i j Hs Hrect Hones).
    rewrite Hm. simpl. f_equal. unfold lattice_at, i, j.
    rewrite !on_axis_anchor by assumption. reflexivity. }
  rewrite Hnil in Hin. destruct Hin.
Qed.

End Succeeds.

(** * Edge cases of the index and of the access *)

Lemma filter_none {A : Type} (f : A -> bool) (l : list A) :
  (forall x, In x l -> f x = false) -> List.filter f l = [].
Proof.
  induction l as [| x l IH]; intros H; simpl; [reflexivity |].
  rewrite (H x) by (left; reflexivity).
  apply IH. intros y Hy. apply H. right. exact Hy.
Qed.

Lemma item_Ok_inv (t : list Z) (idx v : Z) :
  np.item t idx = Ok v ->
  - Z.of_nat (length t) <= idx < Z.of_nat (length t) /\
  t !! Z.to_nat (if idx <? 0 then idx + Z.of_nat (length t) else idx)
    = Some v.
Proof.
  unfold np.item. intros H.
  destruct (Z.ltb_spec idx 0) as [Hneg | Hpos].
  - destruct (Z.leb_spec 0 (idx + Z.of_nat (length t))); [| discriminate].
    destruct (Z.ltb_spec (idx + Z.of_nat (length t)) (Z.of_nat (length t)));
      [| discriminate]. simpl in H.
    destruct (t !! Z.to_nat (idx + Z.of_nat (length t))) as [w |];
      [| discriminate].
    injection H as ->. split; [lia | reflexivity].
  - destruct (Z.leb_spec 0 idx); [| discriminate].
    destruct (Z.ltb_spec idx (Z.of_nat (length t))); [| discriminate].
    simpl in H.
    destruct (t !! Z.to_nat idx) as [w |]; [| discriminate].
    injection H as ->. split; [lia | reflexivity].
Qed.

Section EdgeCases.

Variable utils : helpers.

(** X8: when the mask has too few rows or too few columns for a patch,
    X_mask <= 2 (image_size // 2) + 1 or likewise for Y_mask, a
    constructed dataset has an empty coordinate index: its length is 0 and
    indexed access raises [IndexError] at every index. *)
Theorem X8_mask_too_small
  (wsi_path : string) (mask_path label_path : option string)
  (image_size : Z) (normalize : bool) (flip rotate : string)
  (sampling_stride : Z) (roi_masking : bool)
  (ds : WSIStridedPatchDataset) :
  __init__ utils wsi_path mask_path label_path image_size normalize flip
           rotate sampling_stride roi_masking = Ok ds ->
  fst (np.shape (get_mask ds)) <= 2 * (image_size / 2) + 1 \/
  snd (np.shape (get_mask ds)) <= 2 * (image_size / 2) + 1 ->
  __len__ ds = 0 /\
  coordinates ds = [] /\
  forall idx, __getitem__ utils ds idx = Raise IndexError.
Proof.
  unfold __init__, get_mask. intros Hds Hsmall.
  assert (Hnone : List.filter (fits_mask image_size (_mask ds))
                              (candidates (_strided_mask ds)) = []).
  { apply filter_none. intros [x y] _.
    destruct (fits_mask image_size (_mask ds) (x, y)) eqn:E; [| reflexivity].
    unfold fits_mask in E. apply fits_spec in E.
    unfold np.shape in E, Hsmall. cbn [fst snd] in E, Hsmall. lia. }
  destruct (constructed_lengths utils _ _ Hds) as (_ & _ & Hlen).
  pose proof (coordinates_filter utils _ _ Hds) as Hc. simpl in Hc.
  destruct (_preprocess_inv utils _ _ Hds) as (_ & _ & _ & _ & _ & HX & _).
  simpl in HX. rewrite Hnone in HX, Hc. simpl in HX.
  rewrite HX in Hlen. simpl in Hlen.
  split; [exact Hlen |]. split; [exact Hc |].
  intros idx. unfold __getitem__.
  rewrite item_out_of_range; [reflexivity |]. rewrite HX. simpl. lia.
Qed.

(** X9: whenever indexed access on a constructed dataset returns, for a
    non-negative or a negative index, the two coordinates it returns are
    an entry of the coordinate index, they pass the four boundary tests,
    and the index was in [-length, length). *)
Theorem X9_access_returns_entry
  (wsi_path : string) (mask_path label_path : option string)
  (image_size : Z) (normalize : bool) (flip rotate : string)
  (sampling_stride : Z) (roi_masking : bool)
  (ds : WSIStridedPatchDataset) (idx : Z)
  (img : list (list (list spec_float))) (x y : Z)
  (label_img : np.ndarray2 Z) :
  __init__ utils wsi_path mask_path label_path image_size normalize flip
           rotate sampling_stride roi_masking = Ok ds ->
  __getitem__ utils ds idx = Ok (img, x, y, label_img) ->
  - __len__ ds <= idx < __len__ ds /\
  In (x, y) (coordinates ds) /\
  x - image_size / 2 > 0 /\
  x + image_size / 2 < fst (np.shape (get_mask ds)) /\
  y - image_size / 2 > 0 /\
  y + image_size / 2 < snd (np.shape (get_mask ds)).
Proof.
  unfold __init__, get_mask. intros Hds Hget.
  destruct (constructed_lengths utils _ _ Hds) as (Hxy & _ & Hlen).
  unfold __getitem__ in Hget. bind_inv Hget.
  injection Hget as _ <- <- _.
  apply item_Ok_inv in E. apply item_Ok_inv in E0.
  destruct E as [Hrange Hx]. destruct E0 as [_ Hy].
  rewrite <- Hxy in Hy.
  pose proof (lookup_coordinates ds _ _ _ Hx Hy) as Hin.
  split; [lia |]. split; [exact Hin |].
  rewrite (coordinates_filter utils _ _ Hds) in Hin.
  apply filter_In in Hin. destruct Hin as [_ Hfit].
  apply fits_spec in Hfit. exact Hfit.
Qed.

(** X10: a decoding failure aborts the construction with the error of the
    decoder, whatever the other arguments: first the slide, then the label
    raster when a label path is given, then the mask when a mask path is
    given. *)
Theorem X10_decode_failure_propagates
  (wsi_path : string) (mask_path label_path : option string)
  (image_size : Z) (normalize : bool) (flip rotate : string)
  (sampling_stride : Z) (roi_masking : bool) (e : exn) :
  (ReadWholeSlideImage_RGB utils wsi_path = Raise e \/
   (exists slide path,
      ReadWholeSlideImage_RGB utils wsi_path = Ok slide /\
      label_path = Some path /\
      ReadWholeSlideImage_L utils path = Raise e) \/
   (exists slide path,
      ReadWholeSlideImage_RGB utils wsi_path = Ok slide /\
      label_decodes utils label_path /\
      mask_path = Some path /\
      ReadWholeSlideImage_L utils path = Raise e)) ->
  __init__ utils wsi_path mask_path label_path image_size normalize flip
           rotate sampling_stride roi_masking = Raise e.
Proof.
  unfold __init__, _preprocess. simpl.
  intros [H | [(slide & path & Hs & -> & Hl) | (slide & path & Hs & Hl & -> & Hm)]].
  - rewrite H. reflexivity.
  - rewrite Hs. simpl. rewrite Hl. reflexivity.
  - rewrite Hs. simpl. unfold label_decodes in Hl.
    destruct label_path as [lp |].
    + destruct Hl as [l ->]. simpl. rewrite Hm. reflexivity.
    + simpl. rewrite Hm. reflexivity.
Qed.

(** X11: on a constructed dataset, [get_image] returns the decoded slide,
    [get_mask] the cleanup of the [uint8] cast of the decoded or generated
    mask, and [get_label_mask] the decoded label raster when a label path
    was given; without a label path the attribute does not exist and
    [get_label_mask] raises [AttributeError]. *)
Theorem X11_accessors
  (wsi_path : string) (mask_path label_path : option string)
  (image_size : Z) (normalize : bool) (flip rotate : string)
  (sampling_stride : Z) (roi_masking : bool)
  (ds : WSIStridedPatchDataset) :
  __init__ utils wsi_path mask_path label_path image_size normalize flip
           rotate sampling_stride roi_masking = Ok ds ->
  ReadWholeSlideImage_RGB utils wsi_path = Ok (get_image ds) /\
  (exists mask0,
     mask_source utils mask_path (get_image ds) = Ok mask0 /\
     get_mask ds = BinMorphoProcessMask utils (np.uint8 mask0)) /\
  match label_path with
  | Some path =>
      exists l, ReadWholeSlideImage_L utils path = Ok l /\
                get_label_mask ds = Ok l
  | None => get_label_mask ds = Raise AttributeError
  end.
Proof.
  unfold __init__, _preprocess. simpl. intros H. bind_inv H.
  injection H as <-. unfold get_image, get_mask, get_label_mask. simpl.
  split; [first [exact E | reflexivity] |].
  split; [exists a1; split; [first [exact E1 | reflexivity] | reflexivity] |].
  destruct label_path as [path |].
  - destruct (ReadWholeSlideImage_L utils path) as [lab |]; [| discriminate].
    simpl in E0. injection E0 as <-. exists lab. auto.
  - injection E0 as <-. reflexivity.
Qed.

End EdgeCases.

(** * The strided mask as an array *)

Lemma same_shape_shape {A B : Type} (a : np.ndarray2 A) (b : np.ndarray2 B) :
  same_shape a b -> np.shape a = np.shape b.
Proof.
  unfold same_shape, np.shape. intros H.
  destruct H as [| ra rb a b Hr H]; [reflexivity |].
  apply Forall2_length in H. simpl. rewrite H, Hr. reflexivity.
Qed.

Section StridedArray.

Variable utils : helpers.

(** X12: the strided mask of a constructed dataset has the shape of the
    cleaned mask, for every stride; each of its cells is 0 or, without ROI
    masking, 1 and, under ROI masking, the [uint8] value of the mask cell
    at that position. *)
Theorem X12_strided_mask_cells
  (wsi_path : string) (mask_path label_path : option string)
  (image_size : Z) (normalize : bool) (flip rotate : string)
  (sampling_stride : Z) (roi_masking : bool)
  (ds : WSIStridedPatchDataset) :
  __init__ utils wsi_path mask_path label_path image_size normalize flip
           rotate sampling_stride roi_masking = Ok ds ->
  np.shape (get_strided_mask ds) = np.shape (get_mask ds) /\
  forall i j v,
    np.cell (get_strided_mask ds) i j = Some v ->
    exists m,
      np.cell (get_mask ds) i j = Some m /\
      (v = 0 \/ v = if roi_masking then m mod 256 else 1).
Proof.
  unfold __init__, get_strided_mask, get_mask. intros Hds.
  split; [apply same_shape_shape, (strided_same_shape utils _ _ Hds) |].
  pose proof (constructed_stride_nonzero utils _ _ Hds) as Hs. simpl in Hs.
  destruct (_preprocess_inv utils _ _ Hds) as (ones & _ & Hones & Hstr & _).
  simpl in Hones, Hstr.
  destruct (assign_strided_nonzero (np.zeros_like (_mask ds))
              sampling_stride 1 Hs)
    as (is_ & js & a' & _ & _ & Ha' & Hcells).
  rewrite Hones in Ha'. injection Ha' as <-.
  assert (Hone : forall i j o,
             np.cell ones i j = Some o ->
             exists m, np.cell (_mask ds) i j = Some m /\ (o = 0 \/ o = 1)).
  { intros i j o Ho. destruct (Hcells i j) as [Hyes Hno].
    destruct (in_dec Nat.eq_dec i is_) as [Hi | Hi];
      [destruct (in_dec Nat.eq_dec j js) as [Hj | Hj] |].
    - rewrite Hyes, cell_zeros_like in Ho by tauto.
      destruct (np.cell (_mask ds) i j) as [m |]; [| discriminate].
      injection Ho as <-. exists m. auto.
    - rewrite Hno, cell_zeros_like in Ho by tauto.
      destruct (np.cell (_mask ds) i j) as [m |]; [| discriminate].
      injection Ho as <-. exists m. auto.
    - rewrite Hno, cell_zeros_like in Ho by tauto.
      destruct (np.cell (_mask ds) i j) as [m |]; [| discriminate].
      injection Ho as <-. exists m. auto. }
  intros i j v Hc. rewrite Hstr in Hc. destruct roi_masking.
  - rewrite cell_mul in Hc.
    destruct (np.cell ones i j) as [o |] eqn:Ho; [| discriminate].
    destruct (Hone i j o Ho) as (m & Hm & Ho01).
    rewrite Hm in Hc. injection Hc as <-. exists m. split; [exact Hm |].
    destruct Ho01 as [-> | ->]; [left; reflexivity | right].
    rewrite Z.mul_1_l. reflexivity.
  - destruct (Hone i j v Hc) as (m & Hm & Hv). exists m. auto.
Qed.

(** X13: for a positive stride and a rectangular mask of shape (X, Y), the
    length of a constructed dataset is at most the number of lattice
    positions, ceil(X / stride) * ceil(Y / stride). *)
Theorem X13_length_bound
  (wsi_path : string) (mask_path label_path : option string)
  (image_size : Z) (normalize : bool) (flip rotate : string)
  (sampling_stride : Z) (roi_masking : bool)
  (ds : WSIStridedPatchDataset) :
  0 < sampling_stride ->
  __init__ utils wsi_path mask_path label_path image_size normalize flip
           rotate sampling_stride roi_masking = Ok ds ->
  rectangular (get_mask ds) ->
  __len__ ds <=
  ((fst (np.shape (get_mask ds)) + sampling_stride - 1) / sampling_stride)
  * ((snd (np.shape (get_mask ds)) + sampling_stride - 1) / sampling_stride).
Proof.
  unfold __init__, get_mask. intros Hs Hds Hrect.
  set (X := fst (np.shape (_mask ds))). set (Y := snd (np.shape (_mask ds))).
  assert (HX : 0 <= X) by (unfold X; simpl; lia).
  assert (HY : 0 <= Y).
  { unfold Y, np.shape. simpl. destruct (_mask ds); lia. }
  destruct (slice_indices_pos X sampling_stride Hs) as (is_ & His & Hin_i).
  destruct (slice_indices_pos Y sampling_stride Hs) as (js & Hjs & Hin_j).
  assert (Hli : Z.of_nat (length is_)
                = (X + sampling_stride - 1) / sampling_stride).
  { unfold np.slice_indices in His.
    destruct (sampling_stride =? 0); [discriminate |].
    injection His as <-. rewrite length_map, length_seq, Z.abs_eq by lia.
    apply Z2Nat.id, Z.div_pos; lia. }
  assert (Hlj : Z.of_nat (length js)
                = (Y + sampling_stride - 1) / sampling_stride).
  { unfold np.slice_indices in Hjs.
    destruct (sampling_stride =? 0); [discriminate |].
    injection Hjs as <-. rewrite length_map, length_seq, Z.abs_eq by lia.
    apply Z2Nat.id, Z.div_pos; lia. }
  destruct (constructed_lengths utils _ _ Hds) as (_ & -> & _).
  rewrite <- Hli, <- Hlj, <- Nat2Z.inj_mul. apply inj_le.
  rewrite <- length_prod.
  rewrite <- (length_map (fun p : nat * nat =>
                            (Z.of_nat (fst p), Z.of_nat (snd p)))
                         (list_prod is_ js)).
  apply NoDup_incl_length.
  - apply (StronglySorted_NoDup row_major_lt);
      [apply row_major_lt_irrefl |].
    rewrite (coordinates_filter utils _ _ Hds).
    apply StronglySorted_filter, candidates_sorted.
  - intros [x y] Hin.
    rewrite (coordinates_filter utils _ _ Hds) in Hin.
    apply filter_In in Hin. destruct Hin as [Hcand _].
    destruct (candidate_on_lattice utils _ ds x y Hds Hs Hcand) as [Hxm Hym].
    simpl in Hxm, Hym.
    apply In_candidates in Hcand.
    destruct Hcand as (i & j & v & -> & -> & Hc & _).
    rewrite (strided_cells utils _ ds i j Hds Hs Hrect) in Hc.
    destruct (np.cell (_mask ds) i j) as [m |] eqn:Hm; [| discriminate].
    destruct (cell_Some_bounds _ i j m Hrect Hm) as [Hi Hj].
    apply in_map_iff. exists (i, j). split; [reflexivity |].
    apply in_prod; [apply Hin_i | apply Hin_j]; auto.
Qed.

End StridedArray.

(** * The range of the normalization *)

Lemma rescaled_all_in_range :
  forallb rescaled_in_range (map Z.of_nat (seq 0 256)) = true.
Proof. vm_compute. reflexivity. Qed.

Lemma rescaled_all_in_order :
  forallb rescaled_in_order
          (list_prod (map Z.of_nat (seq 0 256)) (map Z.of_nat (seq 0 256)))
  = true.
Proof. vm_compute. reflexivity. Qed.

(** X14: on the raw values 0..255 the rescaling [(v - 128.0) / 128.0] in
    [float32] is strictly increasing, hence loses no information, and its
    values lie in [-1.0, 1.0). *)
Theorem X14_rescale_monotone (v w : Z) :
  0 <= v -> v < w -> w <= 255 ->
  SFltb (rescale (f32.of_Z v)) (rescale (f32.of_Z w)) = true /\
  rescale (f32.of_Z v) <> rescale (f32.of_Z w) /\
  SFleb (f32.of_Z (-1)) (rescale (f32.of_Z v)) = true /\
  SFltb (rescale (f32.of_Z v)) (f32.of_Z 1) = true /\
  SFleb (f32.of_Z (-1)) (rescale (f32.of_Z w)) = true /\
  SFltb (rescale (f32.of_Z w)) (f32.of_Z 1) = true.
Proof.
  intros Hv Hvw Hw.
  assert (Hrange : forall u, 0 <= u <= 255 -> rescaled_in_range u = true).
  { intros u Hu. pose proof rescaled_all_in_range as H.
    rewrite forallb_forall in H. apply H. apply in_map_iff.
    exists (Z.to_nat u). split; [lia | apply in_seq; lia]. }
  assert (Hq : forall u, 0 <= u <= 255 ->
             represents (rescale (f32.of_Z u)) (Qmake (u - 128) 128))
    by (intros u Hu; apply (raw_value_facts u Hu)).
  pose proof (Hq v ltac:(lia)) as Hqv. pose proof (Hq w ltac:(lia)) as Hqw.
  pose proof (Hrange v ltac:(lia)) as Hrv.
  pose proof (Hrange w ltac:(lia)) as Hrw.
  unfold rescaled_in_range in Hrv, Hrw.
  apply andb_true_iff in Hrv. apply andb_true_iff in Hrw.
  assert (Hne : rescale (f32.of_Z v) <> rescale (f32.of_Z w)).
  { intros E. unfold represents in Hqv, Hqw. rewrite E in Hqv.
    destruct (f32.to_Q (rescale (f32.of_Z w))) as [r |]; [| contradiction].
    rewrite Hqv in Hqw. unfold Qeq in Hqw. simpl in Hqw. lia. }
  split; [| split; [exact Hne | tauto]].
  pose proof rescaled_all_in_order as H. rewrite forallb_forall in H.
  specialize (H (v, w)). unfold rescaled_in_order in H. cbn [fst snd] in H.
  destruct (Z.ltb_spec v w); [| lia]. apply H.
  apply in_prod; apply in_map_iff;
    [exists (Z.to_nat v) | exists (Z.to_nat w)];
    (split; [lia | apply in_seq; lia]).
Qed.

(** * Where the transpositions move the pixels of a square *)

Lemma lookup_rev {A : Type} (l : list A) (i : nat) :
  (i < length l)%nat -> rev l !! i = l !! (length l - S i)%nat.
Proof.
  induction l as [| x l IH]; simpl; intros Hi; [lia |].
  destruct (Nat.eq_dec i (length l)) as [-> | Hne].
  - rewrite lookup_app_r by (rewrite length_rev; lia).
    rewrite length_rev, !Nat.sub_diag. reflexivity.
  - rewrite lookup_app_l by (rewrite length_rev; lia).
    rewrite IH by lia.
    replace (length l - i)%nat with (S (length l - S i)) by lia. reflexivity.
Qed.

Lemma square_row {A : Type} (n : nat) (im : list (list A)) (i : nat) :
  is_square n im -> (i < n)%nat ->
  exists r, im !! i = Some r /\ length r = n.
Proof.
  intros [Hlen Hrows] Hi.
  destruct (lookup_lt_is_Some_2 im i) as [r Hr]; [lia |].
  exists r. split; [exact Hr |]. apply (Forall_lookup_1 _ _ _ _ Hrows Hr).
Qed.

Lemma square_ext {A : Type} (n : nat) (a b : list (list A)) :
  is_square n a -> is_square n b ->
  (forall i j, (i < n)%nat -> (j < n)%nat -> np.cell a i j = np.cell b i j) ->
  a = b.
Proof.
  intros Ha Hb Hcells. apply list_eq. intros i.
  destruct (Nat.lt_ge_cases i n) as [Hi | Hi].
  - destruct (square_row n a i Ha Hi) as (ra & Hra & Hla).
    destruct (square_row n b i Hb Hi) as (rb & Hrb & Hlb).
    rewrite Hra, Hrb. f_equal. apply list_eq. intros j.
    destruct (Nat.lt_ge_cases j n) as [Hj | Hj].
    + specialize (Hcells i j Hi Hj). unfold np.cell in Hcells.
      rewrite Hra, Hrb in Hcells. exact Hcells.
    + rewrite !lookup_ge_None_2 by lia. reflexivity.
  - destruct Ha as [Hla _]. destruct Hb as [Hlb _].
    rewrite !lookup_ge_None_2 by lia. reflexivity.
Qed.

Lemma is_square_flip {A : Type} (n : nat) (im : list (list A)) :
  is_square n im -> is_square n (map (@rev A) im).
Proof.
  intros [Hlen Hrows]. split; [rewrite length_map; exact Hlen |].
  apply Forall_map. eapply Forall_impl; [exact Hrows |].
  intros r Hr. simpl. rewrite length_rev. exact Hr.
Qed.

Lemma is_square_rev {A : Type} (n : nat) (im : list (list A)) :
  is_square n im -> is_square n (rev im).
Proof.
  intros [Hlen Hrows]. split; [rewrite length_rev; exact Hlen |].
  apply Forall_rev. exact Hrows.
Qed.

Lemma column_lookup {A : Type} (im : list (list A)) (i j : nat) :
  Forall (fun r => (i < length r)%nat) im ->
  PIL.column im i !! j = np.cell im j i.
Proof.
  unfold PIL.column, np.cell. intros H. revert j.
  induction H as [| r im Hr H IH]; intros j; [reflexivity |].
  destruct (lookup_lt_is_Some_2 r i Hr) as [v Hv].
  simpl. rewrite Hv. destruct j as [| j]; simpl; [symmetry; exact Hv |].
  apply IH.
Qed.

Lemma length_column {A : Type} (im : list (list A)) (i : nat) :
  Forall (fun r => (i < length r)%nat) im ->
  length (PIL.column im i) = length im.
Proof.
  unfold PIL.column. induction 1 as [| r im Hr H IH]; [reflexivity |].
  destruct (lookup_lt_is_Some_2 r i Hr) as [v Hv].
  simpl. rewrite Hv. simpl. f_equal. exact IH.
Qed.

Lemma square_width {A : Type} (n : nat) (im : list (list A)) :
  is_square n im -> PIL.width im = n.
Proof.
  intros [Hlen Hrows]. destruct im as [| r im]; [exact Hlen |].
  simpl. inversion Hrows as [| ? ? Hr _]. exact Hr.
Qed.

Lemma square_rows_longer {A : Type} (n : nat) (im : list (list A)) (i : nat) :
  is_square n im -> (i < n)%nat -> Forall (fun r => (i < length r)%nat) im.
Proof.
  intros [_ Hrows] Hi. eapply Forall_impl; [exact Hrows |].
  intros r Hr. simpl in Hr. lia.
Qed.

Lemma is_square_columns {A : Type} (n : nat) (im : list (list A)) :
  is_square n im -> is_square n (PIL.columns im).
Proof.
  intros Hsq. unfold PIL.columns. rewrite (square_width n im Hsq).
  split; [rewrite length_map, length_seq; reflexivity |].
  apply Forall_map. apply List.Forall_forall. intros i Hi. apply in_seq in Hi.
  simpl. rewrite length_column by (apply (square_rows_longer n); [exact Hsq | lia]).
  apply Hsq.
Qed.

Lemma cell_columns {A : Type} (n : nat) (im : list (list A)) (i j : nat) :
  is_square n im -> (i < n)%nat ->
  np.cell (PIL.columns im) i j = np.cell im j i.
Proof.
  intros Hsq Hi. unfold PIL.columns. rewrite (square_width n im Hsq).
  unfold np.cell at 1. rewrite lookup_map, lookup_seq_lt by exact Hi.
  simpl. apply column_lookup, (square_rows_longer n); assumption.
Qed.

Lemma cell_flip {A : Type} (n : nat) (im : list (list A)) (i j : nat) :
  is_square n im -> (i < n)%nat -> (j < n)%nat ->
  np.cell (map (@rev A) im) i j = np.cell im i (n - S j).
Proof.
  intros Hsq Hi Hj. unfold np.cell. rewrite lookup_map.
  destruct (square_row n im i Hsq Hi) as (r & Hr & Hl). rewrite Hr. simpl.
  rewrite lookup_rev by lia. rewrite Hl. reflexivity.
Qed.

Lemma cell_rev {A : Type} (n : nat) (im : list (list A)) (i j : nat) :
  is_square n im -> (i < n)%nat ->
  np.cell (rev im) i j = np.cell im (n - S i) j.
Proof.
  intros [Hlen _] Hi. unfold np.cell.
  rewrite lookup_rev by lia. rewrite Hlen. reflexivity.
Qed.

Lemma is_square_transpose {A : Type} (method : PIL.Transpose) (n : nat)
  (im : PIL.Image A) :
  is_square n im -> is_square n (PIL.transpose method im).
Proof.
  intros Hsq. destruct method; simpl.
  - apply is_square_flip, Hsq.
  - apply is_square_rev, is_square_columns, Hsq.
  - apply is_square_rev, is_square_flip, Hsq.
  - apply is_square_flip, is_square_columns, Hsq.
Qed.

Lemma source_position_lt (method : PIL.Transpose) (n i j : nat) :
  (i < n)%nat -> (j < n)%nat ->
  (fst (source_position method n (i, j)) < n)%nat /\
  (snd (source_position method n (i, j)) < n)%nat.
Proof. intros Hi Hj. destruct method; simpl; lia. Qed.

Lemma cell_transpose {A : Type} (method : PIL.Transpose) (n : nat)
  (im : PIL.Image A) (i j : nat) :
  is_square n im -> (i < n)%nat -> (j < n)%nat ->
  np.cell (PIL.transpose method im) i j =
  np.cell im (fst (source_position method n (i, j)))
             (snd (source_position method n (i, j))).
Proof.
  intros Hsq Hi Hj. destruct method; simpl.
  - apply cell_flip; assumption.
  - rewrite (cell_rev n) by (try apply is_square_columns; assumption).
    apply (cell_columns n); [exact Hsq | lia].
  - rewrite (cell_rev n) by (try apply is_square_flip; assumption).
    apply cell_flip; [exact Hsq | lia | exact Hj].
  - rewrite (cell_flip n) by (try apply is_square_columns; assumption).
    apply (cell_columns n); assumption.
Qed.

Lemma is_square_apply_ops {A : Type} (ops : list PIL.Transpose) (n : nat)
  (im : PIL.Image A) :
  is_square n im -> is_square n (apply_ops ops im).
Proof.
  unfold apply_ops. revert im.
  induction ops as [| m ops IH]; intros im Hsq; simpl; [exact Hsq |].
  apply IH, is_square_transpose, Hsq.
Qed.

Lemma source_of_lt (ops : list PIL.Transpose) (n i j : nat) :
  (i < n)%nat -> (j < n)%nat ->
  (fst (source_of ops n (i, j)) < n)%nat /\
  (snd (source_of ops n (i, j)) < n)%nat.
Proof.
  intros Hi Hj. induction ops as [| m ops IH]; simpl; [auto |].
  destruct (source_of ops n (i, j)) as [i' j']. simpl in IH.
  apply source_position_lt; tauto.
Qed.

Lemma cell_apply_ops {A : Type} (ops : list PIL.Transpose) (n : nat)
  (im : PIL.Image A) (i j : nat) :
  is_square n im -> (i < n)%nat -> (j < n)%nat ->
  np.cell (apply_ops ops im) i j =
  np.cell im (fst (source_of ops n (i, j))) (snd (source_of ops n (i, j))).
Proof.
  unfold apply_ops. revert im.
  induction ops as [| m ops IH]; intros im Hsq Hi Hj; simpl; [reflexivity |].
  rewrite IH by (try apply is_square_transpose; assumption).
  destruct (source_of_lt ops n i j Hi Hj) as [Hi' Hj'].
  destruct (source_of ops n (i, j)) as [i' j']. simpl in Hi', Hj'. simpl fst. simpl snd.
  apply cell_transpose; assumption.
Qed.

Lemma is_square_map {A B : Type} (f : A -> B) (n : nat) (im : list (list A)) :
  is_square n im -> is_square n (map (map f) im).
Proof.
  intros [Hlen Hrows]. split; [rewrite length_map; exact Hlen |].
  apply Forall_map. eapply Forall_impl; [exact Hrows |].
  intros r Hr. simpl. rewrite length_map. exact Hr.
Qed.

Lemma is_square_repeat {A : Type} (x : A) (n : nat) :
  is_square n (repeat (repeat x n) n).
Proof.
  split; [apply repeat_length |].
  apply List.Forall_forall. intros r Hr. apply repeat_spec in Hr. subst r.
  apply repeat_length.
Qed.

Lemma flip_flip {A : Type} (im : PIL.Image A) :
  map (@rev A) (map (@rev A) im) = im.
Proof.
  rewrite map_map. erewrite map_ext; [apply map_id |].
  intros r. apply rev_involutive.
Qed.

Lemma rotate_90_270 {A : Type} (n : nat) (im : PIL.Image A) :
  is_square n im ->
  PIL.transpose PIL.ROTATE_270 (PIL.transpose PIL.ROTATE_90 im) = im /\
  PIL.transpose PIL.ROTATE_90 (PIL.transpose PIL.ROTATE_270 im) = im.
Proof.
  intros Hsq. split; apply (square_ext n);
    try (repeat apply is_square_transpose); try exact Hsq;
    intros i j Hi Hj.
  - rewrite (cell_transpose _ n) by (try apply is_square_transpose; assumption).
    cbn [source_position fst snd].
    rewrite (cell_transpose _ n) by (try assumption; lia).
    cbn [source_position fst snd]. f_equal. lia.
  - rewrite (cell_transpose _ n) by (try apply is_square_transpose; assumption).
    cbn [source_position fst snd].
    rewrite (cell_transpose _ n) by (try assumption; lia).
    cbn [source_position fst snd]. f_equal. lia.
Qed.

(** X15: on square patches of side n, the flip and rotate tests of lines
    164-178 move the pixels of the image patch and of the label patch in
    the same way: position (i, j) of either output holds the pixel of the
    corresponding input at the position [source_of] computes from the flip
    and rotate modes, and both outputs are squares of side n again. *)
Theorem X15_augment_pixel_map {A B : Type} (flip rotate : string) (n : nat)
  (img : PIL.Image A) (label_img : PIL.Image B) (i j : nat) :
  is_square n img -> is_square n label_img ->
  (i < n)%nat -> (j < n)%nat ->
  let src := source_of (flip_ops flip ++ rotate_ops rotate) n (i, j) in
  (fst src < n)%nat /\ (snd src < n)%nat /\
  np.cell (fst (augment flip rotate (img, label_img))) i j
    = np.cell img (fst src) (snd src) /\
  np.cell (snd (augment flip rotate (img, label_img))) i j
    = np.cell label_img (fst src) (snd src) /\
  is_square n (fst (augment flip rotate (img, label_img))) /\
  is_square n (snd (augment flip rotate (img, label_img))).
Proof.
  intros Himg Hlab Hi Hj src. rewrite augment_ops. cbn [fst snd].
  destruct (source_of_lt (flip_ops flip ++ rotate_ops rotate) n i j Hi Hj)
    as [Hi' Hj'].
  split; [exact Hi' |]. split; [exact Hj' |].
  split; [apply cell_apply_ops; assumption |].
  split; [apply cell_apply_ops; assumption |].
  split; apply is_square_apply_ops; assumption.
Qed.

(** X16: how the modes compose on a square patch of side n: the flip
    followed by the rotation by 90 degrees is the transposition, output
    (i, j) being input (j, i); followed by the rotation by 180 degrees it
    is the top-bottom flip; followed by the rotation by 270 degrees it is
    the transposition along the other diagonal. *)
Theorem X16_flip_then_rotate {A B : Type} (n : nat)
  (img : PIL.Image A) (label_img : PIL.Image B) (i j : nat) :
  is_square n img -> is_square n label_img ->
  (i < n)%nat -> (j < n)%nat ->
  np.cell (fst (augment "FLIP_LEFT_RIGHT" "ROTATE_90" (img, label_img))) i j
    = np.cell img j i /\
  np.cell (snd (augment "FLIP_LEFT_RIGHT" "ROTATE_90" (img, label_img))) i j
    = np.cell label_img j i /\
  np.cell (fst (augment "FLIP_LEFT_RIGHT" "ROTATE_180" (img, label_img))) i j
    = np.cell img (n - S i) j /\
  np.cell (fst (augment "FLIP_LEFT_RIGHT" "ROTATE_270" (img, label_img))) i j
    = np.cell img (n - S j) (n - S i).
Proof.
  intros Himg Hlab Hi Hj. rewrite !augment_ops. cbn [fst snd].
  rewrite !(cell_apply_ops _ n) by assumption.
  simpl. repeat split; f_equal; lia.
Qed.

(** X17: the transforms undo one another: flipping twice and rotating
    twice by 180 degrees give back both patches, whatever their shape, and
    on square patches the rotation by 270 degrees undoes the rotation by
    90 degrees and conversely. *)
Theorem X17_transforms_undo {A B : Type} (n : nat)
  (img : PIL.Image A) (label_img : PIL.Image B) :
  augment "FLIP_LEFT_RIGHT" "NONE"
          (augment "FLIP_LEFT_RIGHT" "NONE" (img, label_img))
    = (img, label_img) /\
  augment "NONE" "ROTATE_180" (augment "NONE" "ROTATE_180" (img, label_img))
    = (img, label_img) /\
  (is_square n img -> is_square n label_img ->
   augment "NONE" "ROTATE_270" (augment "NONE" "ROTATE_90" (img, label_img))
     = (img, label_img) /\
   augment "NONE" "ROTATE_90" (augment "NONE" "ROTATE_270" (img, label_img))
     = (img, label_img)).
Proof.
  split; [| split].
  - unfold augment. simpl. rewrite !flip_flip. reflexivity.
  - unfold augment. simpl.
    rewrite !map_rev, !rev_involutive, !flip_flip. reflexivity.
  - intros Himg Hlab.
    destruct (rotate_90_270 n img Himg) as [H1 H2].
    destruct (rotate_90_270 n label_img Hlab) as [H3 H4].
    unfold augment. cbn [String.eqb Ascii.eqb Bool.eqb].
    split; f_equal; assumption.
Qed.

Section OutputShapes.

Variable utils : helpers.

(** The label raster is stored exactly when a label path was given. *)
Lemma constructed_label (self : params) (ds : WSIStridedPatchDataset) :
  _preprocess utils self = Ok ds ->
  match _label_path ds with
  | Some _ => exists l, _label_slide ds = Some l
  | None => _label_slide ds = None
  end.
Proof.
  unfold _preprocess. intros H. bind_inv H. injection H as <-. simpl.
  destruct (_label_path self) as [path |].
  - destruct (ReadWholeSlideImage_L utils path) as [lab |]; [| discriminate].
    simpl in E0. injection E0 as <-. eauto.
  - injection E0 as <-. reflexivity.
Qed.

(** X18: if the patches cut at the entries of the index are squares of
    side [image_size], then at every valid index of a constructed dataset
    indexed access returns, for every flip, rotate and normalize setting,
    an image array and a label array of [image_size] rows and
    [image_size] columns, together with an entry of the index. *)
Theorem X18_output_shapes
  (wsi_path : string) (mask_path label_path : option string)
  (image_size : Z) (normalize : bool) (flip rotate : string)
  (sampling_stride : Z) (roi_masking : bool)
  (ds : WSIStridedPatchDataset) (idx : Z) :
  0 <= image_size ->
  __init__ utils wsi_path mask_path label_path image_size normalize flip
           rotate sampling_stride roi_masking = Ok ds ->
  0 <= idx < __len__ ds ->
  (forall x y,
     In (x, y) (coordinates ds) ->
     is_square (Z.to_nat image_size)
               (getImagePatch utils pixel (get_image ds) (x, y) image_size)) ->
  (forall l x y,
     get_label_mask ds = Ok l ->
     In (x, y) (coordinates ds) ->
     is_square (Z.to_nat image_size)
               (getImagePatch utils Z l (x, y) image_size)) ->
  exists img x y label_img,
    __getitem__ utils ds idx = Ok (img, x, y, label_img) /\
    In (x, y) (coordinates ds) /\
    is_square (Z.to_nat image_size) img /\
    is_square (Z.to_nat image_size) label_img.
Proof.
  unfold __init__, get_image. intros Hsize Hds Hidx Himg Hlab.
  destruct (__getitem___valid utils _ ds idx Hds Hidx)
    as (x & y & Hx & Hy & Hget).
  pose proof (lookup_coordinates ds _ x y Hx Hy) as Hin.
  pose proof (constructed_label _ _ Hds) as Hlabel.
  destruct (_preprocess_inv utils _ _ Hds) as (_ & Hself & _).
  assert (Hpatch : exists lab0,
             label_patch utils ds x y = Ok lab0 /\
             is_square (Z.to_nat image_size) lab0).
  { unfold label_patch. rewrite Hself in Hlabel |- *. simpl in Hlabel |- *.
    destruct label_path as [path |].
    - destruct Hlabel as [l Hl]. rewrite Hl. eexists. split; [reflexivity |].
      apply (Hlab l x y); [| exact Hin].
      unfold get_label_mask. rewrite Hl. reflexivity.
    - unfold np.zeros.
      destruct (Z.ltb_spec image_size 0) as [? | _]; [lia |]. simpl.
      eexists. split; [reflexivity |]. apply is_square_repeat. }
  destruct Hpatch as (lab0 & Hlab0 & Hsq0).
  rewrite Hlab0 in Hget. rewrite Hself in Hget. simpl in Hget.
  eexists _, x, y, _. split; [exact Hget |]. split; [exact Hin |].
  split.
  - unfold encode, array_float32.
    destruct normalize; repeat apply is_square_map;
      apply is_square_apply_ops, Himg, Hin.
  - unfold array_uint8. apply is_square_map, is_square_apply_ops, Hsq0.
Qed.

End OutputShapes.

(** * The index as a grid, and the effect of ROI masking *)

Lemma filter_prod {A B : Type} (f : A -> bool) (g : B -> bool)
  (l : list A) (l' : list B) :
  List.filter (fun p => f (fst p) && g (snd p)) (list_prod l l') =
  list_prod (List.filter f l) (List.filter g l').
Proof.
  induction l as [| x l IH]; simpl; [reflexivity |].
  rewrite List.filter_app, IH, filter_map_comm. cbn [fst snd].
  destruct (f x); simpl.
  - reflexivity.
  - rewrite (filter_none (fun _ => false)); reflexivity.
Qed.

Lemma In_mask_positions (mask : np.ndarray2 Z) (i j : nat) :
  In (i, j) (mask_positions mask) <->
  Z.of_nat i < fst (np.shape mask) /\ Z.of_nat j < snd (np.shape mask).
Proof.
  unfold mask_positions, positions. rewrite in_prod_iff, !in_seq. lia.
Qed.

Section Grid.

Variable utils : helpers.

(** On a rectangular mask the coordinate index lists, in row-major order,
    the positions of the mask that are selected. *)
Lemma coordinates_selected (self : params) (ds : WSIStridedPatchDataset) :
  _preprocess utils self = Ok ds ->
  rectangular (_mask ds) ->
  coordinates ds =
  map to_Z2 (List.filter (selected ds) (mask_positions (_mask ds))).
Proof.
  intros Hds Hrect.
  rewrite (coordinates_filter utils _ _ Hds). unfold candidates.
  rewrite (candidates_positions utils _ _ Hds Hrect).
  fold to_Z2. change (fun p : nat * nat => (Z.of_nat (fst p), Z.of_nat (snd p)))
    with to_Z2.
  rewrite filter_map_comm, filter_filter_andb. f_equal.
  apply filter_ext. intros p. unfold selected.
  destruct (_preprocess_inv utils _ _ Hds) as (_ & -> & _). reflexivity.
Qed.

(** The mask a constructed dataset holds is determined by the paths. *)
Lemma constructed_mask (self : params) (ds : WSIStridedPatchDataset) :
  _preprocess utils self = Ok ds ->
  exists slide mask0,
    ReadWholeSlideImage_RGB utils (_wsi_path self) = Ok slide /\
    mask_source utils (_mask_path self) slide = Ok mask0 /\
    _mask ds = BinMorphoProcessMask utils (np.uint8 mask0).
Proof.
  unfold _preprocess. intros H.
  destruct (ReadWholeSlideImage_RGB utils (_wsi_path self)) as [slide |];
    [| discriminate].
  simpl in H. bind_inv H. injection H as <-.
  exists slide, a0. auto.
Qed.

(** X19: without ROI masking, for a positive stride and for a patch size
    and a mask within [int64_safe] (where the [int64] tests of lines
    122-125 are exact, [index_int64_agrees]), the coordinate
    index on a rectangular mask is a full grid: the product, in row-major
    order, of the rows and of the columns that are multiples of the stride
    and leave room for half a patch on both sides; its length is the
    number of such rows times the number of such columns. *)
Theorem X19_index_is_grid
  (wsi_path : string) (mask_path label_path : option string)
  (image_size : Z) (normalize : bool) (flip rotate : string)
  (sampling_stride : Z)
  (ds : WSIStridedPatchDataset) :
  0 < sampling_stride ->
  __init__ utils wsi_path mask_path label_path image_size normalize flip
           rotate sampling_stride false = Ok ds ->
  rectangular (get_mask ds) ->
  int64_safe image_size (get_mask ds) ->
  let X := fst (np.shape (get_mask ds)) in
  let Y := snd (np.shape (get_mask ds)) in
  let rows := List.filter (admissible sampling_stride image_size X)
                          (seq 0 (Z.to_nat X)) in
  let cols := List.filter (admissible sampling_stride image_size Y)
                          (seq 0 (Z.to_nat Y)) in
  coordinates ds = map to_Z2 (list_prod rows cols) /\
  __len__ ds = Z.of_nat (length rows) * Z.of_nat (length cols).
Proof.
  intros Hs Hds Hrect _ X Y rows cols.
  unfold __init__ in Hds. unfold get_mask in *.
  assert (Hc : coordinates ds = map to_Z2 (list_prod rows cols)).
  { rewrite (coordinates_selected _ _ Hds Hrect). f_equal.
    unfold rows, cols. rewrite <- filter_prod.
    unfold mask_positions, positions. fold X Y.
    apply filter_ext_in. intros [i j] Hin.
    apply in_prod_iff in Hin. rewrite !in_seq in Hin.
    unfold selected, nonzero_at. cbn [fst snd].
    rewrite (strided_cells utils _ ds i j Hds Hs Hrect). simpl.
    destruct (cell_defined (_mask ds) i j Hrect) as [m Hm];
      [fold X; lia | fold Y; lia |].
    rewrite Hm. simpl.
    destruct (_preprocess_inv utils _ _ Hds) as (_ & -> & _). simpl.
    unfold fits_mask, fits, admissible, lattice_value. cbn [fst snd].
    fold X Y.
    destruct (Z.of_nat i mod sampling_stride =? 0);
      destruct (Z.of_nat j mod sampling_stride =? 0); simpl;
      try reflexivity;
      destruct (Z.of_nat i - image_size / 2 >? 0);
      destruct (Z.of_nat i + image_size / 2 <? X);
      destruct (Z.of_nat j - image_size / 2 >? 0);
      destruct (Z.of_nat j + image_size / 2 <? Y); reflexivity. }
  split; [exact Hc |].
  destruct (constructed_lengths utils _ _ Hds) as (_ & -> & _).
  rewrite Hc, length_map, length_prod. lia.
Qed.

(** X20: ROI masking only removes entries.  For two datasets constructed
    from the same inputs and parameters, one with and one without ROI
    masking, on a rectangular [uint8] mask, the index with ROI masking is
    the index without it restricted, in order, to the centres where the
    mask is nonzero; so it is never longer. *)
Theorem X20_roi_restricts_index
  (wsi_path : string) (mask_path label_path : option string)
  (image_size : Z) (normalize : bool) (flip rotate : string)
  (sampling_stride : Z)
  (ds_roi ds_all : WSIStridedPatchDataset) :
  __init__ utils wsi_path mask_path label_path image_size normalize flip
           rotate sampling_stride true = Ok ds_roi ->
  __init__ utils wsi_path mask_path label_path image_size normalize flip
           rotate sampling_stride false = Ok ds_all ->
  rectangular (get_mask ds_all) ->
  is_uint8 (get_mask ds_all) ->
  get_mask ds_roi = get_mask ds_all /\
  coordinates ds_roi =
    List.filter (on_tissue (get_mask ds_all)) (coordinates ds_all) /\
  __len__ ds_roi <= __len__ ds_all.
Proof.
  unfold __init__, get_mask. intros Hroi Hall Hrect Hu8.
  assert (Hmask : _mask ds_roi = _mask ds_all).
  { destruct (constructed_mask _ _ Hroi) as (s1 & m1 & Hs1 & Hm1 & ->).
    destruct (constructed_mask _ _ Hall) as (s2 & m2 & Hs2 & Hm2 & ->).
    simpl in *. rewrite Hs1 in Hs2. injection Hs2 as <-.
    rewrite Hm1 in Hm2. injection Hm2 as <-. reflexivity. }
  assert (Hrect' : rectangular (_mask ds_roi)) by (rewrite Hmask; exact Hrect).
  assert (Hc : coordinates ds_roi =
               List.filter (on_tissue (_mask ds_all)) (coordinates ds_all)).
  { rewrite (coordinates_selected _ _ Hroi Hrect').
    rewrite (coordinates_selected _ _ Hall Hrect).
    rewrite filter_map_comm, filter_filter_andb, Hmask. f_equal.
    apply filter_ext_in. intros [i j] Hin.
    apply In_mask_positions in Hin.
    unfold selected, on_tissue, to_Z2, nonzero_at. cbn [fst snd].
    rewrite !Nat2Z.id.
    rewrite (strided_cells_any utils _ ds_roi i j Hroi Hrect').
    rewrite (strided_cells_any utils _ ds_all i j Hall Hrect).
    rewrite Hmask. simpl.
    destruct (cell_defined (_mask ds_all) i j Hrect) as [m Hm];
      [lia | lia |].
    rewrite Hm. simpl. pose proof (Hu8 _ _ _ Hm) as Hr.
    destruct (_preprocess_inv utils _ _ Hroi) as (_ & -> & _).
    destruct (_preprocess_inv utils _ _ Hall) as (_ & -> & _). simpl.
    destruct (lattice_at_01 (_mask ds_all) sampling_stride i j) as [-> | ->].
    - reflexivity.
    - rewrite Z.mul_1_l, Z.mod_small by lia. simpl.
      destruct (m =? 0); simpl;
        [| rewrite andb_true_r]; try reflexivity.
      rewrite andb_false_r. reflexivity. }
  split; [exact Hmask |]. split; [exact Hc |].
  destruct (constructed_lengths utils _ _ Hroi) as (_ & -> & _).
  destruct (constructed_lengths utils _ _ Hall) as (_ & -> & _).
  rewrite Hc. apply inj_le, List.filter_length_le.
Qed.

End Grid.

(** * The further properties on concrete inputs *)

Example labelled_constructed :
  __init__ Demo.tissue "wsi" (Some "mask"%string) (Some "label"%string) 2
           false "NONE" "ROTATE_270" 2 true = Ok Cases.ds_labelled.
Proof. vm_compute. reflexivity. Qed.

Example no_room_constructed :
  __init__ Demo.tissue "wsi" (Some "mask"%string) None 6 true
           "NONE" "NONE" 2 true = Ok Cases.ds_no_room.
Proof. vm_compute. reflexivity. Qed.

Example reversed_constructed :
  __init__ Demo.tissue "wsi" (Some "mask"%string) None 2 true
           "NONE" "NONE" (-2) true = Ok Cases.ds_reversed.
Proof. vm_compute. reflexivity. Qed.

Lemma full_rectangular (v : Z) (n m : nat) : rectangular (Demo.full v n m).
Proof.
  unfold rectangular, Demo.full. apply List.Forall_forall. intros r Hr.
  destruct n; [destruct Hr |].
  apply repeat_spec in Hr. subst r. simpl. rewrite !repeat_length.
  reflexivity.
Qed.

Lemma full_is_uint8 (v : Z) (n m : nat) :
  0 <= v < 256 -> is_uint8 (Demo.full v n m).
Proof. intros Hv i j w Hc. apply cell_full in Hc. lia. Qed.

Lemma X1_index_arrays_aligned_witness :
  __init__ Demo.tissue "wsi" (Some "mask"%string) None 2 true
           "FLIP_LEFT_RIGHT" "ROTATE_90" 2 true = Ok Demo.ds_tissue /\
  length (_X_idcs Demo.ds_tissue) = length (_Y_idcs Demo.ds_tissue) /\
  __len__ Demo.ds_tissue = Z.of_nat (length (_X_idcs Demo.ds_tissue)).
Proof.
  split; [vm_compute; reflexivity |].
  destruct (X1_index_arrays_aligned Demo.tissue "wsi" (Some "mask"%string)
              None 2 true "FLIP_LEFT_RIGHT" "ROTATE_90" 2 true Demo.ds_tissue)
    as (H1 & H2 & _).
  - vm_compute. reflexivity.
  - split; assumption.
Defined.

Lemma X2_index_row_major_witness :
  __init__ Demo.tissue "wsi" (Some "mask"%string) None 2 true
           "FLIP_LEFT_RIGHT" "ROTATE_90" 2 true = Ok Demo.ds_tissue /\
  StronglySorted row_major_lt (coordinates Demo.ds_tissue) /\
  List.NoDup (coordinates Demo.ds_tissue).
Proof.
  split; [vm_compute; reflexivity |].
  apply (X2_index_row_major Demo.tissue "wsi" (Some "mask"%string)
           None 2 true "FLIP_LEFT_RIGHT" "ROTATE_90" 2 true Demo.ds_tissue).
  vm_compute. reflexivity.
Defined.

Lemma X3_entries_characterised_witness :
  0 < 2 /\
  __init__ Demo.tissue "wsi" (Some "mask"%string) None 2 true
           "FLIP_LEFT_RIGHT" "ROTATE_90" 2 true = Ok Demo.ds_tissue /\
  rectangular (get_mask Demo.ds_tissue) /\
  is_uint8 (get_mask Demo.ds_tissue) /\
  int64_safe 2 (get_mask Demo.ds_tissue) /\
  In (2, 4) (coordinates Demo.ds_tissue) /\
  ~ In (3, 4) (coordinates Demo.ds_tissue).
Proof.
  assert (Hds : __init__ Demo.tissue "wsi" (Some "mask"%string) None 2 true
                  "FLIP_LEFT_RIGHT" "ROTATE_90" 2 true = Ok Demo.ds_tissue)
    by (vm_compute; reflexivity).
  assert (Hrect : rectangular (get_mask Demo.ds_tissue))
    by apply full_rectangular.
  assert (Hu8 : is_uint8 (get_mask Demo.ds_tissue))
    by (apply full_is_uint8; lia).
  assert (Hsafe : int64_safe 2 (get_mask Demo.ds_tissue))
    by (unfold int64_safe; repeat split; vm_compute; discriminate).
  split; [lia |]. split; [exact Hds |]. split; [exact Hrect |].
  split; [exact Hu8 |]. split; [exact Hsafe |]. split.
  - apply (X3_entries_characterised Demo.tissue "wsi" (Some "mask"%string)
             None 2 true "FLIP_LEFT_RIGHT" "ROTATE_90" 2 true Demo.ds_tissue
             2 4 ltac:(lia) Hds Hrect Hu8 Hsafe).
    repeat split; try (simpl; lia); try reflexivity.
    intros _. exists 1. split; [reflexivity | lia].
  - intros Hin.
    apply (X3_entries_characterised Demo.tissue "wsi" (Some "mask"%string)
             None 2 true "FLIP_LEFT_RIGHT" "ROTATE_90" 2 true Demo.ds_tissue
             3 4 ltac:(lia) Hds Hrect Hu8 Hsafe) in Hin.
    destruct Hin as (_ & _ & Hmod & _). vm_compute in Hmod. discriminate.
Defined.

Lemma X4_roi_entries_on_tissue_witness :
  __init__ Demo.tissue "wsi" (Some "mask"%string) None 2 true
           "FLIP_LEFT_RIGHT" "ROTATE_90" 2 true = Ok Demo.ds_tissue /\
  _X_idcs Demo.ds_tissue !! 1%nat = Some 2 /\
  _Y_idcs Demo.ds_tissue !! 1%nat = Some 4 /\
  exists m, np.cell (get_mask Demo.ds_tissue) 2 4 = Some m /\ m <> 0.
Proof.
  split; [vm_compute; reflexivity |].
  split; [reflexivity |]. split; [reflexivity |].
  destruct (X4_roi_entries_on_tissue Demo.tissue "wsi" (Some "mask"%string)
              None 2 true "FLIP_LEFT_RIGHT" "ROTATE_90" 2 Demo.ds_tissue
              1 2 4) as (_ & _ & H).
  - vm_compute. reflexivity.
  - reflexivity.
  - reflexivity.
  - exact H.
Defined.

Lemma X5_constructs_iff_candidate_witness :
  ReadWholeSlideImage_RGB Demo.glass "wsi" = Ok (Demo.slide 6 6) /\
  label_decodes Demo.glass None /\
  mask_source Demo.glass (Some "mask"%string) (Demo.slide 6 6)
    = Ok (Demo.full 0 6 6) /\
  2 <> 0 /\
  rectangular (BinMorphoProcessMask Demo.glass (np.uint8 (Demo.full 0 6 6))) /\
  is_uint8 (BinMorphoProcessMask Demo.glass (np.uint8 (Demo.full 0 6 6))) /\
  int64_safe 2 (Demo.full 0 6 6) /\
  (exists ds,
     __init__ Demo.glass "wsi" (Some "mask"%string) None 2 true
              "NONE" "NONE" 2 false = Ok ds /\
     get_mask ds = Demo.full 0 6 6) /\
  __init__ Demo.glass "wsi" (Some "mask"%string) None 2 true
           "NONE" "NONE" 2 true = Raise ValueError.
Proof.
  assert (Hrect : rectangular
                    (BinMorphoProcessMask Demo.glass
                       (np.uint8 (Demo.full 0 6 6))))
    by apply (full_rectangular 0 6 6).
  assert (Hu8 : is_uint8
                  (BinMorphoProcessMask Demo.glass
                     (np.uint8 (Demo.full 0 6 6))))
    by (apply (full_is_uint8 0 6 6); lia).
  split; [reflexivity |]. split; [exact I |]. split; [reflexivity |].
  assert (Hsafe : int64_safe 2 (Demo.full 0 6 6))
    by (unfold int64_safe; repeat split; vm_compute; discriminate).
  split; [lia |]. split; [exact Hrect |]. split; [exact Hu8 |].
  split; [exact Hsafe |].
  split.
  - apply (proj1 (X5_constructs_iff_candidate Demo.glass "wsi"
                    (Some "mask"%string) None 2 true "NONE" "NONE" 2 false
                    (Demo.slide 6 6) (Demo.full 0 6 6) eq_refl I eq_refl
                    ltac:(lia) Hrect Hu8)); [| exact Hsafe].
    exists 0%nat, 0%nat, 0. split; [reflexivity |].
    split; [reflexivity | discriminate].
  - apply (X5_constructs_iff_candidate Demo.glass "wsi" (Some "mask"%string)
             None 2 true "NONE" "NONE" 2 true (Demo.slide 6 6)
             (Demo.full 0 6 6) eq_refl I eq_refl ltac:(lia) Hrect Hu8).
    intros i j m Hm _. split; [reflexivity |].
    apply (cell_full 0 m 6 6 i j). exact Hm.
Defined.

Lemma X7_constructs_without_roi_witness :
  ReadWholeSlideImage_RGB Demo.glass "wsi" = Ok (Demo.slide 6 6) /\
  label_decodes Demo.glass None /\
  mask_source Demo.glass (Some "mask"%string) (Demo.slide 6 6)
    = Ok (Demo.full 0 6 6) /\
  -3 <> 0 /\
  int64_safe 2 (Demo.full 0 6 6) /\
  exists ds,
    __init__ Demo.glass "wsi" (Some "mask"%string) None 2 true
             "NONE" "NONE" (-3) false = Ok ds /\
    get_mask ds = Demo.full 0 6 6.
Proof.
  assert (Hsafe : int64_safe 2 (Demo.full 0 6 6))
    by (unfold int64_safe; repeat split; vm_compute; discriminate).
  split; [reflexivity |]. split; [exact I |]. split; [reflexivity |].
  split; [lia |]. split; [exact Hsafe |].
  apply (X7_constructs_without_roi Demo.glass "wsi" (Some "mask"%string)
           None 2 true "NONE" "NONE" (-3) (Demo.slide 6 6) (Demo.full 0 6 6)).
  - reflexivity.
  - exact I.
  - reflexivity.
  - lia.
  - apply (full_rectangular 0 6 6).
  - simpl. lia.
  - simpl. lia.
  - exact Hsafe.
Defined.

Lemma X6_negative_stride_lattice_witness :
  -2 < 0 /\
  __init__ Demo.tissue "wsi" (Some "mask"%string) None 2 true
           "NONE" "NONE" (-2) true = Ok Cases.ds_reversed /\
  rectangular (get_mask Cases.ds_reversed) /\
  np.cell (get_strided_mask Cases.ds_reversed) 3 5 = Some 1 /\
  np.cell (get_strided_mask Cases.ds_reversed) 0 0 = Some 0.
Proof.
  assert (Hds : __init__ Demo.tissue "wsi" (Some "mask"%string) None 2 true
                  "NONE" "NONE" (-2) true = Ok Cases.ds_reversed)
    by (vm_compute; reflexivity).
  assert (Hrect : rectangular (get_mask Cases.ds_reversed))
    by apply full_rectangular.
  split; [lia |]. split; [exact Hds |]. split; [exact Hrect |].
  split.
  - rewrite (X6_negative_stride_lattice Demo.tissue "wsi"
               (Some "mask"%string) None 2 true "NONE" "NONE" (-2) true
               Cases.ds_reversed 3 5 ltac:(lia) Hds Hrect).
    reflexivity.
  - rewrite (X6_negative_stride_lattice Demo.tissue "wsi"
               (Some "mask"%string) None 2 true "NONE" "NONE" (-2) true
               Cases.ds_reversed 0 0 ltac:(lia) Hds Hrect).
    reflexivity.
Defined.

Lemma X8_mask_too_small_witness :
  __init__ Demo.tissue "wsi" (Some "mask"%string) None 6 true
           "NONE" "NONE" 2 true = Ok Cases.ds_no_room /\
  (fst (np.shape (get_mask Cases.ds_no_room)) <= 2 * (6 / 2) + 1 \/
   snd (np.shape (get_mask Cases.ds_no_room)) <= 2 * (6 / 2) + 1) /\
  __len__ Cases.ds_no_room = 0 /\
  __getitem__ Demo.tissue Cases.ds_no_room 0 = Raise IndexError.
Proof.
  assert (Hds : __init__ Demo.tissue "wsi" (Some "mask"%string) None 6 true
                  "NONE" "NONE" 2 true = Ok Cases.ds_no_room)
    by (vm_compute; reflexivity).
  assert (Hsmall : fst (np.shape (get_mask Cases.ds_no_room))
                     <= 2 * (6 / 2) + 1 \/
                   snd (np.shape (get_mask Cases.ds_no_room))
                     <= 2 * (6 / 2) + 1)
    by (left; vm_compute; discriminate).
  split; [exact Hds |]. split; [exact Hsmall |].
  destruct (X8_mask_too_small Demo.tissue "wsi" (Some "mask"%string) None 6
              true "NONE" "NONE" 2 true Cases.ds_no_room Hds Hsmall)
    as (Hlen & _ & Hget).
  split; [exact Hlen | apply Hget].
Defined.

Lemma X9_access_returns_entry_witness :
  __init__ Demo.tissue "wsi" (Some "mask"%string) (Some "label"%string) 2
           false "NONE" "ROTATE_270" 2 true = Ok Cases.ds_labelled /\
  is_ok (__getitem__ Demo.tissue Cases.ds_labelled (-3)) = true /\
  exists x y,
    In (x, y) (coordinates Cases.ds_labelled) /\
    x - 2 / 2 > 0 /\
    x + 2 / 2 < fst (np.shape (get_mask Cases.ds_labelled)).
Proof.
  assert (Hds : __init__ Demo.tissue "wsi" (Some "mask"%string)
                  (Some "label"%string) 2 false "NONE" "ROTATE_270" 2 true
                = Ok Cases.ds_labelled)
    by (vm_compute; reflexivity).
  split; [exact Hds |]. split; [vm_compute; reflexivity |].
  destruct (__getitem__ Demo.tissue Cases.ds_labelled (-3))
    as [[[[img x] y] label_img] |] eqn:Hget; [| vm_compute in Hget; discriminate].
  exists x, y.
  destruct (X9_access_returns_entry Demo.tissue "wsi" (Some "mask"%string)
              (Some "label"%string) 2 false "NONE" "ROTATE_270" 2 true
              Cases.ds_labelled (-3) img x y label_img Hds Hget)
    as (_ & Hin & H1 & H2 & _).
  auto.
Defined.

Lemma X10_decode_failure_propagates_witness :
  (exists slide path,
     ReadWholeSlideImage_RGB Demo.tissue "wsi" = Ok slide /\
     label_decodes Demo.tissue None /\
     Some "missing"%string = Some path /\
     ReadWholeSlideImage_L Demo.tissue path = Raise DecodeError) /\
  __init__ Demo.tissue "wsi" (Some "missing"%string) None 2 true
           "NONE" "NONE" 0 true = Raise DecodeError.
Proof.
  assert (H : exists slide path,
            ReadWholeSlideImage_RGB Demo.tissue "wsi" = Ok slide /\
            label_decodes Demo.tissue None /\
            Some "missing"%string = Some path /\
            ReadWholeSlideImage_L Demo.tissue path = Raise DecodeError).
  { exists (Demo.slide 6 6), "missing"%string.
    split; [reflexivity |]. split; [exact I |]. split; reflexivity. }
  split; [exact H |].
  apply (X10_decode_failure_propagates Demo.tissue "wsi"
           (Some "missing"%string) None 2 true "NONE" "NONE" 0 true
           DecodeError).
  right. right. exact H.
Defined.

Lemma X11_accessors_witness :
  __init__ Demo.tissue "wsi" (Some "mask"%string) (Some "label"%string) 2
           false "NONE" "ROTATE_270" 2 true = Ok Cases.ds_labelled /\
  __init__ Demo.tissue "wsi" (Some "mask"%string) None 2 true
           "FLIP_LEFT_RIGHT" "ROTATE_90" 2 true = Ok Demo.ds_tissue /\
  (exists l, ReadWholeSlideImage_L Demo.tissue "label" = Ok l /\
             get_label_mask Cases.ds_labelled = Ok l) /\
  get_label_mask Demo.ds_tissue = Raise AttributeError.
Proof.
  assert (Hl : __init__ Demo.tissue "wsi" (Some "mask"%string)
                 (Some "label"%string) 2 false "NONE" "ROTATE_270" 2 true
               = Ok Cases.ds_labelled)
    by (vm_compute; reflexivity).
  assert (Ht : __init__ Demo.tissue "wsi" (Some "mask"%string) None 2 true
                 "FLIP_LEFT_RIGHT" "ROTATE_90" 2 true = Ok Demo.ds_tissue)
    by (vm_compute; reflexivity).
  split; [exact Hl |]. split; [exact Ht |]. split.
  - apply (X11_accessors Demo.tissue "wsi" (Some "mask"%string)
             (Some "label"%string) 2 false "NONE" "ROTATE_270" 2 true
             Cases.ds_labelled Hl).
  - apply (X11_accessors Demo.tissue "wsi" (Some "mask"%string) None 2 true
             "FLIP_LEFT_RIGHT" "ROTATE_90" 2 true Demo.ds_tissue Ht).
Defined.

Lemma X13_length_bound_witness :
  0 < 2 /\
  __init__ Demo.tissue "wsi" (Some "mask"%string) None 2 true
           "FLIP_LEFT_RIGHT" "ROTATE_90" 2 true = Ok Demo.ds_tissue /\
  rectangular (get_mask Demo.ds_tissue) /\
  __len__ Demo.ds_tissue <= ((6 + 2 - 1) / 2) * ((6 + 2 - 1) / 2).
Proof.
  split; [lia |]. split; [vm_compute; reflexivity |].
  split; [apply full_rectangular |].
  apply (X13_length_bound Demo.tissue "wsi" (Some "mask"%string) None 2 true
           "FLIP_LEFT_RIGHT" "ROTATE_90" 2 true Demo.ds_tissue).
  - lia.
  - vm_compute. reflexivity.
  - apply full_rectangular.
Defined.

Lemma X14_rescale_monotone_witness :
  0 <= 0 /\ 0 < 255 /\ 255 <= 255 /\
  SFltb (rescale (f32.of_Z 0)) (rescale (f32.of_Z 255)) = true.
Proof.
  split; [lia |]. split; [lia |]. split; [lia |].
  apply (X14_rescale_monotone 0 255); lia.
Defined.

Lemma square2 (a b c d : Z) : is_square 2 [[a; b]; [c; d]].
Proof. split; [reflexivity | repeat constructor]. Qed.

Lemma X15_augment_pixel_map_witness :
  is_square 2 Cases.img2 /\ is_square 2 Cases.lab2 /\
  (0 < 2)%nat /\ (1 < 2)%nat /\
  np.cell (fst (augment "FLIP_LEFT_RIGHT" "ROTATE_270"
                        (Cases.img2, Cases.lab2))) 0 1
    = np.cell Cases.img2 0 1 /\
  np.cell (snd (augment "FLIP_LEFT_RIGHT" "ROTATE_270"
                        (Cases.img2, Cases.lab2))) 0 1
    = np.cell Cases.lab2 0 1.
Proof.
  split; [apply square2 |]. split; [apply square2 |].
  split; [lia |]. split; [lia |].
  destruct (X15_augment_pixel_map "FLIP_LEFT_RIGHT" "ROTATE_270" 2
              Cases.img2 Cases.lab2 0 1 (square2 1 2 3 4) (square2 5 6 7 8)
              ltac:(lia) ltac:(lia)) as (_ & _ & H1 & H2 & _).
  split; [exact H1 | exact H2].
Defined.

Lemma X16_flip_then_rotate_witness :
  is_square 2 Cases.img2 /\ is_square 2 Cases.lab2 /\
  (0 < 2)%nat /\ (1 < 2)%nat /\
  np.cell (fst (augment "FLIP_LEFT_RIGHT" "ROTATE_90"
                        (Cases.img2, Cases.lab2))) 0 1
    = np.cell Cases.img2 1 0.
Proof.
  split; [apply square2 |]. split; [apply square2 |].
  split; [lia |]. split; [lia |].
  apply (X16_flip_then_rotate 2 Cases.img2 Cases.lab2 0 1
           (square2 1 2 3 4) (square2 5 6 7 8)); lia.
Defined.

Lemma X17_transforms_undo_witness :
  is_square 2 Cases.img2 /\ is_square 2 Cases.lab2 /\
  augment "NONE" "ROTATE_270"
          (augment "NONE" "ROTATE_90" (Cases.img2, Cases.lab2))
    = (Cases.img2, Cases.lab2).
Proof.
  split; [apply square2 |]. split; [apply square2 |].
  apply (X17_transforms_undo 2 Cases.img2 Cases.lab2);
    apply square2.
Defined.

Lemma X18_output_shapes_witness :
  0 <= 2 /\
  __init__ Demo.tissue "wsi" (Some "mask"%string) (Some "label"%string) 2
           false "NONE" "ROTATE_270" 2 true = Ok Cases.ds_labelled /\
  0 <= 3 < __len__ Cases.ds_labelled /\
  exists img x y label_img,
    __getitem__ Demo.tissue Cases.ds_labelled 3 = Ok (img, x, y, label_img) /\
    is_square (Z.to_nat 2) img /\
    is_square (Z.to_nat 2) label_img.
Proof.
  assert (Hds : __init__ Demo.tissue "wsi" (Some "mask"%string)
                  (Some "label"%string) 2 false "NONE" "ROTATE_270" 2 true
                = Ok Cases.ds_labelled)
    by (vm_compute; reflexivity).
  split; [lia |]. split; [exact Hds |].
  split; [split; vm_compute; [discriminate | reflexivity] |].
  destruct (X18_output_shapes Demo.tissue "wsi" (Some "mask"%string)
              (Some "label"%string) 2 false "NONE" "ROTATE_270" 2 true
              Cases.ds_labelled 3)
    as (img & x & y & lab & Hget & _ & H1 & H2).
  - lia.
  - exact Hds.
  - split; vm_compute; [discriminate | reflexivity].
  - intros x y Hin. simpl in Hin.
    destruct Hin as [E | [E | [E | [E | []]]]]; injection E as <- <-;
      (split; [reflexivity | repeat constructor]).
  - intros l x y Hl Hin. injection Hl as <-. simpl in Hin.
    destruct Hin as [E | [E | [E | [E | []]]]]; injection E as <- <-;
      (split; [reflexivity | repeat constructor]).
  - exists img, x, y, lab. auto.
Defined.

Lemma X12_strided_mask_cells_witness :
  __init__ Demo.tissue "wsi" (Some "mask"%string) None 2 true
           "NONE" "NONE" (-2) true = Ok Cases.ds_reversed /\
  np.shape (get_strided_mask Cases.ds_reversed)
    = np.shape (get_mask Cases.ds_reversed) /\
  (np.cell (get_strided_mask Cases.ds_reversed) 1 1 = Some 1 ->
   exists m,
     np.cell (get_mask Cases.ds_reversed) 1 1 = Some m /\
     (1 = 0 \/ 1 = m mod 256)).
Proof.
  split; [vm_compute; reflexivity |].
  destruct (X12_strided_mask_cells Demo.tissue "wsi" (Some "mask"%string)
              None 2 true "NONE" "NONE" (-2) true Cases.ds_reversed)
    as [Hshape Hcells].
  - vm_compute. reflexivity.
  - split; [exact Hshape |]. apply Hcells.
Defined.

Example holed_constructed :
  __init__ Cases.holed "wsi" (Some "mask"%string) None 2 true
           "NONE" "NONE" 2 true = Ok Cases.ds_holed_roi /\
  __init__ Cases.holed "wsi" (Some "mask"%string) None 2 true
           "NONE" "NONE" 2 false = Ok Cases.ds_holed_all.
Proof. split; vm_compute; reflexivity. Qed.

Lemma X19_index_is_grid_witness :
  0 < 2 /\
  __init__ Cases.holed "wsi" (Some "mask"%string) None 2 true
           "NONE" "NONE" 2 false = Ok Cases.ds_holed_all /\
  rectangular (get_mask Cases.ds_holed_all) /\
  int64_safe 2 (get_mask Cases.ds_holed_all) /\
  coordinates Cases.ds_holed_all
    = map to_Z2 (list_prod [2; 4]%nat [2; 4]%nat) /\
  __len__ Cases.ds_holed_all = 2 * 2.
Proof.
  assert (Hrect : rectangular (get_mask Cases.ds_holed_all))
    by (unfold rectangular; simpl; repeat constructor).
  assert (Hsafe : int64_safe 2 (get_mask Cases.ds_holed_all))
    by (unfold int64_safe; repeat split; vm_compute; discriminate).
  split; [lia |]. split; [vm_compute; reflexivity |].
  split; [exact Hrect |]. split; [exact Hsafe |].
  apply (X19_index_is_grid Cases.holed "wsi" (Some "mask"%string) None 2 true
           "NONE" "NONE" 2 Cases.ds_holed_all).
  - lia.
  - vm_compute. reflexivity.
  - exact Hrect.
  - exact Hsafe.
Defined.

Lemma X20_roi_restricts_index_witness :
  __init__ Cases.holed "wsi" (Some "mask"%string) None 2 true
           "NONE" "NONE" 2 true = Ok Cases.ds_holed_roi /\
  __init__ Cases.holed "wsi" (Some "mask"%string) None 2 true
           "NONE" "NONE" 2 false = Ok Cases.ds_holed_all /\
  rectangular (get_mask Cases.ds_holed_all) /\
  is_uint8 (get_mask Cases.ds_holed_all) /\
  coordinates Cases.ds_holed_roi =
    List.filter (on_tissue (get_mask Cases.ds_holed_all))
                (coordinates Cases.ds_holed_all) /\
  __len__ Cases.ds_holed_roi <= __len__ Cases.ds_holed_all.
Proof.
  assert (Hrect : rectangular (get_mask Cases.ds_holed_all))
    by (unfold rectangular; simpl; repeat constructor).
  assert (Hu8 : is_uint8 (get_mask Cases.ds_holed_all)).
  { intros i j v Hc.
    do 6 (destruct i as [| i]; [do 6 (destruct j as [| j];
      [injection Hc as <-; lia |]); destruct j; discriminate |]).
    destruct i; discriminate. }
  split; [vm_compute; reflexivity |]. split; [vm_compute; reflexivity |].
  split; [exact Hrect |]. split; [exact Hu8 |].
  apply (X20_roi_restricts_index Cases.holed "wsi" (Some "mask"%string) None
           2 true "NONE" "NONE" 2 Cases.ds_holed_roi Cases.ds_holed_all).
  - vm_compute. reflexivity.
  - vm_compute. reflexivity.
  - exact Hrect.
  - exact Hu8.
Defined.
